(** * Telegram Wiki Bot: a shallow embedding of [src/index.ts]

    The bot keeps five Postgres tables and one in-memory map of pending
    per-user inputs.  Every function of [src/index.ts] that touches them is
    embedded below as a computation in a state-and-exception monad over a
    [World] (tables, in-memory map, trace of calls to the outside).

    Boundary of the model.
    - The collaborators can throw: the Gemini endpoint, the two sinks
      (Notion, GitHub), Telegram's file-link resolution and the notifications
      that the bot sends on its own ([bot.telegram.sendMessage]).  Their
      answers come from an [Env] of oracles that see the trace so far, so
      that two invocations may be answered differently.
    - A Postgres statement is the function on tables that its SQL text
      denotes; the keys that the text names in [ON CONFLICT] are modelled.
      The columns that take what a user or the classifier has written are
      modelled with their width or range, and a value that the column
      refuses makes the statement throw: [combine_threshold_minutes] and the
      id of an edited post are INT, [notion_database_id] and [github_repo]
      are VARCHAR(255), the title of a draft is VARCHAR(500).  The other
      columns take what Telegram and the sinks hand over.
    - The owners of a tick are the rows of a query without ORDER BY: they
      come in an order that the [Env] gives.
    - A reply within a chat ([ctx.reply] and the like) is an event appended
      to the trace.
    - JavaScript strings are [string]s holding UTF-8; a [Date] is its time
      value in milliseconds. *)

From Stdlib Require Import ZArith Lia List Bool Ascii String.
From Stdlib Require Import DecimalString.
From stdpp Require Import base option list gmap strings sorting.

Set Warnings "-register-all".

Local Open Scope string_scope.
Local Open Scope list_scope.
Local Open Scope Z_scope.

(** ** ECMAScript built-ins used by the source *)

Module JS.

(** Characters as code points of one byte. *)
Definition code (c : ascii) : Z := Z.of_N (N_of_ascii c).
Definition chr (z : Z) : ascii := ascii_of_N (Z.to_N z).

Definition chars (s : string) : list ascii := list_ascii_of_string s.
Definition str (l : list ascii) : string := string_of_list_ascii l.

(** [x ? a : b] on a string: the empty string is falsy. *)
Definition truthy (s : string) : bool :=
  match s with EmptyString => false | String _ _ => true end.

(** [x ? a : b] on [string | null]. *)
Definition truthy_opt (o : option string) : bool :=
  match o with None => false | Some s => truthy s end.

(** [a || b] on strings. *)
Definition or_else (a b : string) : string := if truthy a then a else b.

(** [a ?? b]. *)
Definition nullish {A} (o : option A) (d : A) : A :=
  match o with Some a => a | None => d end.

(** [Array.prototype.join]. *)
Fixpoint join (sep : string) (l : list string) : string :=
  match l with
  | [] => EmptyString
  | [x] => x
  | x :: rest => x +:+ sep +:+ join sep rest
  end.

(** *** WhiteSpace and LineTerminator, as UTF-8 byte sequences

    U+0009..U+000D, U+0020, U+00A0, U+1680, U+2000..U+200A, U+2028, U+2029,
    U+202F, U+205F, U+3000, U+FEFF. *)
Definition ws1 (a : Z) : bool :=
  ((9 <=? a) && (a <=? 13)) || (a =? 32).

Definition ws2 (a b : Z) : bool := (a =? 194) && (b =? 160).

Definition ws3 (a b c : Z) : bool :=
  ((a =? 225) && (b =? 154) && (c =? 128))
  || ((a =? 226) && (b =? 128)
      && (((128 <=? c) && (c <=? 138)) || (c =? 168) || (c =? 169) || (c =? 175)))
  || ((a =? 226) && (b =? 129) && (c =? 159))
  || ((a =? 227) && (b =? 128) && (c =? 128))
  || ((a =? 239) && (b =? 187) && (c =? 191)).

(** Drop white space from the front; [back] tells that the bytes come
    reversed (the back of the string is trimmed on its reversal). *)
Fixpoint trim_front (back : bool) (l : list ascii) : list ascii :=
  match l with
  | a :: l1 =>
      if ws1 (code a) then trim_front back l1
      else
        match l1 with
        | b :: l2 =>
            if (if back then ws2 (code b) (code a) else ws2 (code a) (code b))
            then trim_front back l2
            else
              match l2 with
              | c :: l3 =>
                  if (if back then ws3 (code c) (code b) (code a)
                      else ws3 (code a) (code b) (code c))
                  then trim_front back l3
                  else l
              | [] => l
              end
        | [] => l
        end
  | [] => []
  end.

(** [String.prototype.trim]. *)
Definition trim (s : string) : string :=
  str (rev (trim_front true (rev (trim_front false (chars s))))).

(** *** Numbers

    A Number is NaN, an infinity, or a finite binary64 value
    [(-1)^neg * m * 2^e]. *)
Inductive number :=
| NaN
| Infinity (neg : bool)
| Finite (neg : bool) (m e : Z).

(** [2^k * p / q] rounded to the nearest integer, ties to even ([0 < q]). *)
Definition round_half_even (p q : Z) : Z :=
  let f := p / q in
  let r := 2 * (p mod q) in
  if r <? q then f
  else if q <? r then f + 1
  else if Z.even f then f else f + 1.

(** The binary64 value nearest to [p / q], for [0 <= p] and [0 < q]:
    [lg] is the binary exponent of [p / q], [e] the exponent of the unit in
    the last place, subnormals included. *)
Definition to_double (neg : bool) (p q : Z) : number :=
  if p =? 0 then Finite neg 0 0
  else
    let e0 := Z.log2 p - Z.log2 q in
    let lg := if (if 0 <=? e0 then q * 2 ^ e0 <=? p else q <=? p * 2 ^ (- e0))
              then e0 else e0 - 1 in
    let e := Z.max (lg - 52) (-1074) in
    let m := if 0 <=? e then round_half_even p (q * 2 ^ e)
             else round_half_even (p * 2 ^ (- e)) q in
    if 2 ^ 2098 <=? m * 2 ^ (e + 1074) then Infinity neg
    else Finite neg m e.

(** [mant * 10^exp10] as a Number. *)
Definition of_decimal (neg : bool) (mant exp10 : Z) : number :=
  if 0 <=? exp10 then to_double neg (mant * 10 ^ exp10) 1
  else to_double neg mant (10 ^ (- exp10)).

(** [Number.isInteger]. *)
Definition isInteger (x : number) : bool :=
  match x with
  | Finite _ m e => (0 <=? e) || (m mod 2 ^ (- e) =? 0)
  | _ => false
  end.

(** The mathematical value of an integral Number. *)
Definition int_value (x : number) : Z :=
  match x with
  | Finite neg m e =>
      let v := if 0 <=? e then m * 2 ^ e else m / 2 ^ (- e) in
      if neg then - v else v
  | _ => 0
  end.

(** [x <= 0]. *)
Definition le_zero (x : number) : bool :=
  match x with
  | NaN => false
  | Infinity neg => neg
  | Finite neg m _ => neg || (m =? 0)
  end.

(** [Boolean(x)] on a Number: [0], [-0] and [NaN] are falsy. *)
Definition number_truthy (x : number) : bool :=
  match x with
  | NaN => false
  | Infinity _ => true
  | Finite _ m _ => negb (m =? 0)
  end.

(** Value of a digit in a base up to 16, if it is one. *)
Definition digit_of (base : Z) (c : ascii) : option Z :=
  let a := code c in
  let v := if (48 <=? a) && (a <=? 57) then a - 48
           else if (97 <=? a) && (a <=? 102) then a - 87
           else if (65 <=? a) && (a <=? 70) then a - 55
           else 16 in
  if v <? base then Some v else None.

(** The longest run of digits at the front: its value when read after [acc],
    how many digits, the rest. *)
Fixpoint digits (base : Z) (acc : Z) (n : Z) (l : list ascii) : Z * Z * list ascii :=
  match l with
  | c :: l' =>
      match digit_of base c with
      | Some v => digits base (acc * base + v) (n + 1) l'
      | None => (acc, n, l)
      end
  | [] => (acc, n, l)
  end.

(** ExponentPart, if the front is one: its value and the rest. *)
Definition exponent_part (l : list ascii) : option (Z * list ascii) :=
  match l with
  | c :: l1 =>
      if (code c =? 101) || (code c =? 69) then
        let '(neg, l2) :=
          match l1 with
          | s :: l2' =>
              if code s =? 45 then (true, l2')
              else if code s =? 43 then (false, l2')
              else (false, l1)
          | [] => (false, l1)
          end in
        let '(v, n, rest) := digits 10 0 0 l2 in
        if n =? 0 then None else Some (if neg then - v else v, rest)
      else None
  | [] => None
  end.

(** StrUnsignedDecimalLiteral other than [Infinity], covering all of [l]. *)
Definition unsigned_decimal (neg : bool) (l : list ascii) : number :=
  let '(ip, ni, l1) := digits 10 0 0 l in
  let '(fp, nf, l2) :=
    match l1 with
    | c :: l1' => if code c =? 46 then
                    let '(v, n, r) := digits 10 ip 0 l1' in (v, Some n, r)
                  else (ip, None, l1)
    | [] => (ip, None, l1)
    end in
  let shape_ok :=
    match nf with
    | Some n => (0 <? ni) || (0 <? n)
    | None => 0 <? ni
    end in
  let frac := match nf with Some n => n | None => 0 end in
  if negb shape_ok then NaN
  else
    match l2 with
    | [] => of_decimal neg fp (- frac)
    | _ :: _ =>
        match exponent_part l2 with
        | Some (ex, []) => of_decimal neg fp (ex - frac)
        | _ => NaN
        end
    end.

(** A literal with radix prefix: digits of base [base] and nothing else. *)
Definition radix_literal (base : Z) (l : list ascii) : number :=
  match digits base 0 0 l with
  | (v, n, []) => if n =? 0 then NaN else to_double false v 1
  | _ => NaN
  end.

(** [Number(s)] on a string (StringToNumber). *)
Definition Number (s : string) : number :=
  match chars (trim s) with
  | [] => Finite false 0 0
  | c :: l =>
      let dflt :=
        if code c =? 45 then
          if String.eqb (str l) "Infinity" then Infinity true
          else unsigned_decimal true l
        else if code c =? 43 then
          if String.eqb (str l) "Infinity" then Infinity false
          else unsigned_decimal false l
        else if String.eqb (str (c :: l)) "Infinity" then Infinity false
        else unsigned_decimal false (c :: l) in
      if code c =? 48 then
        match l with
        | x :: l' =>
            if (code x =? 120) || (code x =? 88) then radix_literal 16 l'
            else if (code x =? 111) || (code x =? 79) then radix_literal 8 l'
            else if (code x =? 98) || (code x =? 66) then radix_literal 2 l'
            else dflt
        | [] => dflt
        end
      else dflt
  end.

(** Decimal digits of an integer, as [Number.prototype.toString] prints an
    integral Number below [10^21]. *)
Definition string_of_Z (z : Z) : string := NilZero.string_of_int (Z.to_int z).

(** Zero-padding on the left to [width] characters. *)
Definition pad (width : nat) (s : string) : string :=
  str (repeat "0"%char (width - String.length s)%nat) +:+ s.

(** *** [Date.prototype.toISOString]

    The time value is split in days and milliseconds of the day; the civil
    date of the day number follows the proleptic Gregorian calendar.  Years
    outside 0..9999 are printed with a sign and six digits. *)
Definition civil_from_days (days : Z) : Z * Z * Z :=
  let z := days + 719468 in
  let era := z / 146097 in
  let doe := z - era * 146097 in
  let yoe := (doe - doe / 1460 + doe / 36524 - doe / 146096) / 365 in
  let doy := doe - (365 * yoe + yoe / 4 - yoe / 100) in
  let mp := (5 * doy + 2) / 153 in
  let d := doy - (153 * mp + 2) / 5 + 1 in
  let m := if mp <? 10 then mp + 3 else mp - 9 in
  let y := yoe + era * 400 + (if m <=? 2 then 1 else 0) in
  (y, m, d).

Definition toISOString (t : Z) : string :=
  let '(y, m, d) := civil_from_days (t / 86400000) in
  let ms := t mod 86400000 in
  let year :=
    if (0 <=? y) && (y <=? 9999) then pad 4 (string_of_Z y)
    else (if y <? 0 then "-" else "+") +:+ pad 6 (string_of_Z (Z.abs y)) in
  year +:+ "-" +:+ pad 2 (string_of_Z m) +:+ "-" +:+ pad 2 (string_of_Z d)
  +:+ "T" +:+ pad 2 (string_of_Z (ms / 3600000))
  +:+ ":" +:+ pad 2 (string_of_Z (ms / 60000 mod 60))
  +:+ ":" +:+ pad 2 (string_of_Z (ms / 1000 mod 60))
  +:+ "." +:+ pad 3 (string_of_Z (ms mod 1000)) +:+ "Z".

(** *** The two regular expressions of the source *)

(** The suffix of [l] that starts at the first occurrence of [c]. *)
Fixpoint from_first (c : ascii) (l : list ascii) : option (list ascii) :=
  match l with
  | [] => None
  | x :: l' => if Ascii.eqb x c then Some l else from_first c l'
  end.

(** [s.match(/\{[\s\S]*\}/)]: leftmost start, greedy body: from the first
    opening brace to the last closing brace after it. *)
Definition match_braces (s : string) : option string :=
  match from_first "{"%char (chars s) with
  | None => None
  | Some l =>
      match from_first "}"%char (rev l) with
      | None => None
      | Some r => Some (str (rev r))
      end
  end.

(** [/^[^/]+\/[^/]+$/.test(s)]: one slash, with something on both sides. *)
Fixpoint owner_slash_repo (seen : bool) (l : list ascii) : bool :=
  match l with
  | [] => false
  | x :: l' =>
      if Ascii.eqb x "/"%char
      then seen && negb (existsb (Ascii.eqb "/"%char) l')
           && match l' with [] => false | _ :: _ => true end
      else owner_slash_repo true l'
  end.

Definition test_owner_repo (s : string) : bool := owner_slash_repo false (chars s).

(** [s.split(sep)] for a separator of one character. *)
Fixpoint split_at (sep : ascii) (cur : list ascii) (l : list ascii) : list string :=
  match l with
  | [] => [str (rev cur)]
  | x :: l' =>
      if Ascii.eqb x sep then str (rev cur) :: split_at sep [] l'
      else split_at sep (x :: cur) l'
  end.

Definition split (sep : ascii) (s : string) : list string := split_at sep [] (chars s).

(** A line feed, and a text in which every apostrophe stands for a double
    quote (how the texts with double quotes are written down here). *)
Definition nl : string := String "010"%char EmptyString.

Definition dq (s : string) : string :=
  str (map (fun c => if Ascii.eqb c "'"%char then "034"%char else c) (chars s)).

(** *** [JSON.parse] *)
Inductive json :=
| JNull
| JBool (b : bool)
| JNumber (x : number)
| JString (s : string)
| JArray (l : list json)
| JObject (l : list (string * json)).

(** JSON white space: space, tab, line feed, carriage return. *)
Fixpoint skip_ws (l : list ascii) : list ascii :=
  match l with
  | c :: l' =>
      if (code c =? 32) || (code c =? 9) || (code c =? 10) || (code c =? 13)
      then skip_ws l' else l
  | [] => []
  end.

(** UTF-8 bytes of a code point (a lone surrogate keeps its three bytes). *)
Definition utf8 (cp : Z) : list ascii :=
  if cp <? 128 then [chr cp]
  else if cp <? 2048 then [chr (192 + cp / 64); chr (128 + cp mod 64)]
  else if cp <? 65536 then
    [chr (224 + cp / 4096); chr (128 + cp / 64 mod 64); chr (128 + cp mod 64)]
  else
    [chr (240 + cp / 262144); chr (128 + cp / 4096 mod 64);
     chr (128 + cp / 64 mod 64); chr (128 + cp mod 64)].

Definition hex4 (a b c d : ascii) : option Z :=
  match digit_of 16 a, digit_of 16 b, digit_of 16 c, digit_of 16 d with
  | Some x, Some y, Some z, Some w => Some (((x * 16 + y) * 16 + z) * 16 + w)
  | _, _, _, _ => None
  end.

(** The low surrogate escaped at the front of [l], if there is one. *)
Definition low_surrogate (l : list ascii) : option (Z * list ascii) :=
  match l with
  | bs :: u :: a :: b :: c :: d :: rest =>
      if (code bs =? 92) && (code u =? 117) then
        match hex4 a b c d with
        | Some lo => if (56320 <=? lo) && (lo <=? 57343) then Some (lo, rest) else None
        | None => None
        end
      else None
  | _ => None
  end.

(** The characters of a string literal after its opening quote; [acc] holds
    the bytes read so far, reversed.  [fuel] bounds the characters read. *)
Fixpoint string_body (fuel : nat) (acc : list ascii) (l : list ascii)
  : option (string * list ascii) :=
  match fuel with
  | O => None
  | S fuel' =>
      match l with
      | [] => None
      | c :: l1 =>
          if code c =? 34 then Some (str (rev acc), l1)
          else if code c <? 32 then None
          else if code c =? 92 then
            match l1 with
            | e :: l2 =>
                let simple (x : Z) := string_body fuel' (chr x :: acc) l2 in
                let k := code e in
                if k =? 34 then simple 34
                else if k =? 92 then simple 92
                else if k =? 47 then simple 47
                else if k =? 98 then simple 8
                else if k =? 102 then simple 12
                else if k =? 110 then simple 10
                else if k =? 114 then simple 13
                else if k =? 116 then simple 9
                else if k =? 117 then
                  match l2 with
                  | a :: b :: c' :: d :: l3 =>
                      match hex4 a b c' d with
                      | Some cu =>
                          match (if (55296 <=? cu) && (cu <=? 56319)
                                 then low_surrogate l3 else None) with
                          | Some (lo, l4) =>
                              string_body fuel'
                                (rev (utf8 (65536 + (cu - 55296) * 1024 + (lo - 56320))) ++ acc)
                                l4
                          | None => string_body fuel' (rev (utf8 cu) ++ acc) l3
                          end
                      | None => None
                      end
                  | _ => None
                  end
                else None
            | [] => None
            end
          else string_body fuel' (c :: acc) l1
      end
  end.

(** A JSON number at the front of [l]: [-]? int frac? exp?. *)
Definition json_number (l : list ascii) : option (number * list ascii) :=
  let '(neg, l0) :=
    match l with
    | c :: l' => if code c =? 45 then (true, l') else (false, l)
    | [] => (false, l)
    end in
  let '(ip, ni, l1) := digits 10 0 0 l0 in
  let leading_zero :=
    match l0 with
    | c :: _ => (code c =? 48) && (1 <? ni)
    | [] => false
    end in
  if (ni =? 0) || leading_zero then None
  else
    let frac :=
      match l1 with
      | c :: l1' =>
          if code c =? 46 then
            let '(v, n, r) := digits 10 ip 0 l1' in
            if n =? 0 then None else Some (v, n, r)
          else Some (ip, 0, l1)
      | [] => Some (ip, 0, l1)
      end in
    match frac with
    | None => None
    | Some (fp, nf, l2) =>
        match l2 with
        | c :: _ =>
            if (code c =? 101) || (code c =? 69) then
              match exponent_part l2 with
              | Some (ex, l3) => Some (of_decimal neg fp (ex - nf), l3)
              | None => None
              end
            else Some (of_decimal neg fp (- nf), l2)
        | [] => Some (of_decimal neg fp (- nf), l2)
        end
    end.

(** The literal [w] at the front of [l]. *)
Fixpoint literal (w : list ascii) (l : list ascii) : option (list ascii) :=
  match w, l with
  | [], _ => Some l
  | x :: w', y :: l' => if Ascii.eqb x y then literal w' l' else None
  | _ :: _, [] => None
  end.

(** Recursive descent; [fuel] bounds the nesting and the number of members
    and elements read. *)
Fixpoint value (fuel : nat) (l : list ascii) : option (json * list ascii) :=
  match fuel with
  | O => None
  | S fuel' =>
      match skip_ws l with
      | [] => None
      | c :: l1 =>
          let k := code c in
          if k =? 123 then
            match skip_ws l1 with
            | c2 :: l2 =>
                if code c2 =? 125 then Some (JObject [], l2)
                else
                  match members fuel' [] (c2 :: l2) with
                  | Some (ms, l3) => Some (JObject ms, l3)
                  | None => None
                  end
            | [] => None
            end
          else if k =? 91 then
            match skip_ws l1 with
            | c2 :: l2 =>
                if code c2 =? 93 then Some (JArray [], l2)
                else
                  match elements fuel' [] (c2 :: l2) with
                  | Some (es, l3) => Some (JArray es, l3)
                  | None => None
                  end
            | [] => None
            end
          else if k =? 34 then
            match string_body (S (List.length l1)) [] l1 with
            | Some (s, l2) => Some (JString s, l2)
            | None => None
            end
          else if k =? 116 then
            option_map (fun r => (JBool true, r)) (literal (chars "rue") l1)
          else if k =? 102 then
            option_map (fun r => (JBool false, r)) (literal (chars "alse") l1)
          else if k =? 110 then
            option_map (fun r => (JNull, r)) (literal (chars "ull") l1)
          else
            match json_number (c :: l1) with
            | Some (x, l2) => Some (JNumber x, l2)
            | None => None
            end
      end
  end
with members (fuel : nat) (acc : list (string * json)) (l : list ascii)
  : option (list (string * json) * list ascii) :=
  match fuel with
  | O => None
  | S fuel' =>
      match skip_ws l with
      | q :: l1 =>
          if code q =? 34 then
            match string_body (S (List.length l1)) [] l1 with
            | Some (key, l2) =>
                match skip_ws l2 with
                | colon :: l3 =>
                    if code colon =? 58 then
                      match value fuel' l3 with
                      | Some (v, l4) =>
                          match skip_ws l4 with
                          | d :: l5 =>
                              if code d =? 125 then Some (rev ((key, v) :: acc), l5)
                              else if code d =? 44 then members fuel' ((key, v) :: acc) l5
                              else None
                          | [] => None
                          end
                      | None => None
                      end
                    else None
                | [] => None
                end
            | None => None
            end
          else None
      | [] => None
      end
  end
with elements (fuel : nat) (acc : list json) (l : list ascii)
  : option (list json * list ascii) :=
  match fuel with
  | O => None
  | S fuel' =>
      match value fuel' l with
      | Some (v, l1) =>
          match skip_ws l1 with
          | d :: l2 =>
              if code d =? 93 then Some (rev (v :: acc), l2)
              else if code d =? 44 then elements fuel' (v :: acc) l2
              else None
          | [] => None
          end
      | None => None
      end
  end.

(** [JSON.parse(text)]: [None] stands for the SyntaxError it throws.  Of two
    consecutive steps of the descent one consumes a character, hence the
    fuel. *)
Definition JSON_parse (text : string) : option json :=
  let l := chars text in
  match value (2 * List.length l + 2) l with
  | Some (v, rest) =>
      match skip_ws rest with
      | [] => Some v
      | _ :: _ => None
      end
  | None => None
  end.

(** [o.key] on a parsed value: the last member of that name wins; anything
    but an object has none of the names the source asks for. *)
Definition prop (o : json) (key : string) : option json :=
  match o with
  | JObject ms =>
      match filter (fun kv => fst kv = key) ms with
      | [] => None
      | kv :: rest => Some (snd (List.last rest kv))
      end
  | _ => None
  end.

(** [Boolean(v)] where [v] is a property that may be absent. *)
Definition Boolean (v : option json) : bool :=
  match v with
  | None => false
  | Some JNull => false
  | Some (JBool b) => b
  | Some (JNumber x) => number_truthy x
  | Some (JString s) => truthy s
  | Some (JArray _) => true
  | Some (JObject _) => true
  end.

End JS.

(** ** Data model: the interfaces of the source and the tables of
    [initDatabase] *)

Inductive Status := pending | publishing | published | failed.

(** Table [users]. *)
Record UserRow := {
  u_user_id : Z;
  u_username : option string;
  u_is_authorized : bool;
  u_created_at : Z
}.

(** Interface [UserSettings]. *)
Record UserSettings := {
  user_id : Z;
  auto_publish : bool;
  combine_threshold_minutes : Z;
  notion_database_id : option string;
  github_repo : option string
}.

(** Table [user_settings]: the columns of the interface and [updated_at]. *)
Record UserSettingsRow := {
  settings : UserSettings;
  updated_at : Z
}.

(** Interface [MonitoredSource], table [monitored_sources]. *)
Record MonitoredSource := {
  ms_id : Z;
  ms_user_id : Z;
  chat_id : Z;
  chat_title : option string;
  chat_type : string;
  topic_id : option Z;
  is_active : bool;
  ms_created_at : Z
}.

(** Interface [PendingMessageRow], table [pending_messages]. *)
Record PendingMessageRow := {
  pm_id : Z;
  source_id : Z;
  message_id : Z;
  text : option string;
  pm_media_urls : option (list string);
  sender : option string;
  timestamp : Z;
  is_processed : bool
}.

(** Interface [BlogPostRow], table [blog_posts]. *)
Record BlogPostRow := {
  bp_id : Z;
  bp_user_id : Z;
  title : string;
  content : string;
  bp_media_urls : option (list string);
  source_messages : list Z;
  notion_page_id : option string;
  github_commit_sha : option string;
  status : Status;
  bp_created_at : Z;
  published_at : option Z
}.

(** Interface [AnalysisResult]. *)
Record AnalysisResult := {
  shouldCombine : bool;
  isInformational : bool;
  suggestedTitle : string;
  combinedContent : string
}.

(** Type [UserState]. *)
Inductive UserState :=
| set_notion_db
| set_github_repo
| set_combine_time
| edit_post (postId : Z).

(** The database: five tables in insertion order and the three SERIAL
    sequences. *)
Record DB := {
  users : list UserRow;
  user_settings : list UserSettingsRow;
  monitored_sources : list MonitoredSource;
  pending_messages : list PendingMessageRow;
  blog_posts : list BlogPostRow;
  monitored_sources_id_seq : Z;
  pending_messages_id_seq : Z;
  blog_posts_id_seq : Z
}.

#[global] Instance Status_eq_dec : EqDecision Status.
Proof. solve_decision. Defined.

#[global] Instance UserState_eq_dec : EqDecision UserState.
Proof. solve_decision. Defined.

(** ** What the bot says and does to the outside *)

(** Texts sent through Telegram, one constructor per template of the
    source, carrying what the template interpolates. *)
Inductive Text :=
| NotAuthorized          (* You are not authorized to use this bot. ... *)
| Welcome                (* Telegram Wiki Bot ... Use the menu below *)
| BotStatus (active_sources pending_msgs pending_posts published_posts : Z)
| SettingsMenu (s : UserSettings)
| AskCombineTime         (* Send the number of minutes ... *)
| AskNotionDb            (* Send the Notion database ID ... *)
| AskGithubRepo          (* Send the GitHub repository in the format owner/repo *)
| MainMenuReopened
| SubscribeHelp
| NoSources
| SourcesList (l : list MonitoredSource)
| NoPendingPosts
| PendingPost (p : BlogPostRow)
| UserList (l : list UserRow)
| OnlyOwnerAuthorize
| UsageAuthorize
| UserAuthorized (uid : Z)
| OnlyOwnerRevoke
| UsageRevoke
| UserRevoked (uid : Z)
| UsageUnsubscribe
| Unsubscribed
| NoForwardOrigin
| ForwardNotChannel
| Subscribed (chatTitle : string)
| NotionSaved            (* Notion database saved. *)
| RepoFormat             (* Repo must be in the format owner/repo. Try again. *)
| RepoSaved              (* GitHub repository saved. *)
| NeedPositiveInteger    (* Please send a positive integer for minutes. *)
| CombineUpdated (minutes : Z)
| PostUpdated            (* Post content updated. ... *)
| UnknownAction
| AskEditContent         (* Send the updated content for this post. *)
| Published (post_title : string) (notion github : bool)
| DraftReady (post_title : string).

(** Answers to a callback query. *)
Inductive CbText :=
| CbNone
| CbUnauthorized
| CbInvalidPost
| CbAutoPublish (enabled : bool)
| CbPublishing
| CbRejected.

Inductive Event :=
| Reply (t : Text)                               (* ctx.reply *)
| AnswerCbQuery (t : CbText)                     (* ctx.answerCbQuery *)
| EditMessageReplyMarkup (s : UserSettings)      (* ctx.editMessageReplyMarkup *)
| DeleteMessage                                  (* ctx.deleteMessage *)
| SendMessage (chat : Z) (t : Text)              (* bot.telegram.sendMessage *)
| Next                                           (* next() *)
| GetFileLink (fileId : string)                  (* ctx.telegram.getFileLink *)
| GenerateContent (prompt : string)              (* model.generateContent *)
| NotionCreate (databaseId title content : string) (mediaUrls : list string)
| GitHubCreate (owner repo title content : string) (mediaUrls : list string)
| ConsoleWarn
| ConsoleError.

Inductive Error :=
| AIFormatError      (* new Error('AI response not in expected JSON format') *)
| SyntaxError        (* JSON.parse *)
| TypeError          (* call of a missing method, property of undefined *)
| RepoFormatError    (* new Error('GitHub repo must be in the format owner/repo') *)
| DatabaseError      (* a statement that Postgres rejects *)
| ExternalError.     (* thrown by a collaborator *)

(** The collaborators.  Each oracle sees the trace so far; [None] is a
    throw.  [distinct_order] is the order in which Postgres hands out the
    rows of [SELECT DISTINCT user_id FROM user_settings], a query without an
    ORDER BY: the ids come in the order the table holds them, the rows go
    out in the order the server chooses. *)
Record Env := {
  OWNER_USER_ID : Z;
  Date_now : list Event -> Z;
  distinct_order : list Z -> list Z;
  telegram_sendMessage : list Event -> Z -> Text -> option unit;
  generateContent : list Event -> string -> option string;
  notion_pages_create :
    list Event -> string -> string -> string -> list string -> option string;
  octokit_createOrUpdateFileContents :
    list Event -> string -> string -> string -> string -> list string ->
    option (option string);
  getFileLink : list Event -> string -> option string
}.

(** ** The state-and-exception monad *)

Record World := {
  db : DB;
  userStates : gmap Z UserState;
  trace : list Event
}.

Inductive Outcome (A : Type) :=
| Done (a : A) (w : World)
| Thrown (e : Error) (w : World).
Arguments Done {A} a w.
Arguments Thrown {A} e w.

Definition M (A : Type) : Type := Env -> World -> Outcome A.

Definition world {A} (o : Outcome A) : World :=
  match o with Done _ w => w | Thrown _ w => w end.

#[global] Instance M_ret : MRet M := fun A a _ w => Done a w.

#[global] Instance M_bind : MBind M := fun A B f c env w =>
  match c env w with
  | Done a w' => f a env w'
  | Thrown e w' => Thrown e w'
  end.

#[global] Instance M_fmap : FMap M := fun A B f c env w =>
  match c env w with
  | Done a w' => Done (f a) w'
  | Thrown e w' => Thrown e w'
  end.

Definition throw {A} (e : Error) : M A := fun _ w => Thrown e w.

(** [try { c } catch (error) { h }]. *)
Definition try_catch {A} (c : M A) (h : Error -> M A) : M A := fun env w =>
  match c env w with
  | Done a w' => Done a w'
  | Thrown e w' => h e env w'
  end.

Definition ask : M Env := fun env w => Done env w.
Definition get_db : M DB := fun _ w => Done (db w) w.
Definition get_trace : M (list Event) := fun _ w => Done (trace w) w.

Definition put_db (d : DB) : M unit := fun _ w =>
  Done tt {| db := d; userStates := userStates w; trace := trace w |}.

Definition modify_db (f : DB -> DB) : M unit := fun _ w =>
  Done tt {| db := f (db w); userStates := userStates w; trace := trace w |}.

Definition emit (e : Event) : M unit := fun _ w =>
  Done tt {| db := db w; userStates := userStates w; trace := trace w ++ [e] |}.

Definition get_states : M (gmap Z UserState) := fun _ w => Done (userStates w) w.

Definition modify_states (f : gmap Z UserState -> gmap Z UserState) : M unit :=
  fun _ w => Done tt {| db := db w; userStates := f (userStates w); trace := trace w |}.

(** [Date.now()], also standing for the NOW() of a statement. *)
Definition now : M Z := fun env w => Done (Date_now env (trace w)) w.

(** An awaited call: the event is recorded, then the oracle answers on the
    trace before the call; [None] throws. *)
Definition call {A} (e : Event) (oracle : Env -> list Event -> option A) : M A :=
  fun env w =>
    let w' := {| db := db w; userStates := userStates w; trace := trace w ++ [e] |} in
    match oracle env (trace w) with
    | Some a => Done a w'
    | None => Thrown ExternalError w'
    end.

(** [for (const x of l) { body }]; a [continue] is the end of [body]. *)
Fixpoint for_of {A} (l : list A) (body : A -> M unit) : M unit :=
  match l with
  | [] => mret tt
  | x :: l' => body x ;; for_of l' body
  end.

(** ** Statements and functions of [src/index.ts] *)

(** [UPDATE t SET ... WHERE P]. *)
Definition update_where {A} (P : A -> Prop) `{forall x, Decision (P x)}
    (f : A -> A) (t : list A) : list A :=
  map (fun r => if decide (P r) then f r else r) t.

(** [DELETE FROM t WHERE P]. *)
Definition delete_where {A} (P : A -> Prop) `{forall x, Decision (P x)}
    (t : list A) : list A :=
  filter (fun r => ~ P r) t.

(** *** Values that a column refuses

    A parameter that its column cannot take makes the statement fail, whether
    or not it would touch a row.  An INT takes the whole numbers of 32 bits.
    A VARCHAR(n) takes a string of at most [n] characters, and a longer one
    only when all that exceeds is spaces, which are cut off; the characters
    of a string are counted on its UTF-8 bytes, a byte [10xxxxxx] continuing
    the character before it. *)
Definition int4 (z : Z) : bool := (-2147483648 <=? z) && (z <=? 2147483647).

Definition continues (c : ascii) : bool := (128 <=? JS.code c) && (JS.code c <? 192).

(** The first [n] characters of [l], and the rest. *)
Fixpoint split_chars (n : nat) (l : list ascii) : list ascii * list ascii :=
  match l with
  | [] => ([], [])
  | c :: l' =>
      if continues c then let '(p, r) := split_chars n l' in (c :: p, r)
      else
        match n with
        | O => ([], l)
        | S n' => let '(p, r) := split_chars n' l' in (c :: p, r)
        end
  end.

(** The value that a VARCHAR(n) column stores for [s], if it takes it. *)
Definition varchar (n : nat) (s : string) : option string :=
  let '(p, r) := split_chars n (JS.chars s) in
  if forallb (fun c => JS.code c =? 32) r then Some (JS.str p) else None.

Definition with_users (f : list UserRow -> list UserRow) (d : DB) : DB :=
  {| users := f (users d);
     user_settings := user_settings d;
     monitored_sources := monitored_sources d;
     pending_messages := pending_messages d;
     blog_posts := blog_posts d;
     monitored_sources_id_seq := monitored_sources_id_seq d;
     pending_messages_id_seq := pending_messages_id_seq d;
     blog_posts_id_seq := blog_posts_id_seq d |}.

Definition with_user_settings
    (f : list UserSettingsRow -> list UserSettingsRow) (d : DB) : DB :=
  {| users := users d;
     user_settings := f (user_settings d);
     monitored_sources := monitored_sources d;
     pending_messages := pending_messages d;
     blog_posts := blog_posts d;
     monitored_sources_id_seq := monitored_sources_id_seq d;
     pending_messages_id_seq := pending_messages_id_seq d;
     blog_posts_id_seq := blog_posts_id_seq d |}.

Definition with_monitored_sources
    (f : list MonitoredSource -> list MonitoredSource) (d : DB) : DB :=
  {| users := users d;
     user_settings := user_settings d;
     monitored_sources := f (monitored_sources d);
     pending_messages := pending_messages d;
     blog_posts := blog_posts d;
     monitored_sources_id_seq := monitored_sources_id_seq d;
     pending_messages_id_seq := pending_messages_id_seq d;
     blog_posts_id_seq := blog_posts_id_seq d |}.

Definition with_pending_messages
    (f : list PendingMessageRow -> list PendingMessageRow) (d : DB) : DB :=
  {| users := users d;
     user_settings := user_settings d;
     monitored_sources := monitored_sources d;
     pending_messages := f (pending_messages d);
     blog_posts := blog_posts d;
     monitored_sources_id_seq := monitored_sources_id_seq d;
     pending_messages_id_seq := pending_messages_id_seq d;
     blog_posts_id_seq := blog_posts_id_seq d |}.

Definition with_blog_posts
    (f : list BlogPostRow -> list BlogPostRow) (d : DB) : DB :=
  {| users := users d;
     user_settings := user_settings d;
     monitored_sources := monitored_sources d;
     pending_messages := pending_messages d;
     blog_posts := f (blog_posts d);
     monitored_sources_id_seq := monitored_sources_id_seq d;
     pending_messages_id_seq := pending_messages_id_seq d;
     blog_posts_id_seq := blog_posts_id_seq d |}.

(** *** Setters of single columns *)

Definition set_is_authorized (b : bool) (r : UserRow) : UserRow :=
  {| u_user_id := u_user_id r; u_username := u_username r;
     u_is_authorized := b; u_created_at := u_created_at r |}.

Definition set_is_active (b : bool) (r : MonitoredSource) : MonitoredSource :=
  {| ms_id := ms_id r; ms_user_id := ms_user_id r; chat_id := chat_id r;
     chat_title := chat_title r; chat_type := chat_type r; topic_id := topic_id r;
     is_active := b; ms_created_at := ms_created_at r |}.

Definition set_is_processed (b : bool) (r : PendingMessageRow) : PendingMessageRow :=
  {| pm_id := pm_id r; source_id := source_id r; message_id := message_id r;
     text := text r; pm_media_urls := pm_media_urls r; sender := sender r;
     timestamp := timestamp r; is_processed := b |}.

Definition set_status (s : Status) (r : BlogPostRow) : BlogPostRow :=
  {| bp_id := bp_id r; bp_user_id := bp_user_id r; title := title r;
     content := content r; bp_media_urls := bp_media_urls r;
     source_messages := source_messages r; notion_page_id := notion_page_id r;
     github_commit_sha := github_commit_sha r; status := s;
     bp_created_at := bp_created_at r; published_at := published_at r |}.

Definition set_content (c : string) (r : BlogPostRow) : BlogPostRow :=
  {| bp_id := bp_id r; bp_user_id := bp_user_id r; title := title r;
     content := c; bp_media_urls := bp_media_urls r;
     source_messages := source_messages r; notion_page_id := notion_page_id r;
     github_commit_sha := github_commit_sha r; status := status r;
     bp_created_at := bp_created_at r; published_at := published_at r |}.

(** [SET status = 'published', notion_page_id = $1, github_commit_sha = $2,
    published_at = NOW()]. *)
Definition set_published (notion github : option string) (t : Z) (r : BlogPostRow)
  : BlogPostRow :=
  {| bp_id := bp_id r; bp_user_id := bp_user_id r; title := title r;
     content := content r; bp_media_urls := bp_media_urls r;
     source_messages := source_messages r; notion_page_id := notion;
     github_commit_sha := github; status := published;
     bp_created_at := bp_created_at r; published_at := Some t |}.

Definition set_auto_publish (b : bool) (s : UserSettings) : UserSettings :=
  {| user_id := user_id s; auto_publish := b;
     combine_threshold_minutes := combine_threshold_minutes s;
     notion_database_id := notion_database_id s; github_repo := github_repo s |}.

Definition set_combine_threshold_minutes (m : Z) (s : UserSettings) : UserSettings :=
  {| user_id := user_id s; auto_publish := auto_publish s;
     combine_threshold_minutes := m;
     notion_database_id := notion_database_id s; github_repo := github_repo s |}.

Definition set_notion_database_id (v : option string) (s : UserSettings) : UserSettings :=
  {| user_id := user_id s; auto_publish := auto_publish s;
     combine_threshold_minutes := combine_threshold_minutes s;
     notion_database_id := v; github_repo := github_repo s |}.

Definition set_github_repo_column (v : option string) (s : UserSettings) : UserSettings :=
  {| user_id := user_id s; auto_publish := auto_publish s;
     combine_threshold_minutes := combine_threshold_minutes s;
     notion_database_id := notion_database_id s; github_repo := v |}.

(** [UPDATE user_settings SET <column>, updated_at = NOW() WHERE user_id = $n]. *)
Definition update_user_settings (f : UserSettings -> UserSettings) (t : Z)
    (userId : Z) : DB -> DB :=
  with_user_settings
    (update_where (fun r => user_id (settings r) = userId)
       (fun r => {| settings := f (settings r); updated_at := t |})).

(** [UPDATE blog_posts SET status = $1 WHERE id = $2]. *)
Definition update_post_status (s : Status) (postId : Z) : DB -> DB :=
  with_blog_posts (update_where (fun p => bp_id p = postId) (set_status s)).

(** [UPDATE pending_messages SET is_processed = true WHERE id = ANY($1)]. *)
Definition mark_processed (ids : list Z) : DB -> DB :=
  with_pending_messages (update_where (fun m => pm_id m ∈ ids) (set_is_processed true)).

(** *** [isAuthorized] *)

(** [SELECT is_authorized FROM users WHERE user_id = $1]: there is a row and
    its flag is true. *)
Definition authorized (userId : Z) (d : DB) : bool :=
  match filter (fun r => u_user_id r = userId) (users d) with
  | [] => false
  | r :: _ => u_is_authorized r
  end.

Definition isAuthorized (userId : Z) : M bool :=
  d ← get_db;
  mret (authorized userId d).

(** *** [getUserSettings] *)

(** [SELECT * FROM user_settings WHERE user_id = $1], first row or the
    defaults. *)
Definition settings_of (userId : Z) (d : DB) : UserSettings :=
  match filter (fun r => user_id (settings r) = userId) (user_settings d) with
  | [] => {| user_id := userId; auto_publish := false;
             combine_threshold_minutes := 5;
             notion_database_id := None; github_repo := None |}
  | r :: _ => settings r
  end.

Definition getUserSettings (userId : Z) : M UserSettings :=
  d ← get_db;
  mret (settings_of userId d).

(** *** [upsertUser]: two [INSERT ... ON CONFLICT (user_id) DO NOTHING] *)
Definition insert_user (userId : Z) (username : option string) (auth : bool) (t : Z)
  : DB -> DB :=
  with_users (fun rows =>
    if decide (Exists (fun r => u_user_id r = userId) rows) then rows
    else rows ++ [{| u_user_id := userId; u_username := username;
                     u_is_authorized := auth; u_created_at := t |}]).

Definition insert_user_settings (userId : Z) (t : Z) : DB -> DB :=
  with_user_settings (fun rows =>
    if decide (Exists (fun r => user_id (settings r) = userId) rows) then rows
    else rows ++ [{| settings := {| user_id := userId; auto_publish := false;
                                    combine_threshold_minutes := 5;
                                    notion_database_id := None;
                                    github_repo := None |};
                     updated_at := t |}]).

Definition upsertUser (userId : Z) (username : option string) : M unit :=
  env ← ask;
  t ← now;
  modify_db (insert_user userId username (bool_decide (userId = OWNER_USER_ID env)) t) ;;
  t' ← now;
  modify_db (insert_user_settings userId t').

(** *** Telegram updates, as far as the source reads them *)

Record User := {
  uid : Z;                       (* id *)
  username : option string;
  first_name : string;
  last_name : option string
}.

Inductive ChatType := private | group | supergroup | channel.

Record Chat := {
  c_id : Z;
  c_type : ChatType;
  c_title : option string
}.

(** [SupportedMessage]: the media fields hold the [file_id]s. *)
Record Message := {
  m_message_id : Z;
  date : option Z;
  m_text : option string;
  caption : option string;
  author_signature : option string;
  sender_chat : option Chat;
  m_from : option User;
  message_thread_id : option Z;
  photo : option (list string);
  document : option string;
  video : option string;
  animation : option string;
  audio : option string
}.

Record Ctx := {
  from : option User;
  chat : option Chat
}.

#[global] Instance ChatType_eq_dec : EqDecision ChatType.
Proof. solve_decision. Defined.

(** *** [getSenderName] *)
Definition getSenderName (message : Message) : string :=
  if JS.truthy_opt (author_signature message) then JS.nullish (author_signature message) EmptyString
  else if JS.truthy_opt (sender_chat message ≫= c_title)
  then JS.nullish (sender_chat message ≫= c_title) EmptyString
  else
    match m_from message with
    | None => "Unknown"
    | Some u =>
        if JS.truthy_opt (username u) then "@" +:+ JS.nullish (username u) EmptyString
        else
          let parts :=
            List.filter JS.truthy [first_name u; JS.nullish (last_name u) EmptyString] in
          match parts with
          | [] => JS.string_of_Z (uid u)
          | _ :: _ => JS.join " " parts
          end
    end.

(** *** [extractMessageText] *)
Definition extractMessageText (message : Message) : string :=
  if JS.truthy_opt (m_text message) then JS.nullish (m_text message) EmptyString
  else if JS.truthy_opt (caption message) then JS.nullish (caption message) EmptyString
  else EmptyString.

(** *** [getTopicId] *)
Definition getTopicId (message : Message) : option Z := message_thread_id message.

(** *** [extractMediaUrls]

    [collectFile] pushes the resolved link, or warns when the resolution
    throws. *)
Definition collectFile (fileId : option string) (urls : list string) : M (list string) :=
  if negb (JS.truthy_opt fileId) then mret urls
  else
    let f := JS.nullish fileId EmptyString in
    try_catch
      (link ← call (GetFileLink f) (fun env tr => getFileLink env tr f);
       mret (urls ++ [link]))
      (fun _ => emit ConsoleWarn ;; mret urls).

Definition extractMediaUrls (message : Message) : M (list string) :=
  urls ← match photo message with
          | Some sizes => match List.last (map Some sizes) None with
                          | Some largest => collectFile (Some largest) []
                          | None => mret []
                          end
          | None => mret []
          end;
  urls ← collectFile (document message) urls;
  urls ← collectFile (video message) urls;
  urls ← collectFile (animation message) urls;
  collectFile (audio message) urls.

(** *** [storePendingMessage]

    [INSERT INTO pending_messages ... ON CONFLICT (source_id, message_id) DO
    NOTHING]: the sequence hands out an id before the conflict is seen. *)
Definition insert_pending_message (sourceId messageId : Z) (txt : option string)
    (mediaUrls : list string) (snd : string) (ts : Z) (d : DB) : DB :=
  {| users := users d;
     user_settings := user_settings d;
     monitored_sources := monitored_sources d;
     pending_messages :=
       if decide (Exists (fun r => source_id r = sourceId /\ message_id r = messageId)
                    (pending_messages d))
       then pending_messages d
       else pending_messages d ++
            [{| pm_id := pending_messages_id_seq d; source_id := sourceId;
                message_id := messageId; text := txt;
                pm_media_urls := Some mediaUrls; sender := Some snd;
                timestamp := ts; is_processed := false |}];
     blog_posts := blog_posts d;
     monitored_sources_id_seq := monitored_sources_id_seq d;
     pending_messages_id_seq := pending_messages_id_seq d + 1;
     blog_posts_id_seq := blog_posts_id_seq d |}.

Definition storePendingMessage (source : MonitoredSource) (message : Message) : M unit :=
  let txt := extractMessageText message in
  mediaUrls ← extractMediaUrls message;
  if negb (JS.truthy txt) && bool_decide (mediaUrls = []) then mret tt
  else
    t ← now;
    let ts := JS.nullish (date message) (t / 1000) * 1000 in
    modify_db
      (insert_pending_message (ms_id source) (m_message_id message)
         (if JS.truthy txt then Some txt else None) mediaUrls
         (getSenderName message) ts).

(** *** [handleIncomingMessage] *)
Definition sources_of_chat (chatId : Z) (topicId : option Z) (d : DB)
  : list MonitoredSource :=
  filter (fun ms => chat_id ms = chatId /\ is_active ms = true
                    /\ (topicId = None \/ topic_id ms = None \/ topic_id ms = topicId))
         (monitored_sources d).

Definition handleIncomingMessage (ctx : Ctx) (message : Message) : M unit :=
  match chat ctx with
  | None => mret tt
  | Some c =>
      d ← get_db;
      for_of (sources_of_chat (c_id c) (getTopicId message) d)
        (fun source => storePendingMessage source message)
  end.

(** *** [publishToNotion], [publishToGitHub]

    What is sent is determined by the arguments recorded in the event (and,
    for the file name of the post, by the clock). *)
Definition publishToNotion (databaseId ttl cnt : string) (mediaUrls : list string)
  : M string :=
  call (NotionCreate databaseId ttl cnt mediaUrls)
       (fun env tr => notion_pages_create env tr databaseId ttl cnt mediaUrls).

Definition publishToGitHub (repo ttl cnt : string) (mediaUrls : list string)
  : M string :=
  let parts := JS.split "/" repo in
  let owner := JS.nullish (parts !! 0%nat) EmptyString in
  let repoName := JS.nullish (parts !! 1%nat) EmptyString in
  if negb (JS.truthy owner) || negb (JS.truthy repoName) then throw RepoFormatError
  else
    sha ← call (GitHubCreate owner repoName ttl cnt mediaUrls)
              (fun env tr =>
                 octokit_createOrUpdateFileContents env tr owner repoName ttl cnt mediaUrls);
    mret (JS.nullish sha EmptyString).

(** *** [analyzeMessages] *)
Definition message_line (index : nat) (m : PendingMessageRow) : string :=
  "[Message " +:+ JS.string_of_Z (Z.of_nat index + 1) +:+ "] "
  +:+ JS.nullish (sender m) "Unknown" +:+ " at " +:+ JS.toISOString (timestamp m)
  +:+ ": " +:+ JS.nullish (text m) EmptyString.

Definition messageTexts (messages : list PendingMessageRow) : string :=
  JS.join (JS.nl +:+ JS.nl) (imap message_line messages).

Definition prompt_of (messages : list PendingMessageRow) : string :=
  "Analyze these Telegram messages and determine:
1. Are they informational content suitable for a blog/wiki post? (vs casual conversation)
2. Should they be combined into one post or kept separate?
3. Suggest a title for the blog post
4. Create a combined, well-formatted content if they should be combined

Messages:
" +:+ messageTexts messages +:+ JS.dq "

Respond in JSON format:
{
  'shouldCombine': boolean,
  'isInformational': boolean,
  'suggestedTitle': 'string',
  'combinedContent': 'string (markdown formatted)',
  'reasoning': 'string'
}".

(** [v?.trim() ?? ''] on a property of the parsed object: absent or null
    gives the empty string, a string is trimmed, anything else has no
    [trim] to call. *)
Definition trimmed_or_empty (v : option JS.json) : M string :=
  match v with
  | None | Some JS.JNull => mret EmptyString
  | Some (JS.JString s) => mret (JS.trim s)
  | Some _ => throw TypeError
  end.

(** The part of [analyzeMessages] after the model has answered. *)
Definition parse_analysis (responseText : string) : M AnalysisResult :=
  match JS.match_braces responseText with
  | None => throw AIFormatError
  | Some jsonMatch =>
      match JS.JSON_parse jsonMatch with
      | None => throw SyntaxError
      | Some parsed =>
          ttl ← trimmed_or_empty (JS.prop parsed "suggestedTitle");
          cnt ← trimmed_or_empty (JS.prop parsed "combinedContent");
          mret {| shouldCombine := JS.Boolean (JS.prop parsed "shouldCombine");
                  isInformational := JS.Boolean (JS.prop parsed "isInformational");
                  suggestedTitle := ttl;
                  combinedContent := cnt |}
      end
  end.

Definition analyzeMessages (messages : list PendingMessageRow) : M AnalysisResult :=
  let prompt := prompt_of messages in
  responseText ← call (GenerateContent prompt)
                      (fun env tr => generateContent env tr prompt);
  parse_analysis responseText.

(** *** [bot.telegram.sendMessage]: Telegram may refuse the message. *)
Definition sendMessage (chatId : Z) (t : Text) : M unit :=
  call (SendMessage chatId t) (fun env tr => telegram_sendMessage env tr chatId t).

(** *** [publishPost] *)
Definition publishPost (postId userId : Z) : M unit :=
  modify_db (update_post_status publishing postId) ;;
  try_catch
    (d ← get_db;
     match filter (fun p => bp_id p = postId /\ bp_user_id p = userId) (blog_posts d) with
     | [] => mret tt
     | post :: _ =>
         settings ← getUserSettings userId;
         let media := JS.nullish (bp_media_urls post) [] in
         notionPageId ←
           (if JS.truthy_opt (notion_database_id settings)
            then Some <$> publishToNotion
                   (JS.nullish (notion_database_id settings) EmptyString)
                   (title post) (content post) media
            else mret None);
         githubSha ←
           (if JS.truthy_opt (github_repo settings)
            then Some <$> publishToGitHub
                   (JS.nullish (github_repo settings) EmptyString)
                   (title post) (content post) media
            else mret None);
         t ← now;
         modify_db (with_blog_posts
                      (update_where (fun p => bp_id p = postId)
                         (set_published notionPageId githubSha t))) ;;
         sendMessage userId
           (Published (title post) (JS.truthy_opt notionPageId)
              (JS.truthy_opt githubSha))
     end)
    (fun _ =>
       modify_db (update_post_status failed postId) ;;
       emit ConsoleError).

(** *** [processMessages] *)

(** [SELECT DISTINCT user_id FROM user_settings]: the distinct ids, in the
    order the server hands them out. *)
Definition owners (env : Env) (d : DB) : list Z :=
  distinct_order env (remove_dups (map (fun r => user_id (settings r)) (user_settings d))).

(** [SELECT pm.* FROM pending_messages pm JOIN monitored_sources ms ON
    pm.source_id = ms.id WHERE ms.user_id = $1 AND pm.is_processed = false],
    before the ORDER BY. *)
Definition unprocessed_join (userId : Z) (d : DB) : list PendingMessageRow :=
  pm ← pending_messages d;
  ms ← monitored_sources d;
  if decide (source_id pm = ms_id ms /\ ms_user_id ms = userId /\ is_processed pm = false)
  then [pm] else [].

(** [... ORDER BY pm.timestamp ASC]. *)
Definition by_timestamp (a b : PendingMessageRow) : Prop := timestamp a <= timestamp b.

#[global] Instance by_timestamp_dec a b : Decision (by_timestamp a b) :=
  Z_le_dec (timestamp a) (timestamp b).

Definition unprocessed_of_owner (userId : Z) (d : DB) : list PendingMessageRow :=
  merge_sort by_timestamp (unprocessed_join userId d).

(** [messagesResult.rows.filter((message) => toDate(message.timestamp) >=
    timeThreshold)]. *)
Definition recent (timeThreshold : Z) (rows : list PendingMessageRow)
  : list PendingMessageRow :=
  filter (fun message => timeThreshold <= timestamp message) rows.

(** [ORDER BY created_at DESC]. *)
Definition newest_first {A} (created_at : A -> Z) (a b : A) : Prop :=
  created_at b <= created_at a.

#[global] Instance newest_first_dec {A} (key : A -> Z) a b
  : Decision (newest_first key a b) := Z_le_dec (key b) (key a).

(** The content built when the model gave none. *)
Definition fallback_content (recentMessages : list PendingMessageRow) : string :=
  JS.join (JS.nl +:+ JS.nl)
    (map (fun m => "**" +:+ JS.nullish (sender m) "Unknown" +:+ "** ("
                   +:+ JS.toISOString (timestamp m) +:+ "):" +:+ JS.nl
                   +:+ JS.nullish (text m) EmptyString)
         recentMessages).

(** [INSERT INTO blog_posts (user_id, title, content, media_urls,
    source_messages, status) VALUES (...) RETURNING id], for a title that
    the VARCHAR(500) column has taken. *)
Definition insert_blog_post (userId : Z) (ttl cnt : string) (mediaUrls : list string)
    (src : list Z) (st : Status) (t : Z) (d : DB) : DB :=
  {| users := users d;
     user_settings := user_settings d;
     monitored_sources := monitored_sources d;
     pending_messages := pending_messages d;
     blog_posts := blog_posts d ++
       [{| bp_id := blog_posts_id_seq d; bp_user_id := userId; title := ttl;
           content := cnt; bp_media_urls := Some mediaUrls; source_messages := src;
           notion_page_id := None; github_commit_sha := None; status := st;
           bp_created_at := t; published_at := None |}];
     monitored_sources_id_seq := monitored_sources_id_seq d;
     pending_messages_id_seq := pending_messages_id_seq d;
     blog_posts_id_seq := blog_posts_id_seq d + 1 |}.

(** The body of the loop over the owners, from the call of the classifier
    on: [recentMessages] is the batch that survived the cutoff.  The INSERT
    of the draft throws when the title column refuses the title, before
    anything is written; the notice of a draft to review is sent after the
    rows have been flagged. *)
Definition process_batch (userId : Z) (settings : UserSettings)
    (recentMessages : list PendingMessageRow) : M unit :=
  analysis ← analyzeMessages recentMessages;
  if negb (isInformational analysis)
  then modify_db (mark_processed (map pm_id recentMessages))
  else
    let mediaUrls :=
      flat_map (fun m => JS.nullish (pm_media_urls m) []) recentMessages in
    let cnt :=
      if JS.truthy (combinedContent analysis) then combinedContent analysis
      else fallback_content recentMessages in
    t1 ← now;
    let ttl := JS.or_else (suggestedTitle analysis)
                 ("Telegram Update " +:+ JS.toISOString t1) in
    d1 ← get_db;
    let postId := blog_posts_id_seq d1 in
    t2 ← now;
    match varchar 500 ttl with
    | None => throw DatabaseError
    | Some stored =>
        modify_db
          (insert_blog_post userId stored cnt mediaUrls (map pm_id recentMessages)
             (if auto_publish settings then publishing else pending) t2) ;;
        modify_db (mark_processed (map pm_id recentMessages)) ;;
        if auto_publish settings
        then (if decide (postId = 0) then mret tt else publishPost postId userId)
        else sendMessage userId (DraftReady ttl)
    end.

(** The batch of an owner at time [t]: the unprocessed rows not older than
    the owner's threshold. *)
Definition batch_of (settings : UserSettings) (t : Z) (rows : list PendingMessageRow)
  : list PendingMessageRow :=
  let timeThreshold := t - combine_threshold_minutes settings * 60 * 1000 in
  recent timeThreshold rows.

(** The body of the loop over the owners. *)
Definition process_owner (userId : Z) : M unit :=
  settings ← getUserSettings userId;
  d ← get_db;
  let rows := unprocessed_of_owner userId d in
  match rows with
  | [] => mret tt
  | _ :: _ =>
      t ← now;
      let recentMessages := batch_of settings t rows in
      match recentMessages with
      | [] => mret tt
      | _ :: _ => process_batch userId settings recentMessages
      end
  end.

Definition processMessages : M unit :=
  try_catch
    (env ← ask;
     d ← get_db;
     for_of (owners env d) process_owner)
    (fun _ => emit ConsoleError).

(** ** The handlers registered on the bot *)

(** [ctx.from!.id]. *)
Definition from_id (ctx : Ctx) : M Z :=
  match from ctx with
  | Some u => mret (uid u)
  | None => throw TypeError
  end.

(** [Number(parts[1])] for [parts = text.split(' ')]. *)
Definition second_word_number (txt : string) : JS.number :=
  match JS.split " " txt !! 1%nat with
  | Some w => JS.Number w
  | None => JS.NaN
  end.

(** [bot.start]. *)
Definition on_start (ctx : Ctx) : M unit :=
  userId ← from_id ctx;
  upsertUser userId (from ctx ≫= username) ;;
  ok ← isAuthorized userId;
  if negb ok then emit (Reply NotAuthorized)
  else emit (Reply Welcome).

(** [bot.hears('Status')]. *)
Definition hears_status (ctx : Ctx) : M unit :=
  userId ← from_id ctx;
  ok ← isAuthorized userId;
  if negb ok then mret tt
  else
    d ← get_db;
    let active_sources :=
      filter (fun ms => ms_user_id ms = userId /\ is_active ms = true)
             (monitored_sources d) in
    let pending_posts :=
      filter (fun p => bp_user_id p = userId /\ status p = pending) (blog_posts d) in
    let published_posts :=
      filter (fun p => bp_user_id p = userId /\ status p = published) (blog_posts d) in
    emit (Reply (BotStatus (Z.of_nat (List.length active_sources))
                   (Z.of_nat (List.length (unprocessed_join userId d)))
                   (Z.of_nat (List.length pending_posts))
                   (Z.of_nat (List.length published_posts)))).

(** [bot.hears('Settings')]. *)
Definition hears_settings (ctx : Ctx) : M unit :=
  userId ← from_id ctx;
  ok ← isAuthorized userId;
  if negb ok then mret tt
  else
    s ← getUserSettings userId;
    emit (Reply (SettingsMenu s)).

(** [bot.action('toggle_auto_publish')]. *)
Definition action_toggle_auto_publish (ctx : Ctx) : M unit :=
  userId ← from_id ctx;
  ok ← isAuthorized userId;
  if negb ok then emit (AnswerCbQuery CbUnauthorized)
  else
    t ← now;
    modify_db (with_user_settings
                 (update_where (fun r => user_id (settings r) = userId)
                    (fun r => {| settings := set_auto_publish
                                               (negb (auto_publish (settings r)))
                                               (settings r);
                                 updated_at := t |}))) ;;
    s ← getUserSettings userId;
    emit (AnswerCbQuery (CbAutoPublish (auto_publish s))) ;;
    emit (EditMessageReplyMarkup s).

(** [bot.action('set_combine_time')], [bot.action('set_notion_db')],
    [bot.action('set_github_repo')]: the same handler up to the state set
    and the question asked. *)
Definition action_ask (st : UserState) (question : Text) (ctx : Ctx) : M unit :=
  userId ← from_id ctx;
  ok ← isAuthorized userId;
  if negb ok then emit (AnswerCbQuery CbUnauthorized)
  else
    modify_states (insert userId st) ;;
    emit (AnswerCbQuery CbNone) ;;
    emit (Reply question).

Definition action_set_combine_time : Ctx -> M unit :=
  action_ask set_combine_time AskCombineTime.
Definition action_set_notion_db : Ctx -> M unit :=
  action_ask set_notion_db AskNotionDb.
Definition action_set_github_repo : Ctx -> M unit :=
  action_ask set_github_repo AskGithubRepo.

(** [bot.action('back_to_main')]. *)
Definition action_back_to_main (ctx : Ctx) : M unit :=
  emit (AnswerCbQuery CbNone) ;;
  emit DeleteMessage ;;
  emit (Reply MainMenuReopened).

(** [bot.hears('Subscribe')]. *)
Definition hears_subscribe (ctx : Ctx) : M unit :=
  userId ← from_id ctx;
  ok ← isAuthorized userId;
  if negb ok then mret tt else emit (Reply SubscribeHelp).

(** [bot.hears('List Sources')]. *)
Definition hears_list_sources (ctx : Ctx) : M unit :=
  userId ← from_id ctx;
  ok ← isAuthorized userId;
  if negb ok then mret tt
  else
    d ← get_db;
    let sources :=
      merge_sort (newest_first ms_created_at)
        (filter (fun ms => ms_user_id ms = userId) (monitored_sources d)) in
    match sources with
    | [] => emit (Reply NoSources)
    | _ :: _ => emit (Reply (SourcesList sources))
    end.

(** [bot.hears('Pending Posts')]. *)
Definition hears_pending_posts (ctx : Ctx) : M unit :=
  userId ← from_id ctx;
  ok ← isAuthorized userId;
  if negb ok then mret tt
  else
    d ← get_db;
    let posts :=
      take 10
        (merge_sort (newest_first bp_created_at)
           (filter (fun p => bp_user_id p = userId /\ status p = pending)
              (blog_posts d))) in
    match posts with
    | [] => emit (Reply NoPendingPosts)
    | _ :: _ => for_of posts (fun post => emit (Reply (PendingPost post)))
    end.

(** [bot.hears('Manage Users')]. *)
Definition hears_manage_users (ctx : Ctx) : M unit :=
  userId ← from_id ctx;
  ok ← isAuthorized userId;
  if negb ok then mret tt
  else
    d ← get_db;
    emit (Reply (UserList (merge_sort (newest_first u_created_at)
                             (users d)))).

(** [bot.command('authorize')] and [bot.command('revoke')]: the same
    handler up to the flag written and the texts. *)
Definition command_set_authorized (flag : bool) (only_owner usage : Text)
    (done : Z -> Text) (txt : string) (ctx : Ctx) : M unit :=
  env ← ask;
  if bool_decide ((uid <$> from ctx) ≠ Some (OWNER_USER_ID env))
  then emit (Reply only_owner)
  else
    let userId := second_word_number txt in
    if negb (JS.isInteger userId) then emit (Reply usage)
    else
      modify_db (with_users
                   (update_where (fun r => u_user_id r = JS.int_value userId)
                      (set_is_authorized flag))) ;;
      emit (Reply (done (JS.int_value userId))).

Definition command_authorize : string -> Ctx -> M unit :=
  command_set_authorized true OnlyOwnerAuthorize UsageAuthorize UserAuthorized.
Definition command_revoke : string -> Ctx -> M unit :=
  command_set_authorized false OnlyOwnerRevoke UsageRevoke UserRevoked.

(** [bot.command('unsubscribe')]. *)
Definition command_unsubscribe (txt : string) (ctx : Ctx) : M unit :=
  userId ← from_id ctx;
  ok ← isAuthorized userId;
  if negb ok then mret tt
  else
    let sourceId := second_word_number txt in
    if negb (JS.isInteger sourceId) then emit (Reply UsageUnsubscribe)
    else
      modify_db (with_monitored_sources
                   (update_where
                      (fun ms => ms_id ms = JS.int_value sourceId /\ ms_user_id ms = userId)
                      (set_is_active false))) ;;
      emit (Reply Unsubscribed).

(** [ctx.message.forward_origin]. *)
Inductive ForwardOrigin :=
| OriginChannel (c : Chat)
| OriginOther.

(** [INSERT INTO monitored_sources ... ON CONFLICT (user_id, chat_id,
    topic_id) DO UPDATE SET is_active = true].  A row conflicts when it is
    equal on the three columns, and a NULL [topic_id] is equal to nothing. *)
Definition insert_monitored_source (userId chatId : Z) (chatTitle chatType : string)
    (topic : option Z) (t : Z) (d : DB) : DB :=
  let conflicts (r : MonitoredSource) : Prop :=
    ms_user_id r = userId /\ chat_id r = chatId /\ topic <> None /\ topic_id r = topic in
  {| users := users d;
     user_settings := user_settings d;
     monitored_sources :=
       if decide (Exists conflicts (monitored_sources d))
       then update_where conflicts (set_is_active true) (monitored_sources d)
       else monitored_sources d ++
            [{| ms_id := monitored_sources_id_seq d; ms_user_id := userId;
                chat_id := chatId; chat_title := Some chatTitle;
                chat_type := chatType; topic_id := topic; is_active := true;
                ms_created_at := t |}];
     pending_messages := pending_messages d;
     blog_posts := blog_posts d;
     monitored_sources_id_seq := monitored_sources_id_seq d + 1;
     pending_messages_id_seq := pending_messages_id_seq d;
     blog_posts_id_seq := blog_posts_id_seq d |}.

(** [bot.on(message('forward_origin'))]. *)
Definition on_forward_origin (origin : option ForwardOrigin) (ctx : Ctx) : M unit :=
  userId ← from_id ctx;
  ok ← isAuthorized userId;
  if negb ok then mret tt
  else
    match origin with
    | None => emit (Reply NoForwardOrigin)
    | Some OriginOther => emit (Reply ForwardNotChannel)
    | Some (OriginChannel c) =>
        let chatTitle :=
          if JS.truthy_opt (c_title c) then JS.nullish (c_title c) EmptyString
          else "Unnamed channel" in
        t ← now;
        modify_db (insert_monitored_source userId (c_id c) chatTitle "channel" None t) ;;
        emit (Reply (Subscribed chatTitle))
    end.

(** [bot.on('channel_post')]. *)
Definition on_channel_post (channelPost : option Message) (ctx : Ctx) : M unit :=
  match channelPost with
  | Some channelMessage => handleIncomingMessage ctx channelMessage
  | None => mret tt
  end.

(** [bot.on(message('text'))]: outside a private chat the message is
    ingested; in a private chat it answers the pending question, if any.
    The UPDATE of an answer that its column refuses throws before the reply
    and before the state is deleted. *)
Definition on_text (message : Message) (ctx : Ctx) : M unit :=
  if bool_decide ((c_type <$> chat ctx) ≠ Some private)
  then handleIncomingMessage ctx message
  else
    states ← get_states;
    match from ctx ≫= (fun u => states !! uid u) with
    | None => emit Next
    | Some state =>
        let txt := JS.trim (JS.nullish (m_text message) EmptyString) in
        userId ← from_id ctx;
        match state with
        | set_notion_db =>
            match varchar 255 txt with
            | None => throw DatabaseError
            | Some stored =>
                t ← now;
                modify_db (update_user_settings
                             (set_notion_database_id (Some stored)) t userId) ;;
                emit (Reply NotionSaved) ;;
                modify_states (delete userId)
            end
        | set_github_repo =>
            if negb (JS.test_owner_repo txt) then emit (Reply RepoFormat)
            else
              match varchar 255 txt with
              | None => throw DatabaseError
              | Some stored =>
                  t ← now;
                  modify_db (update_user_settings
                               (set_github_repo_column (Some stored)) t userId) ;;
                  emit (Reply RepoSaved) ;;
                  modify_states (delete userId)
              end
        | set_combine_time =>
            let minutes := JS.Number txt in
            if negb (JS.isInteger minutes) || JS.le_zero minutes
            then emit (Reply NeedPositiveInteger)
            else if negb (int4 (JS.int_value minutes)) then throw DatabaseError
            else
              t ← now;
              modify_db (update_user_settings
                           (set_combine_threshold_minutes (JS.int_value minutes))
                           t userId) ;;
              emit (Reply (CombineUpdated (JS.int_value minutes))) ;;
              modify_states (delete userId)
        | edit_post postId =>
            if negb (int4 postId) then throw DatabaseError
            else
              modify_db (with_blog_posts
                           (update_where
                              (fun p => bp_id p = postId /\ bp_user_id p = userId)
                              (set_content txt))) ;;
              emit (Reply PostUpdated) ;;
              modify_states (delete userId)
        end
    end.

(** [bot.action(/publish_(\d+)/)]; [capture] is [match[1]]. *)
Definition action_publish (capture : string) (ctx : Ctx) : M unit :=
  let postId := JS.Number capture in
  if negb (JS.isInteger postId) then emit (AnswerCbQuery CbInvalidPost)
  else
    userId ← from_id ctx;
    publishPost (JS.int_value postId) userId ;;
    emit (AnswerCbQuery CbPublishing) ;;
    emit DeleteMessage.

(** [bot.action(/reject_(\d+)/)]. *)
Definition action_reject (capture : string) (ctx : Ctx) : M unit :=
  let postId := JS.Number capture in
  if negb (JS.isInteger postId) then emit (AnswerCbQuery CbInvalidPost)
  else
    userId ← from_id ctx;
    modify_db (with_blog_posts
                 (delete_where
                    (fun p => bp_id p = JS.int_value postId /\ bp_user_id p = userId))) ;;
    emit (AnswerCbQuery CbRejected) ;;
    emit DeleteMessage.

(** [bot.action(/edit_(\d+)/)]. *)
Definition action_edit (capture : string) (ctx : Ctx) : M unit :=
  let postId := JS.Number capture in
  if negb (JS.isInteger postId) then emit (AnswerCbQuery CbInvalidPost)
  else
    userId ← from_id ctx;
    modify_states (insert userId (edit_post (JS.int_value postId))) ;;
    emit (AnswerCbQuery CbNone) ;;
    emit (Reply AskEditContent).

(** The actions a human can issue in a chat with the bot, one per handler. *)
Inductive Action :=
| Start
| HearsStatus
| HearsSettings
| ToggleAutoPublish
| SetCombineTime
| SetNotionDb
| SetGithubRepo
| BackToMain
| HearsSubscribe
| HearsListSources
| HearsPendingPosts
| HearsManageUsers
| Authorize (txt : string)
| Revoke (txt : string)
| Unsubscribe (txt : string)
| Forward (origin : option ForwardOrigin)
| PrivateText (message : Message)
| Publish (capture : string)
| Reject (capture : string)
| Edit (capture : string).

Definition handle (a : Action) (ctx : Ctx) : M unit :=
  match a with
  | Start => on_start ctx
  | HearsStatus => hears_status ctx
  | HearsSettings => hears_settings ctx
  | ToggleAutoPublish => action_toggle_auto_publish ctx
  | SetCombineTime => action_set_combine_time ctx
  | SetNotionDb => action_set_notion_db ctx
  | SetGithubRepo => action_set_github_repo ctx
  | BackToMain => action_back_to_main ctx
  | HearsSubscribe => hears_subscribe ctx
  | HearsListSources => hears_list_sources ctx
  | HearsPendingPosts => hears_pending_posts ctx
  | HearsManageUsers => hears_manage_users ctx
  | Authorize txt => command_authorize txt ctx
  | Revoke txt => command_revoke txt ctx
  | Unsubscribe txt => command_unsubscribe txt ctx
  | Forward origin => on_forward_origin origin ctx
  | PrivateText message => on_text message ctx
  | Publish capture => action_publish capture ctx
  | Reject capture => action_reject capture ctx
  | Edit capture => action_edit capture ctx
  end.

(** ** Vocabulary of the statements *)

(** The natural key of a queued row. *)
Definition natural_key (r : PendingMessageRow) : Z * Z := (source_id r, message_id r).




(** A text property that [trimmed_or_empty] accepts: absent, null or a
    string; its value. *)
Definition text_or_absent (v : option JS.json) : bool :=
  match v with
  | None | Some JS.JNull | Some (JS.JString _) => true
  | Some _ => false
  end.

Definition text_of (v : option JS.json) : string :=
  match v with
  | Some (JS.JString s) => JS.trim s
  | _ => EmptyString
  end.

Definition is_sink_call (e : Event) : bool :=
  match e with
  | NotionCreate _ _ _ _ | GitHubCreate _ _ _ _ _ => true
  | _ => false
  end.

(** The calls to the two sinks in a trace, in order. *)
Definition sink_calls (tr : list Event) : list Event := List.filter is_sink_call tr.

(** The calls that the settings [s] ask for when [post] is published on the
    trace [tr]: Notion if a database is configured; then GitHub if a
    repository is configured, it splits in owner and name, and the Notion
    call, if any, did not throw. *)
Definition configured_sink_calls (env : Env) (tr : list Event) (s : UserSettings)
    (post : BlogPostRow) : list Event :=
  let media := JS.nullish (bp_media_urls post) [] in
  let databaseId := JS.nullish (notion_database_id s) EmptyString in
  let parts := JS.split "/" (JS.nullish (github_repo s) EmptyString) in
  let owner := JS.nullish (parts !! 0%nat) EmptyString in
  let repoName := JS.nullish (parts !! 1%nat) EmptyString in
  let notion_threw :=
    JS.truthy_opt (notion_database_id s)
    && negb (bool_decide (is_Some (notion_pages_create env tr databaseId (title post)
                                     (content post) media))) in
  (if JS.truthy_opt (notion_database_id s)
   then [NotionCreate databaseId (title post) (content post) media] else [])
  ++ (if JS.truthy_opt (github_repo s) && negb notion_threw
         && JS.truthy owner && JS.truthy repoName
      then [GitHubCreate owner repoName (title post) (content post) media] else []).

(** The world after a handler that only sent [e]. *)
Definition answered (w : World) (e : Event) : World :=
  {| db := db w; userStates := userStates w; trace := trace w ++ [e] |}.

(** Whether the text passes the validation of the pending state. *)
Definition valid_input (st : UserState) (txt : string) : bool :=
  match st with
  | set_github_repo => JS.test_owner_repo txt
  | set_combine_time =>
      JS.isInteger (JS.Number txt) && negb (JS.le_zero (JS.Number txt))
  | set_notion_db | edit_post _ => true
  end.

(** Whether the column that the pending state writes (or, for a post, the
    column that finds the post) takes the value made from the text. *)
Definition column_takes (st : UserState) (txt : string) : bool :=
  match st with
  | set_notion_db | set_github_repo => bool_decide (varchar 255 txt <> None)
  | set_combine_time => int4 (JS.int_value (JS.Number txt))
  | edit_post postId => int4 postId
  end.

(** What the claim expects in the database after an answer that is stored,
    written out row by row.  For a state of the settings: in every row of
    settings of the user the one column holds the answer and [updated_at]
    the time, and every other row and column is as before.  For
    [edit_post]: in the post of that id and of the user the content is the
    answer, and every other post and column is as before. *)
Definition settings_answered (st : UserState) (txt : string) (t : Z)
    (r : UserSettingsRow) : UserSettingsRow :=
  let s := settings r in
  match st with
  | set_notion_db =>
      {| settings := {| user_id := user_id s; auto_publish := auto_publish s;
                        combine_threshold_minutes := combine_threshold_minutes s;
                        notion_database_id := varchar 255 txt;
                        github_repo := github_repo s |};
         updated_at := t |}
  | set_github_repo =>
      {| settings := {| user_id := user_id s; auto_publish := auto_publish s;
                        combine_threshold_minutes := combine_threshold_minutes s;
                        notion_database_id := notion_database_id s;
                        github_repo := varchar 255 txt |};
         updated_at := t |}
  | set_combine_time =>
      {| settings := {| user_id := user_id s; auto_publish := auto_publish s;
                        combine_threshold_minutes := JS.int_value (JS.Number txt);
                        notion_database_id := notion_database_id s;
                        github_repo := github_repo s |};
         updated_at := t |}
  | edit_post _ => r
  end.

Definition post_answered (st : UserState) (txt : string) (userId : Z)
    (p : BlogPostRow) : BlogPostRow :=
  match st with
  | edit_post postId =>
      if decide (bp_id p = postId /\ bp_user_id p = userId)
      then {| bp_id := bp_id p; bp_user_id := bp_user_id p; title := title p;
              content := txt; bp_media_urls := bp_media_urls p;
              source_messages := source_messages p;
              notion_page_id := notion_page_id p;
              github_commit_sha := github_commit_sha p; status := status p;
              bp_created_at := bp_created_at p; published_at := published_at p |}
      else p
  | _ => p
  end.

Definition input_stored (st : UserState) (txt : string) (t userId : Z) (d : DB) : DB :=
  {| users := users d;
     user_settings :=
       map (fun r => if decide (user_id (settings r) = userId)
                     then settings_answered st txt t r else r)
           (user_settings d);
     monitored_sources := monitored_sources d;
     pending_messages := pending_messages d;
     blog_posts := map (post_answered st txt userId) (blog_posts d);
     monitored_sources_id_seq := monitored_sources_id_seq d;
     pending_messages_id_seq := pending_messages_id_seq d;
     blog_posts_id_seq := blog_posts_id_seq d |}.

Definition confirmation (st : UserState) (txt : string) : Text :=
  match st with
  | set_notion_db => NotionSaved
  | set_github_repo => RepoSaved
  | set_combine_time => CombineUpdated (JS.int_value (JS.Number txt))
  | edit_post _ => PostUpdated
  end.

Definition complaint (st : UserState) : Text :=
  match st with
  | set_github_repo => RepoFormat
  | _ => NeedPositiveInteger
  end.

(** ** Tactics *)

(** Unfolding of the monad's operations. *)
Ltac run :=
  unfold sendMessage;
  unfold mbind, M_bind, mret, M_ret, fmap, M_fmap, try_catch, call, emit, throw,
    get_db, put_db, modify_db, get_trace, get_states, modify_states, now, ask;
  simpl.

(** Case analysis on the scrutinee of the first [match] of the goal, or on
    the answer of Telegram to a notification. *)
Ltac split_match :=
  first
    [ match goal with
      | |- context [match ?x with _ => _ end] =>
          lazymatch x with
          | context [match _ with _ => _ end] => fail
          | _ => destruct x eqn:?
          end
      end
    | match goal with
      | |- context [telegram_sendMessage ?e ?tr ?u ?t] =>
          destruct (telegram_sendMessage e tr u t) eqn:?
      end ];
  repeat match goal with u : unit |- _ => destruct u end.

(** ** Sample data for the closed statements *)

Module Sample.

Definition empty_db : DB :=
  {| users := []; user_settings := []; monitored_sources := [];
     pending_messages := []; blog_posts := [];
     monitored_sources_id_seq := 1; pending_messages_id_seq := 1;
     blog_posts_id_seq := 1 |}.

Definition user_row (userId : Z) (auth : bool) : UserRow :=
  {| u_user_id := userId; u_username := None; u_is_authorized := auth;
     u_created_at := 0 |}.

Definition settings_row (userId : Z) (auto : bool) (notion github : option string)
  : UserSettingsRow :=
  {| settings := {| user_id := userId; auto_publish := auto;
                    combine_threshold_minutes := 5;
                    notion_database_id := notion; github_repo := github |};
     updated_at := 0 |}.

Definition source (sourceId userId : Z) (active : bool) : MonitoredSource :=
  {| ms_id := sourceId; ms_user_id := userId; chat_id := -100;
     chat_title := Some "News"; chat_type := "channel"; topic_id := None;
     is_active := active; ms_created_at := 0 |}.

Definition queued (rowId sourceId messageId ts : Z) (txt : string) : PendingMessageRow :=
  {| pm_id := rowId; source_id := sourceId; message_id := messageId;
     text := Some txt; pm_media_urls := Some []; sender := Some "News";
     timestamp := ts; is_processed := false |}.

Definition draft (postId userId : Z) (st : Status) (notion github : option string)
  : BlogPostRow :=
  {| bp_id := postId; bp_user_id := userId; title := "Release notes";
     content := "Version 2 is out."; bp_media_urls := Some [];
     source_messages := []; notion_page_id := notion;
     github_commit_sha := github; status := st; bp_created_at := 0;
     published_at := None |}.

Definition person (userId : Z) : User :=
  {| uid := userId; username := None; first_name := "Ann"; last_name := None |}.

(** A private chat with the bot. *)
Definition private_ctx (userId : Z) : Ctx :=
  {| from := Some (person userId);
     chat := Some {| c_id := userId; c_type := private; c_title := None |} |}.

Definition text_message (messageId : Z) (txt : string) : Message :=
  {| m_message_id := messageId; date := Some 1700000000; m_text := Some txt;
     caption := None; author_signature := None; sender_chat := None;
     m_from := None; message_thread_id := None; photo := None;
     document := None; video := None; animation := None; audio := None |}.

(** The clock stands at [t], the model is [answer], both sinks accept,
    every file link resolves and every notification is delivered; user 1 is
    the configured owner; the owners of a tick come in the order [order]. *)
Definition env_with (order : list Z -> list Z) (t : Z)
    (answer : list Event -> string -> option string) : Env :=
  {| OWNER_USER_ID := 1;
     Date_now := fun _ => t;
     distinct_order := order;
     telegram_sendMessage := fun _ _ _ => Some tt;
     generateContent := answer;
     notion_pages_create := fun _ _ _ _ _ => Some "page-2";
     octokit_createOrUpdateFileContents := fun _ _ _ _ _ _ => Some (Some "sha-2");
     getFileLink := fun _ f => Some ("https://files/" +:+ f) |}.

(** The same, with the owners of a tick newest first. *)
Definition env_at : Z -> (list Event -> string -> option string) -> Env :=
  env_with reverse.

(** A model that answers without a JSON object. *)
Definition chatty : list Event -> string -> option string :=
  fun _ _ => Some "I cannot help with that.".

(** A model that finds the batch informational and writes no content. *)
Definition terse : list Event -> string -> option string :=
  fun _ _ => Some (JS.dq "{'isInformational': true}").

Definition informational : list Event -> string -> option string :=
  fun _ _ => Some (JS.dq "{'shouldCombine': true, 'isInformational': true,
 'suggestedTitle': 'Notes', 'combinedContent': 'Both messages, combined.'}").


Definition world_of (d : DB) : World := {| db := d; userStates := ∅; trace := [] |}.

(** Owner 1 follows one channel, from which one message is queued. *)
Definition subscribed_db : DB :=
  {| users := [user_row 1 true];
     user_settings := [settings_row 1 false None None];
     monitored_sources := [source 1 1 true];
     pending_messages := [queued 1 1 10 1699999990000 "v2 is out"];
     blog_posts := [];
     monitored_sources_id_seq := 2; pending_messages_id_seq := 2;
     blog_posts_id_seq := 1 |}.

(** Owners 1 and 2 follow one channel each; a message is queued for each. *)
Definition two_owners_db : DB :=
  {| users := [user_row 1 true; user_row 2 true];
     user_settings := [settings_row 1 false None None; settings_row 2 false None None];
     monitored_sources := [source 1 1 true; source 2 2 true];
     pending_messages := [queued 1 1 10 1699999990000 "for owner one";
                          queued 2 2 10 1699999990000 "for owner two"];
     blog_posts := [];
     monitored_sources_id_seq := 3; pending_messages_id_seq := 3;
     blog_posts_id_seq := 1 |}.

(** A model whose first answer has no JSON object and whose later answers
    are well formed. *)
Definition chatty_once : list Event -> string -> option string :=
  fun tr prompt => match tr with [] => chatty tr prompt | _ :: _ => informational tr prompt end.

(** Owners 1, 2 and 3 follow one channel each; a message is queued for
    each. *)
Definition three_owners_db : DB :=
  {| users := [user_row 1 true; user_row 2 true; user_row 3 true];
     user_settings := [settings_row 1 false None None; settings_row 2 false None None;
                       settings_row 3 false None None];
     monitored_sources := [source 1 1 true; source 2 2 true; source 3 3 true];
     pending_messages := [queued 1 1 10 1699999990000 "for owner one";
                          queued 2 2 10 1699999990000 "for owner two";
                          queued 3 3 10 1699999990000 "for owner three"];
     blog_posts := [];
     monitored_sources_id_seq := 4; pending_messages_id_seq := 4;
     blog_posts_id_seq := 1 |}.

(** A model whose first answer finds the batch casual and whose later
    answers have no JSON object. *)
Definition chatty_later : list Event -> string -> option string :=
  fun tr prompt =>
    match tr with
    | [] => Some (JS.dq "{'shouldCombine': false, 'isInformational': false}")
    | _ :: _ => chatty tr prompt
    end.

(** Owner 1 has configured both sinks; draft 1 is owner 1's and was
    published when Notion alone was configured. *)
Definition half_published_db : DB :=
  {| users := [user_row 1 true];
     user_settings := [settings_row 1 false (Some "notion-db") (Some "ann/blog")];
     monitored_sources := [];
     pending_messages := [];
     blog_posts := [draft 1 1 published (Some "page-1") None];
     monitored_sources_id_seq := 1; pending_messages_id_seq := 1;
     blog_posts_id_seq := 2 |}.

(** Draft 1 is owner 1's and pending; user 2 is another authorized user. *)
Definition foreign_draft_db : DB :=
  {| users := [user_row 1 true; user_row 2 true];
     user_settings := [settings_row 1 false (Some "notion-db") (Some "ann/blog");
                       settings_row 2 false (Some "other-db") (Some "bob/blog")];
     monitored_sources := [];
     pending_messages := [];
     blog_posts := [draft 1 1 pending None None];
     monitored_sources_id_seq := 1; pending_messages_id_seq := 1;
     blog_posts_id_seq := 2 |}.

(** Owner 1 has been asked for the combine time. *)
Definition asked_combine_time : World :=
  {| db := subscribed_db; userStates := {[ 1 := set_combine_time ]}; trace := [] |}.

(** Three queued rows, one, six and ten minutes before [t]. *)
Definition three_rows (t : Z) : list PendingMessageRow :=
  [queued 1 1 10 (t - 10 * 60 * 1000) "ten minutes ago";
   queued 2 1 11 (t - 6 * 60 * 1000) "six minutes ago";
   queued 3 1 12 (t - 1 * 60 * 1000) "one minute ago"].

End Sample.

(** ** Further parts of [src/index.ts]: the file a post is committed to *)

(** [title.toLowerCase().replace(/[^a-z0-9]+/g, '-')] of [publishToGitHub],
    on the UTF-8 bytes of the title.  Lower-casing turns a character into
    one of [a-z0-9] for the letters A to Z, for U+0130 (which becomes [i]
    followed by U+0307) and for U+212A (which becomes [k]); a digit or a
    small letter stays; every other character is outside [a-z0-9] before and
    after.  [None] marks a byte that the expression replaces. *)
Fixpoint lower_alnum (l : list ascii) : list (option ascii) :=
  match l with
  | [] => []
  | a :: l1 =>
      let k := JS.code a in
      if (65 <=? k) && (k <=? 90) then Some (JS.chr (k + 32)) :: lower_alnum l1
      else if ((97 <=? k) && (k <=? 122)) || ((48 <=? k) && (k <=? 57))
      then Some a :: lower_alnum l1
      else
        match l1 with
        | b :: l2 =>
            if (k =? 196) && (JS.code b =? 176)
            then Some "i"%char :: None :: lower_alnum l2
            else
              match l2 with
              | c :: l3 =>
                  if (k =? 226) && (JS.code b =? 132) && (JS.code c =? 170)
                  then Some "k"%char :: lower_alnum l3
                  else None :: lower_alnum l1
              | [] => None :: lower_alnum l1
              end
        | [] => None :: lower_alnum l1
        end
  end.

(** Every maximal run of replaced bytes becomes one dash. *)
Fixpoint dash_runs (in_run : bool) (l : list (option ascii)) : list ascii :=
  match l with
  | [] => []
  | Some c :: l' => c :: dash_runs false l'
  | None :: l' => if in_run then dash_runs true l' else "-"%char :: dash_runs true l'
  end.

Definition slug (title : string) : string :=
  JS.str (dash_runs false (lower_alnum (JS.chars title))).

(** ** Vocabulary of the further properties *)

(** A computation keeps the relation [R] between the world it starts in and
    the world it ends in, whether it returns or throws. *)
Definition keeps (R : World -> World -> Prop) {A} (c : M A) : Prop :=
  forall env w, R w (world (c env w)).

(** A computation returns: it does not throw. *)
Definition returns {A} (c : M A) : Prop :=
  forall env w, exists a w', c env w = Done a w'.

(** The character is one of [a-z0-9-]. *)
Definition slug_char (c : ascii) : bool :=
  let k := JS.code c in
  ((97 <=? k) && (k <=? 122)) || ((48 <=? k) && (k <=? 57)) || (k =? 45).

(** No two dashes in a row. *)
Fixpoint single_dashes (l : list ascii) : bool :=
  match l with
  | a :: ((b :: _) as l') =>
      negb ((JS.code a =? 45) && (JS.code b =? 45)) && single_dashes l'
  | _ => true
  end.

(** A byte that lower-casing and the replacement keep is one of [a-z0-9]. *)
Definition kept_alnum (o : option ascii) : Prop :=
  match o with
  | Some c => slug_char c = true /\ JS.code c <> 45
  | None => True
  end.

(** Ingestion into the queue of the sources [S]: rows are appended to
    [pending_messages], each unprocessed and of a source in [S], the
    sequence of the table moves on, and all the rest stays. *)
Definition ingested (S : Z -> Prop) (w w' : World) : Prop :=
  users (db w') = users (db w)
  /\ user_settings (db w') = user_settings (db w)
  /\ monitored_sources (db w') = monitored_sources (db w)
  /\ blog_posts (db w') = blog_posts (db w)
  /\ monitored_sources_id_seq (db w') = monitored_sources_id_seq (db w)
  /\ blog_posts_id_seq (db w') = blog_posts_id_seq (db w)
  /\ userStates w' = userStates w
  /\ exists added,
       pending_messages (db w') = pending_messages (db w) ++ added
       /\ Forall (fun r => is_processed r = false /\ S (source_id r)) added.

(** The queue keeps its UNIQUE key. *)
Definition unique_queue (w : World) : Prop :=
  NoDup (map natural_key (pending_messages (db w))).

(** Ingestion that also keeps the key. *)
Definition ingested_keyed (S : Z -> Prop) (w w' : World) : Prop :=
  ingested S w w' /\ (unique_queue w -> unique_queue w').

(** A queued row after a tick: as it was, or flagged as processed. *)
Definition flagged (r r' : PendingMessageRow) : Prop :=
  r' = r \/ r' = set_is_processed true r.

(** What a batcher tick may do: flag queued rows, and work on the drafts;
    users, settings, sources and pending inputs stay. *)
Definition ticked (w w' : World) : Prop :=
  users (db w') = users (db w)
  /\ user_settings (db w') = user_settings (db w)
  /\ monitored_sources (db w') = monitored_sources (db w)
  /\ userStates w' = userStates w
  /\ Forall2 flagged (pending_messages (db w)) (pending_messages (db w')).

(** Every queued row whose id is in [ids] is flagged as processed. *)
Definition all_processed (ids : list Z) (rows : list PendingMessageRow) : Prop :=
  Forall (fun r => pm_id r ∈ ids -> is_processed r = true) rows.

(** The two worlds have the same queue. *)
Definition same_queue (w w' : World) : Prop :=
  pending_messages (db w') = pending_messages (db w).

(** The drafts of everybody but [userId]. *)
Definition foreign_drafts (userId : Z) (d : DB) : list BlogPostRow :=
  filter (fun p => bp_user_id p <> userId) (blog_posts d).

(** The sources and the settings of everybody but [userId]. *)
Definition foreign_sources (userId : Z) (d : DB) : list MonitoredSource :=
  filter (fun ms => ms_user_id ms <> userId) (monitored_sources d).

Definition foreign_settings (userId : Z) (d : DB) : list UserSettingsRow :=
  filter (fun r => user_id (settings r) <> userId) (user_settings d).

(** The user has pressed /start before: [users] has a row of [userId]. *)
Definition registered (userId : Z) (d : DB) : Prop :=
  Exists (fun r => u_user_id r = userId) (users d).

(** The mantissa of a finite Number is its magnitude. *)
Definition mantissa_nonneg (x : JS.number) : Prop :=
  match x with JS.Finite _ m _ => 0 <= m | _ => True end.

(** Every stored combine time is at least one minute. *)
Definition positive_thresholds (d : DB) : Prop :=
  Forall (fun r => 1 <= combine_threshold_minutes (settings r)) (user_settings d).

(** Every registered user has a row of settings. *)
Definition settled (d : DB) : Prop :=
  Forall (fun r => Exists (fun s => user_id (settings s) = u_user_id r) (user_settings d))
         (users d).

(** The two worlds have the same users and the same settings. *)
Definition same_accounts (w w' : World) : Prop :=
  users (db w') = users (db w) /\ user_settings (db w') = user_settings (db w).

(** What one action does to the users and their settings: nothing; or the
    two inserts of a registration; or a flag written on rows of [users]; or
    a column written on rows of [user_settings], which is not the user and,
    when it is the combine time, is at least one. *)
Inductive accounts_step (d d' : DB) : Prop :=
| accounts_same :
    users d' = users d -> user_settings d' = user_settings d -> accounts_step d d'
| accounts_registered userId name flag t t' :
    users d' = users (insert_user userId name flag t d) ->
    user_settings d' = user_settings (insert_user_settings userId t' d) ->
    accounts_step d d'
| accounts_flag (P : UserRow -> Prop) `{forall x, Decision (P x)} flag :
    users d' = update_where P (set_is_authorized flag) (users d) ->
    user_settings d' = user_settings d ->
    accounts_step d d'
| accounts_setting (P : UserSettingsRow -> Prop) `{forall x, Decision (P x)}
    (f : UserSettings -> UserSettings) t :
    users d' = users d ->
    user_settings d'
    = update_where P (fun r => {| settings := f (settings r); updated_at := t |})
        (user_settings d) ->
    (forall s, user_id (f s) = user_id s) ->
    (forall s, 1 <= combine_threshold_minutes s -> 1 <= combine_threshold_minutes (f s)) ->
    accounts_step d d'.

(** The world with another table of users. *)
Definition with_users_in (f : list UserRow -> list UserRow) (w : World) : World :=
  {| db := with_users f (db w); userStates := userStates w; trace := trace w |}.

(** The outcome in another world. *)
Definition in_world {A} (g : World -> World) (o : Outcome A) : Outcome A :=
  match o with
  | Done a w => Done a (g w)
  | Thrown e w => Thrown e (g w)
  end.

(** ** Sample data of the further properties *)

Module More.

(** The channel that the sources of [Sample.source] follow. *)
Definition news : Chat := {| c_id := -100; c_type := channel; c_title := Some "News" |}.

Definition channel_ctx : Ctx := {| from := None; chat := Some news |}.

(** A post of the channel with a document attached. *)
Definition channel_post (messageId : Z) (txt : option string) : Message :=
  {| m_message_id := messageId; date := Some 1700000000; m_text := txt;
     caption := None; author_signature := None; sender_chat := Some news;
     m_from := None; message_thread_id := None; photo := None;
     document := Some "file-1"; video := None; animation := None; audio := None |}.

(** As [Sample.env_at], but no file link resolves and GitHub refuses. *)
Definition offline (t : Z) (answer : list Event -> string -> option string) : Env :=
  {| OWNER_USER_ID := 1;
     Date_now := fun _ => t;
     distinct_order := reverse;
     telegram_sendMessage := fun _ _ _ => Some tt;
     generateContent := answer;
     notion_pages_create := fun _ _ _ _ _ => Some "page-2";
     octokit_createOrUpdateFileContents := fun _ _ _ _ _ _ => None;
     getFileLink := fun _ _ => None |}.

(** As [Sample.env_at], but Telegram refuses every notification. *)
Definition blocked (t : Z) (answer : list Event -> string -> option string) : Env :=
  {| OWNER_USER_ID := 1;
     Date_now := fun _ => t;
     distinct_order := reverse;
     telegram_sendMessage := fun _ _ _ => None;
     generateContent := answer;
     notion_pages_create := fun _ _ _ _ _ => Some "page-2";
     octokit_createOrUpdateFileContents := fun _ _ _ _ _ _ => Some (Some "sha-2");
     getFileLink := fun _ f => Some ("https://files/" +:+ f) |}.

(** A model that finds the batch casual. *)
Definition casual : list Event -> string -> option string :=
  fun _ _ => Some (JS.dq "{'shouldCombine': false, 'isInformational': false}").

(** Owner 1 publishes to GitHub only; draft 1 still records the Notion page
    of an earlier publication. *)
Definition github_only_db : DB :=
  {| users := [Sample.user_row 1 true];
     user_settings := [Sample.settings_row 1 false None (Some "ann/blog")];
     monitored_sources := [];
     pending_messages := [];
     blog_posts := [Sample.draft 1 1 published (Some "page-1") None];
     monitored_sources_id_seq := 1; pending_messages_id_seq := 1;
     blog_posts_id_seq := 2 |}.

End More.

(** * Properties *)

(** ** Lists as tables *)

Lemma update_where_id {A} (P : A -> Prop) `{forall x, Decision (P x)} (f : A -> A)
    (t : list A) :
  Forall (fun r => ~ P r) t -> update_where P f t = t.
Proof.
  induction 1 as [|r t Hr _ IH]; simpl; [reflexivity|].
  destruct (decide (P r)); [contradiction|]. now rewrite IH.
Qed.

Lemma filter_update_where {A} (P Q : A -> Prop) `{forall x, Decision (P x)}
    `{forall x, Decision (Q x)} (f : A -> A) (t : list A) :
  (forall r, Q (f r) <-> Q r) ->
  filter Q (update_where P f t) = update_where P f (filter Q t).
Proof.
  intros Hq. induction t as [|r t IH]; simpl; [reflexivity|].
  rewrite !filter_cons. destruct (decide (P r)) as [Hp|Hp].
  - destruct (decide (Q (f r))) as [H1|H1], (decide (Q r)) as [H2|H2];
      rewrite ?Hq in H1; try contradiction; simpl;
      [destruct (decide (P r)); [|contradiction]|]; now rewrite IH.
  - destruct (decide (Q r)); simpl;
      [destruct (decide (P r)); [contradiction|]|]; now rewrite IH.
Qed.

(** ** The batcher's query and window (C3, C8) *)

#[global] Instance by_timestamp_total : Total by_timestamp.
Proof. intros a b. unfold by_timestamp. lia. Qed.

#[global] Instance by_timestamp_trans : Transitive by_timestamp.
Proof. intros a b c. unfold by_timestamp. lia. Qed.

Lemma elem_of_unprocessed_join userId d m :
  m ∈ unprocessed_join userId d <->
  m ∈ pending_messages d /\ is_processed m = false
  /\ exists ms, ms ∈ monitored_sources d /\ ms_id ms = source_id m
                /\ ms_user_id ms = userId.
Proof.
  unfold unprocessed_join. rewrite list_elem_of_bind. split.
  - intros (pm & Hin & Hpm). apply list_elem_of_bind in Hin as (ms & Hin & Hms).
    destruct (decide _) as [(H1 & H2 & H3)|]; [|now apply not_elem_of_nil in Hin].
    apply list_elem_of_singleton in Hin as ->. eauto 10.
  - intros (Hpm & Hp & ms & Hms & H1 & H2). exists m. split; [|assumption].
    apply list_elem_of_bind. exists ms. split; [|assumption].
    rewrite decide_True by auto. apply list_elem_of_singleton. reflexivity.
Qed.

Lemma elem_of_batch_of settings t rows m :
  m ∈ batch_of settings t rows <->
  m ∈ rows /\ t - combine_threshold_minutes settings * 60 * 1000 <= timestamp m.
Proof. unfold batch_of, recent. rewrite list_elem_of_filter. tauto. Qed.

(** What [process_owner] hands to the classifier is [batch_of] applied to
    the rows of the query, at the owner's settings and the current time. *)
Lemma process_owner_batch userId env w :
  process_owner userId env w =
  match batch_of (settings_of userId (db w)) (Date_now env (trace w))
          (unprocessed_of_owner userId (db w)) with
  | [] => Done tt w
  | m :: rest => process_batch userId (settings_of userId (db w)) (m :: rest) env w
  end.
Proof.
  unfold process_owner, getUserSettings, get_db, now, mbind, M_bind, mret, M_ret.
  destruct (unprocessed_of_owner userId (db w)) as [|r rows]; [reflexivity|].
  destruct (batch_of _ _ (r :: rows)); reflexivity.
Qed.

(** C3, as the code has it: the rows fetched for an owner are the
    unprocessed rows of the sources owned by that owner, whether the source
    is active or not, ordered by timestamp ascending; the batch of the tick
    is cut from these rows. *)
Theorem C3_fetched_rows userId d :
  (forall m, m ∈ unprocessed_of_owner userId d <->
     m ∈ pending_messages d /\ is_processed m = false
     /\ exists ms, ms ∈ monitored_sources d /\ ms_id ms = source_id m
                   /\ ms_user_id ms = userId)
  /\ StronglySorted by_timestamp (unprocessed_of_owner userId d)
  /\ forall env w, db w = d ->
       process_owner userId env w =
       match batch_of (settings_of userId d) (Date_now env (trace w))
               (unprocessed_of_owner userId d) with
       | [] => Done tt w
       | m :: rest => process_batch userId (settings_of userId d) (m :: rest) env w
       end.
Proof.
  split; [|split].
  - intros m. unfold unprocessed_of_owner.
    rewrite (merge_sort_Permutation by_timestamp). apply elem_of_unprocessed_join.
  - apply StronglySorted_merge_sort; typeclasses eauto.
  - intros env w <-. apply process_owner_batch.
Qed.

(** The one queued row of owner 1 is fetched and is the batch of the tick. *)
Lemma C3_fetched_rows_witness :
  unprocessed_of_owner 1 Sample.subscribed_db
  = [Sample.queued 1 1 10 1699999990000 "v2 is out"]
  /\ process_owner 1 (Sample.env_at 1700000000000 Sample.informational)
       (Sample.world_of Sample.subscribed_db)
     = process_batch 1 (settings_of 1 Sample.subscribed_db)
         [Sample.queued 1 1 10 1699999990000 "v2 is out"]
         (Sample.env_at 1700000000000 Sample.informational)
         (Sample.world_of Sample.subscribed_db).
Proof.
  split; [reflexivity|].
  exact (proj2 (proj2 (C3_fetched_rows 1 Sample.subscribed_db))
           (Sample.env_at 1700000000000 Sample.informational)
           (Sample.world_of Sample.subscribed_db) eq_refl).
Defined.

(** C3 fails as stated: after [/unsubscribe 1] the only source of owner 1 is
    inactive, and its queued row is still fetched and sent to the
    classifier at the next tick. *)
Lemma C3_deactivated_source_is_batched :
  let env := Sample.env_at 1700000000000 Sample.informational in
  let w := world (handle (Unsubscribe "/unsubscribe 1") (Sample.private_ctx 1) env
                    (Sample.world_of Sample.subscribed_db)) in
  let row := Sample.queued 1 1 10 1699999990000 "v2 is out" in
  monitored_sources (db w) = [Sample.source 1 1 false]
  /\ unprocessed_of_owner 1 (db w) = [row]
  /\ trace (world (processMessages env w)) =
     [Reply Unsubscribed; GenerateContent (prompt_of [row]);
      SendMessage 1 (DraftReady "Notes")].
Proof. vm_compute. auto. Qed.

(** C8: the window keeps exactly the rows with timestamp at or after the
    cutoff [now - windowMinutes]; with a window of five minutes, of three
    rows one, six and ten minutes old only the first is in the batch; and
    the batch that the tick hands to the classifier is this window over the
    rows fetched for the owner. *)
Theorem C8_window_filter settings t rows r1 r2 r3 :
  combine_threshold_minutes settings = 5 ->
  rows ≡ₚ [r1; r2; r3] ->
  timestamp r1 = t - 1 * 60 * 1000 ->
  timestamp r2 = t - 6 * 60 * 1000 ->
  timestamp r3 = t - 10 * 60 * 1000 ->
  batch_of settings t rows = [r1]
  /\ (forall settings' t' rows' m,
        m ∈ batch_of settings' t' rows' <->
        m ∈ rows' /\ t' - combine_threshold_minutes settings' * 60 * 1000 <= timestamp m)
  /\ (forall userId env w,
        process_owner userId env w =
        match batch_of (settings_of userId (db w)) (Date_now env (trace w))
                (unprocessed_of_owner userId (db w)) with
        | [] => Done tt w
        | m :: rest =>
            process_batch userId (settings_of userId (db w)) (m :: rest) env w
        end).
Proof.
  intros H5 Hperm H1 H2 H3.
  split; [|split; [apply elem_of_batch_of | apply process_owner_batch]].
  apply Permutation_singleton_r. unfold batch_of, recent. rewrite Hperm, H5.
  rewrite !filter_cons, filter_nil.
  rewrite decide_True by lia. rewrite !decide_False by lia. reflexivity.
Qed.

(** The three rows of [Sample.three_rows] under a window of five minutes. *)
Lemma C8_window_filter_witness :
  batch_of (settings (Sample.settings_row 1 false None None)) 1700000000000
    (Sample.three_rows 1700000000000)
  = [Sample.queued 3 1 12 (1700000000000 - 1 * 60 * 1000) "one minute ago"].
Proof.
  refine (proj1 (C8_window_filter _ 1700000000000 (Sample.three_rows 1700000000000)
                   (Sample.queued 3 1 12 (1700000000000 - 1 * 60 * 1000) "one minute ago")
                   (Sample.queued 2 1 11 (1700000000000 - 6 * 60 * 1000) "six minutes ago")
                   (Sample.queued 1 1 10 (1700000000000 - 10 * 60 * 1000) "ten minutes ago")
                   _ _ _ _ _)).
  - reflexivity.
  - exact (Permutation_rev (Sample.three_rows 1700000000000)).
  - reflexivity.
  - reflexivity.
  - reflexivity.
Defined.

(** ** Queue insertion (C7) *)

Lemma collectFile_db fileId urls env w :
  exists urls' w', collectFile fileId urls env w = Done urls' w'
                   /\ db w' = db w /\ userStates w' = userStates w.
Proof.
  unfold collectFile. destruct (JS.truthy_opt fileId); simpl.
  - run. destruct (getFileLink env (trace w) _); eauto.
  - run. eauto.
Qed.

Lemma extractMediaUrls_db message env w :
  exists urls w', extractMediaUrls message env w = Done urls w'
                  /\ db w' = db w /\ userStates w' = userStates w.
Proof.
  unfold extractMediaUrls.
  assert (exists urls0 w0,
            (match photo message with
             | Some sizes => match List.last (map Some sizes) None with
                             | Some largest => collectFile (Some largest) []
                             | None => mret []
                             end
             | None => mret []
             end) env w = Done urls0 w0 /\ db w0 = db w /\ userStates w0 = userStates w)
    as (urls0 & w0 & E0 & D0 & S0).
  { destruct (photo message) as [sizes|]; [|run; eauto].
    destruct (List.last _ _); [apply collectFile_db | run; eauto]. }
  unfold mbind at 1, M_bind at 1. rewrite E0.
  destruct (collectFile_db (document message) urls0 env w0) as (u1 & w1 & E1 & D1 & S1).
  unfold mbind at 1, M_bind at 1. rewrite E1.
  destruct (collectFile_db (video message) u1 env w1) as (u2 & w2 & E2 & D2 & S2).
  unfold mbind at 1, M_bind at 1. rewrite E2.
  destruct (collectFile_db (animation message) u2 env w2) as (u3 & w3 & E3 & D3 & S3).
  unfold mbind at 1, M_bind at 1. rewrite E3.
  destruct (collectFile_db (audio message) u3 env w3) as (u4 & w4 & E4 & D4 & S4).
  exists u4, w4. split; [assumption|]. split; congruence.
Qed.

(** A message with text is stored by the INSERT statement, whatever the
    resolution of its media gives. *)
Lemma storePendingMessage_db source message env w :
  JS.truthy (extractMessageText message) = true ->
  exists urls ts w',
    storePendingMessage source message env w = Done tt w'
    /\ db w' = insert_pending_message (ms_id source) (m_message_id message)
                 (Some (extractMessageText message)) urls (getSenderName message) ts
                 (db w).
Proof.
  intros Ht. unfold storePendingMessage.
  destruct (extractMediaUrls_db message env w) as (urls & w1 & E & D & _).
  unfold mbind at 1, M_bind at 1. rewrite E, Ht. simpl. run.
  eexists urls, _, _. split; [reflexivity|]. simpl. now rewrite D.
Qed.

Lemma insert_pending_message_conflict sid mid txt urls snd ts d :
  Exists (fun r => source_id r = sid /\ message_id r = mid) (pending_messages d) ->
  pending_messages (insert_pending_message sid mid txt urls snd ts d)
  = pending_messages d.
Proof. intros H. simpl. now rewrite decide_True. Qed.

Lemma insert_pending_message_present sid mid txt urls snd ts d :
  Exists (fun r => source_id r = sid /\ message_id r = mid)
    (pending_messages (insert_pending_message sid mid txt urls snd ts d)).
Proof.
  simpl. destruct (decide _) as [H|H]; [assumption|].
  apply Exists_app. right. constructor. simpl. auto.
Qed.

Lemma unique_key_count (k : Z * Z) (t : list PendingMessageRow) :
  NoDup (map natural_key t) ->
  Exists (fun r => natural_key r = k) t ->
  List.length (filter (fun r => natural_key r = k) t) = 1%nat.
Proof.
  induction t as [|r t IH]; intros Hnd Hex; [inversion Hex|].
  simpl in Hnd. apply NoDup_cons in Hnd as [Hr Hnd].
  rewrite filter_cons. destruct (decide (natural_key r = k)) as [Hk|Hk].
  - simpl. f_equal. apply length_zero_iff_nil.
    apply elem_of_nil_inv. intros x Hx. apply list_elem_of_filter in Hx as [Hxk Hx].
    apply Hr. rewrite Hk, <- Hxk. apply list_elem_of_fmap. eauto.
  - apply IH; [assumption|]. inversion Hex; subst; [contradiction|assumption].
Qed.

Lemma insert_pending_message_unique sid mid txt urls snd ts d :
  NoDup (map natural_key (pending_messages d)) ->
  NoDup (map natural_key
           (pending_messages (insert_pending_message sid mid txt urls snd ts d))).
Proof.
  intros Hnd. simpl. destruct (decide _) as [H|H]; [assumption|].
  rewrite map_app. simpl. apply NoDup_app. split; [assumption|].
  split; [|apply NoDup_singleton].
  intros k Hk Hk'. apply list_elem_of_singleton in Hk'. subst k.
  apply list_elem_of_fmap in Hk as (r & Hr & Hin). apply H.
  apply Exists_exists. exists r. split; [assumption|].
  unfold natural_key in Hr. simpl in Hr. inversion Hr. auto.
Qed.

(** Whatever the message, it is dropped or handed to the INSERT statement. *)
Lemma storePendingMessage_cases source message env w :
  exists w',
    storePendingMessage source message env w = Done tt w'
    /\ (db w' = db w
        \/ exists txt urls ts,
             db w' = insert_pending_message (ms_id source) (m_message_id message)
                       txt urls (getSenderName message) ts (db w)).
Proof.
  unfold storePendingMessage.
  destruct (extractMediaUrls_db message env w) as (urls & w1 & E & D & _).
  unfold mbind at 1, M_bind at 1. rewrite E.
  destruct (negb (JS.truthy (extractMessageText message)) && bool_decide (urls = [])).
  - exists w1. split; [reflexivity|]. now left.
  - run. eexists. split; [reflexivity|]. right. simpl. rewrite D. eauto.
Qed.

(** C7: delivering the same (source, message id) pair twice leaves exactly
    one queued row of that key, and the second delivery does not touch the
    table: the row of the first delivery stays as it is, whatever the second
    delivery carries. *)
Theorem C7_queue_insertion_idempotent env env' w source message message' :
  NoDup (map natural_key (pending_messages (db w))) ->
  m_message_id message' = m_message_id message ->
  JS.truthy (extractMessageText message) = true ->
  let w1 := world (storePendingMessage source message env w) in
  let w2 := world (storePendingMessage source message' env' w1) in
  pending_messages (db w2) = pending_messages (db w1)
  /\ List.length
       (filter (fun r => natural_key r = (ms_id source, m_message_id message))
          (pending_messages (db w2))) = 1%nat.
Proof.
  intros Hnd Hid Ht w1 w2.
  destruct (storePendingMessage_db source message env w Ht) as (u1 & t1 & x1 & E1 & D1).
  assert (Hw1 : w1 = x1) by (unfold w1; now rewrite E1).
  assert (Hpresent :
            Exists (fun r => source_id r = ms_id source
                             /\ message_id r = m_message_id message)
              (pending_messages (db w1))).
  { rewrite Hw1, D1. apply insert_pending_message_present. }
  assert (Hsame : pending_messages (db w2) = pending_messages (db w1)).
  { destruct (storePendingMessage_cases source message' env' w1)
      as (x2 & E2 & [D2 | (txt & u2 & t2 & D2)]);
      unfold w2; rewrite E2; simpl; rewrite D2; [reflexivity|].
    rewrite Hid. now apply insert_pending_message_conflict. }
  split; [exact Hsame|]. rewrite Hsame.
  apply unique_key_count.
  - rewrite Hw1, D1. now apply insert_pending_message_unique.
  - eapply Exists_impl; [exact Hpresent|].
    intros r [H1 H2]. unfold natural_key. now rewrite H1, H2.
Qed.

(** Message 20 of source 1 is delivered twice, with two texts. *)
Lemma C7_queue_insertion_idempotent_witness :
  let env := Sample.env_at 1700000000000 Sample.informational in
  let w := Sample.world_of Sample.subscribed_db in
  let w1 := world (storePendingMessage (Sample.source 1 1 true)
                     (Sample.text_message 20 "first delivery") env w) in
  let w2 := world (storePendingMessage (Sample.source 1 1 true)
                     (Sample.text_message 20 "second delivery") env w1) in
  pending_messages (db w2) = pending_messages (db w1)
  /\ List.length
       (filter (fun r => natural_key r = (1, 20)) (pending_messages (db w2))) = 1%nat.
Proof.
  apply (C7_queue_insertion_idempotent
           (Sample.env_at 1700000000000 Sample.informational)
           (Sample.env_at 1700000000000 Sample.informational)
           (Sample.world_of Sample.subscribed_db) (Sample.source 1 1 true)
           (Sample.text_message 20 "first delivery")
           (Sample.text_message 20 "second delivery")).
  - simpl. apply NoDup_singleton.
  - reflexivity.
  - reflexivity.
Defined.

(** ** What a computation leaves of the database *)

Lemma trimmed_or_empty_world v env w :
  world (trimmed_or_empty v env w) = w.
Proof. destruct v as [[]|]; reflexivity. Qed.

Lemma parse_analysis_world responseText env w :
  world (parse_analysis responseText env w) = w.
Proof.
  unfold parse_analysis.
  destruct (JS.match_braces responseText); [|reflexivity].
  destruct (JS.JSON_parse _) as [parsed|]; [|reflexivity].
  unfold mbind, M_bind.
  pose proof (trimmed_or_empty_world (JS.prop parsed "suggestedTitle") env w) as H1.
  destruct (trimmed_or_empty (JS.prop parsed "suggestedTitle") env w); simpl in H1;
    subst; [|reflexivity].
  pose proof (trimmed_or_empty_world (JS.prop parsed "combinedContent") env w) as H2.
  destruct (trimmed_or_empty (JS.prop parsed "combinedContent") env w); simpl in H2;
    subst; reflexivity.
Qed.

(** The classifier adds its call to the trace and touches nothing else,
    whether it returns or throws. *)
Lemma analyzeMessages_world messages env w :
  world (analyzeMessages messages env w) =
  {| db := db w; userStates := userStates w;
     trace := trace w ++ [GenerateContent (prompt_of messages)] |}.
Proof.
  unfold analyzeMessages. run.
  destruct (generateContent env (trace w) (prompt_of messages)); [|reflexivity].
  apply parse_analysis_world.
Qed.

Lemma map_update_where {A B} (g : A -> B) (P : A -> Prop) `{forall x, Decision (P x)}
    (f : A -> A) (t : list A) :
  (forall r, g (f r) = g r) -> map g (update_where P f t) = map g t.
Proof.
  intros Hg. unfold update_where. rewrite map_map. apply map_ext.
  intros r. destruct (decide (P r)); auto.
Qed.



(** ** Drafts built from a batch (C9) *)






(** ** A failing classification within a tick (C2) *)

Lemma for_of_app {A} (l1 l2 : list A) (body : A -> M unit) env w :
  for_of (l1 ++ l2) body env w =
  match for_of l1 body env w with
  | Done _ w1 => for_of l2 body env w1
  | Thrown e w1 => Thrown e w1
  end.
Proof.
  revert w. induction l1 as [|x l1 IH]; intros w; simpl; [reflexivity|].
  unfold mbind, M_bind. destruct (body x env w); [apply IH|reflexivity].
Qed.

(** C2, as the code has it: the one [try] of [processMessages] encloses the
    loop over the owners, so a classification that fails for one owner ends
    the tick: the owners that the server has handed out before it have been
    processed, the failing owner's rows stay as they were (unprocessed), and
    the owners handed out after it are not processed in this tick. *)
Theorem C2_failed_classification_ends_tick env w before userId after batch e w1 w2 :
  owners env (db w) = before ++ userId :: after ->
  for_of before process_owner env w = Done tt w1 ->
  batch_of (settings_of userId (db w1)) (Date_now env (trace w1))
    (unprocessed_of_owner userId (db w1)) = batch ->
  batch <> [] ->
  analyzeMessages batch env w1 = Thrown e w2 ->
  processMessages env w =
    Done tt {| db := db w1; userStates := userStates w1;
               trace := trace w1 ++ [GenerateContent (prompt_of batch); ConsoleError] |}.
Proof.
  intros Ho Hb Hbatch Hne Ha.
  pose proof (analyzeMessages_world batch env w1) as Hw. rewrite Ha in Hw. simpl in Hw.
  unfold processMessages, try_catch, ask, get_db. unfold mbind at 1, M_bind at 1.
  unfold mbind at 1, M_bind at 1.
  rewrite Ho, for_of_app, Hb. simpl. unfold mbind at 1, M_bind at 1.
  rewrite process_owner_batch, Hbatch.
  destruct batch as [|m rest]; [contradiction|].
  unfold process_batch. unfold mbind at 1, M_bind at 1. rewrite Ha.
  unfold emit. rewrite Hw. simpl. now rewrite <- app_assoc.
Qed.

(** Three owners come out newest first.  The model finds the batch of
    owner 3 casual and answers owner 2 without a JSON object: owner 3 has
    been processed, the tick ends at owner 2, and owner 1 is not reached. *)
Lemma C2_failed_classification_ends_tick_witness :
  let env := Sample.env_at 1700000000000 Sample.chatty_later in
  let w := Sample.world_of Sample.three_owners_db in
  let w1 := world (for_of [3] process_owner env w) in
  let batch := [Sample.queued 2 2 10 1699999990000 "for owner two"] in
  map is_processed (pending_messages (db w1)) = [false; false; true]
  /\ processMessages env w =
       Done tt {| db := db w1; userStates := userStates w1;
                  trace := trace w1 ++ [GenerateContent (prompt_of batch); ConsoleError] |}.
Proof.
  split; [vm_compute; reflexivity|].
  apply (C2_failed_classification_ends_tick
           (Sample.env_at 1700000000000 Sample.chatty_later)
           (Sample.world_of Sample.three_owners_db) [3] 2 [1]
           [Sample.queued 2 2 10 1699999990000 "for owner two"] AIFormatError
           (world (for_of [3] process_owner
                     (Sample.env_at 1700000000000 Sample.chatty_later)
                     (Sample.world_of Sample.three_owners_db)))
           (world (analyzeMessages [Sample.queued 2 2 10 1699999990000 "for owner two"]
                     (Sample.env_at 1700000000000 Sample.chatty_later)
                     (world (for_of [3] process_owner
                               (Sample.env_at 1700000000000 Sample.chatty_later)
                               (Sample.world_of Sample.three_owners_db)))))).
  - vm_compute. reflexivity.
  - vm_compute. reflexivity.
  - vm_compute. reflexivity.
  - discriminate.
  - vm_compute. reflexivity.
Defined.

(** C2 fails as stated, in whichever order the two owners come out: the
    classification of the first one fails, and the other one, whose batch
    the model would have accepted, is not processed in that tick: the one
    call of the classifier is the failing one, no draft is made, and both
    rows stay unprocessed. *)
Lemma C2_later_owner_not_processed :
  let w := Sample.world_of Sample.two_owners_db in
  let first := [Sample.queued 1 1 10 1699999990000 "for owner one"] in
  let second := [Sample.queued 2 2 10 1699999990000 "for owner two"] in
  (let env := Sample.env_with (fun l => l) 1700000000000 Sample.chatty_once in
   let w' := world (processMessages env w) in
   owners env (db w) = [1; 2]
   /\ trace w' = [GenerateContent (prompt_of first); ConsoleError]
   /\ db w' = db w
   /\ map is_processed (pending_messages (db (world (process_owner 2 env w'))))
      = [false; true])
  /\ (let env := Sample.env_with reverse 1700000000000 Sample.chatty_once in
      let w' := world (processMessages env w) in
      owners env (db w) = [2; 1]
      /\ trace w' = [GenerateContent (prompt_of second); ConsoleError]
      /\ db w' = db w
      /\ map is_processed (pending_messages (db (world (process_owner 1 env w'))))
         = [true; false]).
Proof. vm_compute. auto 10. Qed.

(** ** The answer of the classifier (C5) *)

Lemma trimmed_or_empty_text v env w :
  text_or_absent v = true -> trimmed_or_empty v env w = Done (text_of v) w.
Proof. destruct v as [[]|]; simpl; intros H; try discriminate; reflexivity. Qed.

(** C5, as the code has it: the classifier throws when the answer of the
    model holds no brace-delimited span (and when the span is not JSON); an
    object in which a boolean field is missing is not an error: the field
    is read as false and a result is returned. *)
Theorem C5_missing_field_reads_false env w messages responseText :
  generateContent env (trace w) (prompt_of messages) = Some responseText ->
  let w' := {| db := db w; userStates := userStates w;
               trace := trace w ++ [GenerateContent (prompt_of messages)] |} in
  (JS.match_braces responseText = None ->
   analyzeMessages messages env w = Thrown AIFormatError w')
  /\ (forall jsonMatch,
        JS.match_braces responseText = Some jsonMatch ->
        JS.JSON_parse jsonMatch = None ->
        analyzeMessages messages env w = Thrown SyntaxError w')
  /\ (forall jsonMatch parsed,
        JS.match_braces responseText = Some jsonMatch ->
        JS.JSON_parse jsonMatch = Some parsed ->
        text_or_absent (JS.prop parsed "suggestedTitle") = true ->
        text_or_absent (JS.prop parsed "combinedContent") = true ->
        exists r,
          analyzeMessages messages env w = Done r w'
          /\ shouldCombine r = JS.Boolean (JS.prop parsed "shouldCombine")
          /\ isInformational r = JS.Boolean (JS.prop parsed "isInformational")
          /\ (JS.prop parsed "shouldCombine" = None -> shouldCombine r = false)
          /\ (JS.prop parsed "isInformational" = None -> isInformational r = false)).
Proof.
  intros Hg w'.
  assert (Hcall : analyzeMessages messages env w = parse_analysis responseText env w').
  { unfold analyzeMessages, call. unfold mbind at 1, M_bind at 1. now rewrite Hg. }
  rewrite Hcall. unfold parse_analysis. split; [|split].
  - intros ->. reflexivity.
  - intros j -> ->. reflexivity.
  - intros j parsed -> -> Ht Hc. unfold mbind, M_bind.
    rewrite (trimmed_or_empty_text _ env w' Ht), (trimmed_or_empty_text _ env w' Hc).
    eexists. split; [reflexivity|]. simpl. repeat split; intros ->; reflexivity.
Qed.

(** An answer without braces throws; the answer [{"isInformational": true}]
    returns a result whose shouldCombine is false. *)
Lemma C5_missing_field_reads_false_witness :
  let w := Sample.world_of Sample.subscribed_db in
  let batch := [Sample.queued 1 1 10 1699999990000 "v2 is out"] in
  let w' := {| db := db w; userStates := userStates w;
               trace := trace w ++ [GenerateContent (prompt_of batch)] |} in
  analyzeMessages batch (Sample.env_at 1700000000000 Sample.chatty) w
  = Thrown AIFormatError w'
  /\ exists r,
       analyzeMessages batch (Sample.env_at 1700000000000 Sample.terse) w = Done r w'
       /\ shouldCombine r = false.
Proof.
  split.
  - refine (proj1 (C5_missing_field_reads_false
                     (Sample.env_at 1700000000000 Sample.chatty)
                     (Sample.world_of Sample.subscribed_db)
                     [Sample.queued 1 1 10 1699999990000 "v2 is out"]
                     "I cannot help with that." _) _); reflexivity.
  - destruct (proj2 (proj2 (C5_missing_field_reads_false
                     (Sample.env_at 1700000000000 Sample.terse)
                     (Sample.world_of Sample.subscribed_db)
                     [Sample.queued 1 1 10 1699999990000 "v2 is out"]
                     (JS.dq "{'isInformational': true}") eq_refl))
                (JS.dq "{'isInformational': true}")
                (JS.JObject [("isInformational", JS.JBool true)])
                eq_refl eq_refl eq_refl eq_refl)
      as (r & Hr & _ & _ & Hs & _).
    exists r. split; [exact Hr|]. apply Hs. reflexivity.
Defined.

(** C5 fails as stated: the object [{"isInformational": true}] misses the
    boolean field shouldCombine, and the classifier returns a result. *)
Lemma C5_missing_field_returns :
  let w := Sample.world_of Sample.subscribed_db in
  let batch := [Sample.queued 1 1 10 1699999990000 "v2 is out"] in
  JS.JSON_parse (JS.dq "{'isInformational': true}")
  = Some (JS.JObject [("isInformational", JS.JBool true)])
  /\ analyzeMessages batch (Sample.env_at 1700000000000 Sample.terse) w =
     Done {| shouldCombine := false; isInformational := true;
             suggestedTitle := EmptyString; combinedContent := EmptyString |}
       {| db := db w; userStates := userStates w;
          trace := trace w ++ [GenerateContent (prompt_of batch)] |}.
Proof. vm_compute. auto. Qed.

(** ** The publish orchestrator (C1, C4) *)

Lemma sink_calls_app tr tr' : sink_calls (tr ++ tr') = sink_calls tr ++ sink_calls tr'.
Proof. apply List.filter_app. Qed.

(** C1, as the code has it: publish does not look at the sink ids recorded
    on the draft.  For every draft of the caller it calls the sinks that the
    owner's settings configure, Notion first and then GitHub (unless the
    Notion call threw or the repository is malformed), so a sink whose id
    is already recorded is published to again. *)
Theorem C1_publish_calls_configured_sinks env w postId userId post rest :
  filter (fun p => bp_id p = postId /\ bp_user_id p = userId) (blog_posts (db w))
  = post :: rest ->
  sink_calls (trace (world (publishPost postId userId env w))) =
  sink_calls (trace w)
  ++ configured_sink_calls env (trace w) (settings_of userId (db w)) post.
Proof.
  intros Hsel.
  assert (Hid : bp_id post = postId).
  { assert (Hin : post ∈ filter (fun p => bp_id p = postId /\ bp_user_id p = userId)
                    (blog_posts (db w))) by (rewrite Hsel; left).
    apply list_elem_of_filter in Hin. tauto. }
  unfold publishPost, getUserSettings, configured_sink_calls. run.
  rewrite (filter_update_where _ _ (set_status publishing)) by (intros; reflexivity).
  rewrite Hsel. simpl. rewrite decide_True by exact Hid. simpl.
  unfold publishToNotion, publishToGitHub. run.
  change (settings_of userId (update_post_status publishing postId (db w)))
    with (settings_of userId (db w)).
  set (s := settings_of userId (db w)).
  destruct (JS.truthy_opt (notion_database_id s)), (JS.truthy_opt (github_repo s)),
    (JS.truthy (JS.nullish (JS.split "/" (JS.nullish (github_repo s) EmptyString) !! 0%nat)
                  EmptyString)),
    (JS.truthy (JS.nullish (JS.split "/" (JS.nullish (github_repo s) EmptyString) !! 1%nat)
                  EmptyString));
    simpl; repeat (split_match; simpl);
    rewrite ?sink_calls_app; simpl; rewrite ?app_nil_r, <- ?app_assoc; reflexivity.
Qed.

(** On the draft of [Sample.half_published_db], which records a Notion page,
    both sinks are called. *)
Lemma C1_publish_calls_configured_sinks_witness :
  let env := Sample.env_at 1700000000000 Sample.informational in
  let w := Sample.world_of Sample.half_published_db in
  sink_calls (trace (world (publishPost 1 1 env w))) =
  [NotionCreate "notion-db" "Release notes" "Version 2 is out." [];
   GitHubCreate "ann" "blog" "Release notes" "Version 2 is out." []].
Proof.
  exact (C1_publish_calls_configured_sinks
           (Sample.env_at 1700000000000 Sample.informational)
           (Sample.world_of Sample.half_published_db) 1 1
           (Sample.draft 1 1 published (Some "page-1") None) [] eq_refl).
Defined.

(** C1 fails as stated: draft 1 records the Notion page [page-1] and no
    GitHub commit; on approval Notion is called again, and the recorded
    page id is replaced by the id of the second page. *)
Lemma C1_recorded_sink_is_called_again :
  let env := Sample.env_at 1700000000000 Sample.informational in
  let w := Sample.world_of Sample.half_published_db in
  let w' := world (handle (Publish "1") (Sample.private_ctx 1) env w) in
  map notion_page_id (blog_posts (db w)) = [Some "page-1"]
  /\ map github_commit_sha (blog_posts (db w)) = [None]
  /\ trace w' =
     [NotionCreate "notion-db" "Release notes" "Version 2 is out." [];
      GitHubCreate "ann" "blog" "Release notes" "Version 2 is out." [];
      SendMessage 1 (Published "Release notes" true true);
      AnswerCbQuery CbPublishing; DeleteMessage]
  /\ map notion_page_id (blog_posts (db w')) = [Some "page-2"].
Proof. vm_compute. auto. Qed.

(** When the draft is not the caller's, [publishPost] calls no sink and
    sends nothing, but its first statement has already run: every draft of
    that id is set to publishing. *)
Lemma publishPost_not_owner env w postId userId :
  filter (fun p => bp_id p = postId /\ bp_user_id p = userId) (blog_posts (db w)) = [] ->
  publishPost postId userId env w =
  Done tt {| db := update_post_status publishing postId (db w);
             userStates := userStates w; trace := trace w |}.
Proof.
  intros Hsel. unfold publishPost. run.
  rewrite (filter_update_where _ _ (set_status publishing)) by (intros; reflexivity).
  rewrite Hsel. reflexivity.
Qed.

(** When no draft has that id, [publishPost] changes nothing at all. *)
Lemma publishPost_unknown_id env w postId userId :
  Forall (fun p => bp_id p <> postId) (blog_posts (db w)) ->
  publishPost postId userId env w = Done tt w.
Proof.
  intros Hno. rewrite publishPost_not_owner.
  - destruct w as [d us tr]. destruct d. unfold update_post_status, with_blog_posts.
    cbn -[update_where] in *. now rewrite (update_where_id _ _ _ Hno).
  - apply elem_of_nil_inv. intros p Hp. apply list_elem_of_filter in Hp as [[Hid _] Hin].
    rewrite Forall_forall in Hno. exact (Hno p Hin Hid).
Qed.

(** C4 on the code: user 2 asks to publish draft 1, which is user 1's and
    pending.  No draft with that id and owner exists, no sink is called, and
    yet the draft of user 1 is left in status publishing. *)
Lemma C4_foreign_draft_is_set_publishing :
  let env := Sample.env_at 1700000000000 Sample.informational in
  let w := Sample.world_of Sample.foreign_draft_db in
  let w' := world (publishPost 1 2 env w) in
  filter (fun p => bp_id p = 1 /\ bp_user_id p = 2) (blog_posts (db w)) = []
  /\ map status (blog_posts (db w)) = [pending]
  /\ map status (blog_posts (db w')) = [publishing]
  /\ trace w' = [].
Proof. vm_compute. auto. Qed.

(** ** Unauthorized users (C6) *)

Lemma authorized_insert_user userId name flag t d :
  authorized userId d = false ->
  authorized userId (insert_user userId name flag t d)
  = flag && negb (bool_decide (Exists (fun r => u_user_id r = userId) (users d))).
Proof.
  unfold authorized. simpl. intros H.
  destruct (decide (Exists _ (users d))) as [Hex|Hex].
  - rewrite bool_decide_true by assumption. rewrite H. now rewrite andb_false_r.
  - rewrite bool_decide_false by assumption. rewrite filter_app, filter_cons, filter_nil.
    rewrite decide_True by reflexivity.
    assert (Hnil : filter (fun r => u_user_id r = userId) (users d) = []).
    { apply elem_of_nil_inv. intros r Hr. apply list_elem_of_filter in Hr as [Hr Hin].
      apply Hex, Exists_exists. eauto. }
    rewrite Hnil. simpl. now rewrite andb_true_r.
Qed.

(** C6, as the code has it, for a user who is not authorized and is not the
    configured owner.  The four settings actions answer Unauthorized and
    change nothing.  The menu commands, /unsubscribe and a forwarded message
    end silently: nothing is sent and nothing changes.  /authorize and
    /revoke are refused with a reply and change nothing.  /start first
    registers the user (a users row and a user_settings row, when absent)
    and then replies that the user is not authorized.  Going back to the
    main menu is not guarded and changes no stored state.  Nothing is said
    here of the text handler and of the publish, reject and edit actions. *)
Theorem C6_unauthorized_actions env w ctx u a :
  from ctx = Some u ->
  authorized (uid u) (db w) = false ->
  uid u <> OWNER_USER_ID env ->
  match a with
  | ToggleAutoPublish | SetCombineTime | SetNotionDb | SetGithubRepo =>
      handle a ctx env w = Done tt (answered w (AnswerCbQuery CbUnauthorized))
  | HearsStatus | HearsSettings | HearsSubscribe | HearsListSources
  | HearsPendingPosts | HearsManageUsers | Unsubscribe _ | Forward _ =>
      handle a ctx env w = Done tt w
  | Authorize _ => handle a ctx env w = Done tt (answered w (Reply OnlyOwnerAuthorize))
  | Revoke _ => handle a ctx env w = Done tt (answered w (Reply OnlyOwnerRevoke))
  | Start =>
      handle a ctx env w =
      Done tt {| db := insert_user_settings (uid u) (Date_now env (trace w))
                         (insert_user (uid u) (username u) false
                            (Date_now env (trace w)) (db w));
                 userStates := userStates w;
                 trace := trace w ++ [Reply NotAuthorized] |}
  | BackToMain =>
      db (world (handle a ctx env w)) = db w
      /\ userStates (world (handle a ctx env w)) = userStates w
  | PrivateText _ | Publish _ | Reject _ | Edit _ => True
  end.
Proof.
  intros Hu Ha Ho.
  assert (Hno : bool_decide (uid u = OWNER_USER_ID env) = false)
    by now apply bool_decide_false.
  assert (Hneq : bool_decide (Some (uid u) <> Some (OWNER_USER_ID env)) = true)
    by (apply bool_decide_true; congruence).
  destruct a; simpl; try exact I.
  all: unfold on_start, hears_status, hears_settings, action_toggle_auto_publish,
    action_set_combine_time, action_set_notion_db, action_set_github_repo, action_ask,
    hears_subscribe, hears_list_sources, hears_pending_posts, hears_manage_users,
    command_authorize, command_revoke, command_set_authorized, command_unsubscribe,
    on_forward_origin, action_back_to_main, isAuthorized, from_id, upsertUser;
    rewrite ?Hu; run; rewrite ?Ha, ?Hneq, ?Hno; simpl.
  all: try reflexivity.
  - change (authorized (uid u) (insert_user_settings ?a ?b ?d))
      with (authorized (uid u) d).
    rewrite authorized_insert_user by assumption. reflexivity.
  - auto.
Qed.

(** User 5 has no users row: the toggle is answered Unauthorized, the
    status command is ignored. *)
Lemma C6_unauthorized_actions_witness :
  let env := Sample.env_at 1700000000000 Sample.informational in
  let w := Sample.world_of Sample.subscribed_db in
  handle ToggleAutoPublish (Sample.private_ctx 5) env w
  = Done tt (answered w (AnswerCbQuery CbUnauthorized))
  /\ handle HearsStatus (Sample.private_ctx 5) env w = Done tt w.
Proof.
  split.
  - apply (C6_unauthorized_actions (Sample.env_at 1700000000000 Sample.informational)
             (Sample.world_of Sample.subscribed_db) (Sample.private_ctx 5)
             (Sample.person 5) ToggleAutoPublish);
      [reflexivity | reflexivity | discriminate].
  - apply (C6_unauthorized_actions (Sample.env_at 1700000000000 Sample.informational)
             (Sample.world_of Sample.subscribed_db) (Sample.private_ctx 5)
             (Sample.person 5) HearsStatus);
      [reflexivity | reflexivity | discriminate].
Defined.

(** C6 fails as stated: user 5 is unknown to the bot, hence not authorized;
    /start is rejected with a reply, and two rows have been inserted. *)
Lemma C6_start_registers_the_unauthorized :
  let env := Sample.env_at 1700000000000 Sample.informational in
  let w := Sample.world_of Sample.empty_db in
  let w' := world (handle Start (Sample.private_ctx 5) env w) in
  authorized 5 (db w) = false
  /\ trace w' = [Reply NotAuthorized]
  /\ users (db w) = []
  /\ user_settings (db w) = []
  /\ users (db w') =
     [{| u_user_id := 5; u_username := None; u_is_authorized := false;
         u_created_at := 1700000000000 |}]
  /\ map (fun r => user_id (settings r)) (user_settings (db w')) = [5].
Proof. vm_compute. auto 10. Qed.

(** ** The pending-input state machine (C10) *)

Lemma map_same {A} (f : A -> A) (l : list A) : (forall x, f x = x) -> map f l = l.
Proof.
  intros Hf. rewrite <- (map_id l) at 2. apply map_ext. exact Hf.
Qed.

(** C10, as the code has it: a private text received while a state is
    pending for its sender fails the validation of that state, and then the
    database and the pending state are as before and the complaint is sent;
    or it passes the validation and the column takes the value, and then the
    one column is written, the confirmation is sent and the state is deleted;
    or it passes the validation and the column refuses the value, and then
    the UPDATE throws: nothing is written, nothing is sent and the state
    stays. *)
Theorem C10_pending_input_consumed_once env w ctx u c message st :
  chat ctx = Some c ->
  c_type c = private ->
  from ctx = Some u ->
  userStates w !! uid u = Some st ->
  let txt := JS.trim (JS.nullish (m_text message) EmptyString) in
  on_text message ctx env w =
  if negb (valid_input st txt)
  then Done tt {| db := db w; userStates := userStates w;
                  trace := trace w ++ [Reply (complaint st)] |}
  else if column_takes st txt
  then Done tt {| db := input_stored st txt (Date_now env (trace w)) (uid u) (db w);
                  userStates := delete (uid u) (userStates w);
                  trace := trace w ++ [Reply (confirmation st txt)] |}
  else Thrown DatabaseError w.
Proof.
  intros Hc Hp Hu Hst txt. unfold on_text. rewrite Hc, Hu. simpl. rewrite Hp.
  rewrite bool_decide_false by (intros H; now apply H).
  unfold from_id. rewrite Hu. run. rewrite Hst. fold txt.
  destruct st; simpl.
  - destruct (varchar 255 txt) as [stored|] eqn:E; simpl; [|reflexivity].
    unfold input_stored, update_user_settings, with_user_settings, update_where.
    simpl. rewrite (map_same (post_answered _ _ _)) by reflexivity.
    rewrite E. reflexivity.
  - destruct (JS.test_owner_repo txt); simpl; [|reflexivity].
    destruct (varchar 255 txt) as [stored|] eqn:E; simpl; [|reflexivity].
    unfold input_stored, update_user_settings, with_user_settings, update_where.
    simpl. rewrite (map_same (post_answered _ _ _)) by reflexivity.
    rewrite E. reflexivity.
  - destruct (JS.isInteger (JS.Number txt)), (JS.le_zero (JS.Number txt)); simpl;
      try reflexivity.
    destruct (int4 _); simpl; [|reflexivity].
    unfold input_stored, update_user_settings, with_user_settings, update_where.
    simpl. rewrite (map_same (post_answered _ _ _)) by reflexivity.
    reflexivity.
  - destruct (int4 postId); simpl; [|reflexivity].
    unfold input_stored, with_blog_posts, update_where. simpl.
    rewrite (map_same (fun r => if decide (user_id (settings r) = uid u) then r else r))
      by (intros r; now destruct (decide _)).
    reflexivity.
Qed.

(** Owner 1 is asked for the combine time: [soon] is refused and the state
    stays, [10] is stored and the state is deleted. *)
Lemma C10_pending_input_consumed_once_witness :
  let env := Sample.env_at 1700000000000 Sample.informational in
  let w := Sample.asked_combine_time in
  on_text (Sample.text_message 7 "soon") (Sample.private_ctx 1) env w
  = Done tt {| db := db w; userStates := userStates w;
               trace := [Reply NeedPositiveInteger] |}
  /\ (exists w',
        on_text (Sample.text_message 8 " 10 ") (Sample.private_ctx 1) env w = Done tt w'
        /\ user_settings (db w')
           = [{| settings := {| user_id := 1; auto_publish := false;
                                combine_threshold_minutes := 10;
                                notion_database_id := None; github_repo := None |};
                 updated_at := 1700000000000 |}]
        /\ userStates w' = ∅
        /\ trace w' = [Reply (CombineUpdated 10)]).
Proof.
  split.
  - exact (C10_pending_input_consumed_once
             (Sample.env_at 1700000000000 Sample.informational)
             Sample.asked_combine_time (Sample.private_ctx 1) (Sample.person 1)
             {| c_id := 1; c_type := private; c_title := None |}
             (Sample.text_message 7 "soon") set_combine_time
             eq_refl eq_refl eq_refl eq_refl).
  - eexists. split.
    + exact (C10_pending_input_consumed_once
               (Sample.env_at 1700000000000 Sample.informational)
               Sample.asked_combine_time (Sample.private_ctx 1) (Sample.person 1)
               {| c_id := 1; c_type := private; c_title := None |}
               (Sample.text_message 8 " 10 ") set_combine_time
               eq_refl eq_refl eq_refl eq_refl).
    + repeat split.
Defined.

(** C10 fails as stated: owner 1 is asked for the combine time and answers
    [99999999999], which passes the validation (a whole number above zero);
    the INT column refuses it, the UPDATE throws, and the setting is not
    written and the state is not deleted. *)
Lemma C10_valid_number_is_not_stored :
  let env := Sample.env_at 1700000000000 Sample.informational in
  let w := Sample.asked_combine_time in
  valid_input set_combine_time "99999999999" = true
  /\ on_text (Sample.text_message 9 "99999999999") (Sample.private_ctx 1) env w
     = Thrown DatabaseError w
  /\ userStates w !! 1 = Some set_combine_time.
Proof. vm_compute. auto. Qed.

(** * Further properties of [src/index.ts] *)

(** ** Computations that keep a relation *)

Section Keeps.

Context (R : World -> World -> Prop) `{!Reflexive R} `{!Transitive R}.

(** The relation does not look at the trace. *)
Hypothesis R_trace : forall w tr,
  R w {| db := db w; userStates := userStates w; trace := tr |}.

Lemma keeps_ret {A} (a : A) : keeps R (mret a).
Proof. intros env w. simpl. reflexivity. Qed.

Lemma keeps_throw {A} e : keeps R (@throw A e).
Proof. intros env w. simpl. reflexivity. Qed.

Lemma keeps_emit e : keeps R (emit e).
Proof. intros env w. apply R_trace. Qed.

Lemma keeps_call {A} e (oracle : Env -> list Event -> option A) : keeps R (call e oracle).
Proof.
  intros env w. unfold call. destruct (oracle env (trace w)); apply R_trace.
Qed.

Lemma keeps_now : keeps R now.
Proof. intros env w. simpl. reflexivity. Qed.

Lemma keeps_ask : keeps R ask.
Proof. intros env w. simpl. reflexivity. Qed.

Lemma keeps_get_db : keeps R get_db.
Proof. intros env w. simpl. reflexivity. Qed.

Lemma keeps_get_states : keeps R get_states.
Proof. intros env w. simpl. reflexivity. Qed.

Lemma keeps_modify_db (f : DB -> DB) :
  (forall w, R w {| db := f (db w); userStates := userStates w; trace := trace w |}) ->
  keeps R (modify_db f).
Proof. intros Hf env w. apply Hf. Qed.

Lemma keeps_bind {A B} (c : M A) (f : A -> M B) :
  keeps R c -> (forall a, keeps R (f a)) -> keeps R (c ≫= f).
Proof.
  intros Hc Hf env w. unfold mbind, M_bind. specialize (Hc env w).
  destruct (c env w) as [a w'|e w']; simpl in *; [|assumption].
  etransitivity; [exact Hc | apply Hf].
Qed.

Lemma keeps_fmap {A B} (g : A -> B) (c : M A) : keeps R c -> keeps R (g <$> c).
Proof.
  intros Hc env w. unfold fmap, M_fmap. specialize (Hc env w).
  destruct (c env w); assumption.
Qed.

Lemma keeps_try_catch {A} (c : M A) (h : Error -> M A) :
  keeps R c -> (forall e, keeps R (h e)) -> keeps R (try_catch c h).
Proof.
  intros Hc Hh env w. unfold try_catch. specialize (Hc env w).
  destruct (c env w) as [a w'|e w']; simpl in *; [assumption|].
  etransitivity; [exact Hc | apply Hh].
Qed.

Lemma keeps_for_of {A} (l : list A) (body : A -> M unit) :
  Forall (fun x => keeps R (body x)) l -> keeps R (for_of l body).
Proof.
  induction 1 as [|x l Hx _ IH]; simpl; [apply keeps_ret|].
  apply keeps_bind; [assumption | intros _; exact IH].
Qed.

End Keeps.

(** ** Computations that return *)

Lemma returns_bind {A B} (c : M A) (f : A -> M B) :
  returns c -> (forall a, returns (f a)) -> returns (c ≫= f).
Proof.
  intros Hc Hf env w. unfold mbind, M_bind.
  destruct (Hc env w) as (a & w' & ->). apply Hf.
Qed.

Lemma returns_for_of {A} (l : list A) (body : A -> M unit) :
  (forall x, returns (body x)) -> returns (for_of l body).
Proof.
  intros Hb. induction l as [|x l IH]; simpl.
  - intros env w. now exists tt, w.
  - apply returns_bind; [apply Hb | intros _; exact IH].
Qed.

(** ** Ingestion *)

Lemma truthy_opt_nullish o :
  JS.truthy_opt o = true -> JS.truthy (JS.nullish o EmptyString) = true.
Proof. destruct o; simpl; auto. Qed.

Lemma string_of_Z_truthy z : JS.truthy (JS.string_of_Z z) = true.
Proof.
  unfold JS.string_of_Z. destruct (Z.to_int z) as [d|d]; [|reflexivity].
  destruct d; reflexivity.
Qed.

Lemma truthy_app_l a b : JS.truthy a = true -> JS.truthy (a +:+ b) = true.
Proof. destruct a; simpl; [discriminate | reflexivity]. Qed.

Lemma join_truthy sep l :
  l <> [] -> Forall (fun s => JS.truthy s = true) l -> JS.truthy (JS.join sep l) = true.
Proof.
  intros Hne Hall. destruct Hall as [|x l Hx Hl]; [contradiction|].
  simpl. destruct l; [assumption|]. now apply truthy_app_l.
Qed.

(** X1: the sender name computed for a message is never the empty string:
    it is a signature, a chat title, a user name, a first or last name, the
    numeric id of the user, or the word Unknown. *)
Theorem X1_sender_name_is_never_empty message :
  JS.truthy (getSenderName message) = true.
Proof.
  unfold getSenderName.
  destruct (JS.truthy_opt (author_signature message)) eqn:Ha;
    [now apply truthy_opt_nullish|].
  destruct (JS.truthy_opt (sender_chat message ≫= c_title)) eqn:Hc;
    [now apply truthy_opt_nullish|].
  destruct (m_from message) as [u|]; [|reflexivity].
  destruct (JS.truthy_opt (username u)) eqn:Hu; [reflexivity|].
  destruct (List.filter JS.truthy _) as [|p parts] eqn:Hp;
    [apply string_of_Z_truthy|].
  apply join_truthy; [discriminate|]. rewrite <- Hp.
  apply Forall_forall. intros s Hs. rewrite list_elem_of_In in Hs.
  apply List.filter_In in Hs. tauto.
Qed.

Section Ingested.

Context (S : Z -> Prop).

Lemma ingested_refl w : ingested S w w.
Proof.
  unfold ingested. repeat split; try reflexivity.
  exists []. now rewrite app_nil_r.
Qed.

#[local] Instance ingested_keyed_refl : Reflexive (ingested_keyed S).
Proof. intros w. split; [apply ingested_refl | auto]. Qed.

#[local] Instance ingested_keyed_trans : Transitive (ingested_keyed S).
Proof.
  intros w1 w2 w3 [(U1 & S1 & M1 & B1 & Q1 & P1 & T1 & a1 & E1 & F1) K1]
    [(U2 & S2 & M2 & B2 & Q2 & P2 & T2 & a2 & E2 & F2) K2].
  split; [|auto]. unfold ingested. repeat split; try congruence.
  exists (a1 ++ a2). split; [now rewrite E2, E1, app_assoc | now apply Forall_app].
Qed.

Lemma ingested_keyed_trace w tr :
  ingested_keyed S w {| db := db w; userStates := userStates w; trace := tr |}.
Proof.
  split; [|auto]. unfold ingested. simpl. repeat split; try reflexivity.
  exists []. now rewrite app_nil_r.
Qed.

Lemma collectFile_ingested fileId urls :
  keeps (ingested_keyed S) (collectFile fileId urls).
Proof.
  unfold collectFile. destruct (negb (JS.truthy_opt fileId)); [now apply keeps_ret|].
  apply keeps_try_catch; try typeclasses eauto.
  - apply keeps_bind; try typeclasses eauto.
    + apply keeps_call. apply ingested_keyed_trace.
    + intros link. now apply keeps_ret.
  - intros _. apply keeps_bind; try typeclasses eauto.
    + apply keeps_emit. apply ingested_keyed_trace.
    + intros _. now apply keeps_ret.
Qed.

Lemma extractMediaUrls_ingested message :
  keeps (ingested_keyed S) (extractMediaUrls message).
Proof.
  unfold extractMediaUrls.
  repeat (apply keeps_bind; try typeclasses eauto; [|intros ?]);
    try apply collectFile_ingested.
  destruct (photo message) as [sizes|]; [|now apply keeps_ret].
  destruct (List.last _ _); [apply collectFile_ingested | now apply keeps_ret].
Qed.

Lemma storePendingMessage_ingested source message :
  S (ms_id source) -> keeps (ingested_keyed S) (storePendingMessage source message).
Proof.
  intros Hs. unfold storePendingMessage.
  apply keeps_bind; try typeclasses eauto; [apply extractMediaUrls_ingested|].
  intros urls. destruct (_ && _); [now apply keeps_ret|].
  apply keeps_bind; try typeclasses eauto; [now apply keeps_now|].
  intros t env w. unfold modify_db. cbn [world]. split.
  - unfold ingested. simpl. repeat split; try reflexivity.
    destruct (decide _) as [Hex|Hex].
    + exists []. now rewrite app_nil_r.
    + eexists. split; [reflexivity|]. constructor; [|constructor]. simpl. auto.
  - unfold unique_queue. cbn [db]. apply insert_pending_message_unique.
Qed.

(** An incoming message is queued for the active sources of its chat. *)
Lemma handleIncomingMessage_routed ctx message env w :
  (forall ms c, ms ∈ monitored_sources (db w) -> is_active ms = true ->
                chat ctx = Some c -> chat_id ms = c_id c ->
                getTopicId message = None \/ topic_id ms = None
                \/ topic_id ms = getTopicId message ->
                S (ms_id ms)) ->
  ingested_keyed S w (world (handleIncomingMessage ctx message env w)).
Proof.
  intros HS. unfold handleIncomingMessage. destruct (chat ctx) as [c|] eqn:Hc;
    [|reflexivity].
  unfold get_db, mbind, M_bind. cbv beta iota.
  refine (@keeps_for_of (ingested_keyed S) _ _ _ _ _ _ env w).
  apply Forall_forall. intros src Hsrc. apply storePendingMessage_ingested.
  unfold sources_of_chat in Hsrc. apply list_elem_of_filter in Hsrc as [(H1 & H2 & H3) Hin].
  eapply HS; eauto.
Qed.

Lemma handleIncomingMessage_ingested ctx message env w :
  (forall ms c, ms ∈ monitored_sources (db w) -> is_active ms = true ->
                chat ctx = Some c -> chat_id ms = c_id c -> S (ms_id ms)) ->
  ingested_keyed S w (world (handleIncomingMessage ctx message env w)).
Proof.
  intros HS. apply handleIncomingMessage_routed. intros ms c Hin Hact Hc Hchat _.
  now apply (HS ms c).
Qed.

End Ingested.

Lemma storePendingMessage_returns source message :
  returns (storePendingMessage source message).
Proof.
  intros env w. destruct (storePendingMessage_cases source message env w) as (w' & E & _).
  eauto.
Qed.

Lemma handleIncomingMessage_returns ctx message :
  returns (handleIncomingMessage ctx message).
Proof.
  unfold handleIncomingMessage. destruct (chat ctx); [|intros e x; now exists tt, x].
  apply returns_bind; [intros e x; now exists (db x), x|].
  intros d. apply returns_for_of. intros src. apply storePendingMessage_returns.
Qed.

(** X2: ingestion never throws and only appends to the queue: the rows
    that were queued stay as they are, every row added is unprocessed and
    belongs to an active source of the chat the message came from, which
    follows the whole chat or the topic of the message, and users, settings,
    sources, drafts and pending inputs are untouched. *)
Theorem X2_ingestion_only_appends ctx message env w :
  exists w',
    handleIncomingMessage ctx message env w = Done tt w'
    /\ ingested
         (fun sourceId =>
            exists ms c, ms ∈ monitored_sources (db w) /\ ms_id ms = sourceId
                         /\ is_active ms = true /\ chat ctx = Some c
                         /\ chat_id ms = c_id c
                         /\ (message_thread_id message = None \/ topic_id ms = None
                             \/ topic_id ms = message_thread_id message))
         w w'.
Proof.
  destruct (handleIncomingMessage_returns ctx message env w) as ([] & w' & E).
  exists w'. split; [exact E|].
  change w' with (world (Done tt w')). rewrite <- E.
  apply handleIncomingMessage_routed. intros ms c Hin Hact Hc Hchat Htopic.
  exists ms, c. repeat split; assumption.
Qed.

(** X3: ingestion keeps the UNIQUE key of the queue: if no two queued rows
    share (source_id, message_id) before an incoming message is handled,
    none do after it, however many sources the message is queued for. *)
Theorem X3_ingestion_keeps_the_key ctx message env w :
  unique_queue w ->
  unique_queue (world (handleIncomingMessage ctx message env w)).
Proof.
  intros Hu.
  exact (proj2 (handleIncomingMessage_ingested (fun _ => True) ctx message env w
                  (fun _ _ _ _ _ _ => I)) Hu).
Qed.


Lemma X3_ingestion_keeps_the_key_witness :
  unique_queue
    (world (handleIncomingMessage More.channel_ctx (More.channel_post 30 (Some "hello"))
              (Sample.env_at 1700000000000 Sample.informational)
              (Sample.world_of Sample.two_owners_db))).
Proof.
  apply (X3_ingestion_keeps_the_key More.channel_ctx (More.channel_post 30 (Some "hello"))
           (Sample.env_at 1700000000000 Sample.informational)
           (Sample.world_of Sample.two_owners_db)).
  unfold unique_queue. apply (bool_decide_unpack _). vm_compute. exact I.
Defined.

Lemma collectFile_unresolved env fileId urls w :
  (forall tr f, getFileLink env tr f = None) ->
  exists w', collectFile fileId urls env w = Done urls w' /\ db w' = db w.
Proof.
  intros Hno. unfold collectFile. destruct (JS.truthy_opt fileId); simpl.
  - run. rewrite Hno. eauto.
  - run. eauto.
Qed.

Lemma extractMediaUrls_unresolved env message w :
  (forall tr f, getFileLink env tr f = None) ->
  exists w', extractMediaUrls message env w = Done [] w' /\ db w' = db w.
Proof.
  intros Hno. unfold extractMediaUrls.
  assert (exists w0,
            (match photo message with
             | Some sizes => match List.last (map Some sizes) None with
                             | Some largest => collectFile (Some largest) []
                             | None => mret []
                             end
             | None => mret []
             end) env w = Done [] w0 /\ db w0 = db w) as (w0 & E0 & D0).
  { destruct (photo message) as [sizes|]; [|run; eauto].
    destruct (List.last _ _); [now apply collectFile_unresolved | run; eauto]. }
  unfold mbind at 1, M_bind at 1. rewrite E0.
  destruct (collectFile_unresolved env (document message) [] w0 Hno) as (w1 & E1 & D1).
  unfold mbind at 1, M_bind at 1. rewrite E1.
  destruct (collectFile_unresolved env (video message) [] w1 Hno) as (w2 & E2 & D2).
  unfold mbind at 1, M_bind at 1. rewrite E2.
  destruct (collectFile_unresolved env (animation message) [] w2 Hno) as (w3 & E3 & D3).
  unfold mbind at 1, M_bind at 1. rewrite E3.
  destruct (collectFile_unresolved env (audio message) [] w3 Hno) as (w4 & E4 & D4).
  exists w4. split; [assumption | congruence].
Qed.

(** X4: a file link that cannot be resolved does not abort the message.
    When no link resolves, a message with text or caption is queued with an
    empty list of media, and a message without text is dropped: the
    database stays as it is. *)
Theorem X4_unresolved_media_are_left_out source message env w :
  (forall tr f, getFileLink env tr f = None) ->
  let w' := world (storePendingMessage source message env w) in
  if JS.truthy (extractMessageText message)
  then exists ts,
         db w' =
         insert_pending_message (ms_id source) (m_message_id message)
           (Some (extractMessageText message)) [] (getSenderName message) ts (db w)
  else db w' = db w.
Proof.
  intros Hno. cbv zeta. unfold storePendingMessage.
  destruct (extractMediaUrls_unresolved env message w Hno) as (w1 & E & D).
  destruct (JS.truthy (extractMessageText message));
    unfold mbind at 1, M_bind at 1; rewrite E; simpl.
  - run. eexists. now rewrite D.
  - exact D.
Qed.

Lemma X4_unresolved_media_are_left_out_witness :
  let env := More.offline 1700000000000 Sample.informational in
  let w := Sample.world_of Sample.subscribed_db in
  map pm_media_urls
    (pending_messages
       (db (world (storePendingMessage (Sample.source 1 1 true)
                     (More.channel_post 30 (Some "hello")) env w))))
  = [Some []; Some []]
  /\ db (world (storePendingMessage (Sample.source 1 1 true)
                  (More.channel_post 31 None) env w)) = db w.
Proof.
  split.
  - destruct (X4_unresolved_media_are_left_out (Sample.source 1 1 true)
                (More.channel_post 30 (Some "hello"))
                (More.offline 1700000000000 Sample.informational)
                (Sample.world_of Sample.subscribed_db) (fun _ _ => eq_refl))
      as [ts ->].
    reflexivity.
  - exact (X4_unresolved_media_are_left_out (Sample.source 1 1 true)
             (More.channel_post 31 None)
             (More.offline 1700000000000 Sample.informational)
             (Sample.world_of Sample.subscribed_db) (fun _ _ => eq_refl)).
Defined.

(** ** What publishing and a tick leave alone *)

Section DraftsOnly.

Context (R : World -> World -> Prop) `{!Reflexive R} `{!Transitive R}.

Hypothesis R_trace : forall w tr,
  R w {| db := db w; userStates := userStates w; trace := tr |}.

(** The relation does not look at the drafts. *)
Hypothesis R_drafts : forall w f,
  R w {| db := with_blog_posts f (db w); userStates := userStates w; trace := trace w |}.

Lemma publishToNotion_keeps databaseId ttl cnt media :
  keeps R (publishToNotion databaseId ttl cnt media).
Proof. unfold publishToNotion. now apply keeps_call. Qed.

Lemma publishToGitHub_keeps repo ttl cnt media :
  keeps R (publishToGitHub repo ttl cnt media).
Proof.
  unfold publishToGitHub. destruct (_ || _); [now apply keeps_throw|].
  apply keeps_bind; try typeclasses eauto; [now apply keeps_call|].
  intros sha. now apply keeps_ret.
Qed.

Lemma getUserSettings_keeps userId : keeps R (getUserSettings userId).
Proof.
  unfold getUserSettings. apply keeps_bind; try typeclasses eauto;
    [now apply keeps_get_db | intros d; now apply keeps_ret].
Qed.

Lemma publishPost_keeps postId userId : keeps R (publishPost postId userId).
Proof.
  unfold publishPost.
  apply keeps_bind; try typeclasses eauto.
  { apply keeps_modify_db. intros w. apply R_drafts. }
  intros _. apply keeps_try_catch; try typeclasses eauto.
  - apply keeps_bind; try typeclasses eauto; [now apply keeps_get_db|].
    intros d. destruct (filter _ _) as [|post rest]; [now apply keeps_ret|].
    apply keeps_bind; try typeclasses eauto; [apply getUserSettings_keeps|].
    intros s. apply keeps_bind; try typeclasses eauto.
    { destruct (JS.truthy_opt (notion_database_id s)); [|now apply keeps_ret].
      apply keeps_fmap; try typeclasses eauto. apply publishToNotion_keeps. }
    intros notionPageId. apply keeps_bind; try typeclasses eauto.
    { destruct (JS.truthy_opt (github_repo s)); [|now apply keeps_ret].
      apply keeps_fmap; try typeclasses eauto. apply publishToGitHub_keeps. }
    intros githubSha. apply keeps_bind; try typeclasses eauto; [now apply keeps_now|].
    intros t. apply keeps_bind; try typeclasses eauto.
    { apply keeps_modify_db. intros w. apply R_drafts. }
    intros _. unfold sendMessage. now apply keeps_call.
  - intros _. apply keeps_bind; try typeclasses eauto.
    { apply keeps_modify_db. intros w. apply R_drafts. }
    intros _. now apply keeps_emit.
Qed.

End DraftsOnly.

Lemma flagged_refl_list l : Forall2 flagged l l.
Proof. induction l; constructor; [now left | assumption]. Qed.

Lemma flagged_trans_list l1 l2 l3 :
  Forall2 flagged l1 l2 -> Forall2 flagged l2 l3 -> Forall2 flagged l1 l3.
Proof.
  intros H12. revert l3. induction H12 as [|r r' l l' Hr _ IH]; intros l3 H23;
    inversion H23; subst; constructor; [|now apply IH].
  destruct Hr as [-> | ->]; [assumption|].
  match goal with H : flagged _ _ |- _ => destruct H as [-> | ->] end;
    right; reflexivity.
Qed.

Lemma flagged_mark_processed (ids : list Z) l :
  Forall2 flagged l (update_where (fun m => pm_id m ∈ ids) (set_is_processed true) l).
Proof.
  induction l as [|r l IH]; simpl; constructor; [|assumption].
  destruct (decide _); [now right | now left].
Qed.

#[local] Instance ticked_refl : Reflexive ticked.
Proof. intros w. unfold ticked. repeat split; try reflexivity. apply flagged_refl_list. Qed.

#[local] Instance ticked_trans : Transitive ticked.
Proof.
  intros w1 w2 w3 (U1 & S1 & M1 & T1 & F1) (U2 & S2 & M2 & T2 & F2).
  unfold ticked. repeat split; try congruence.
  eapply flagged_trans_list; eassumption.
Qed.

Lemma ticked_trace w tr :
  ticked w {| db := db w; userStates := userStates w; trace := tr |}.
Proof. unfold ticked. simpl. repeat split; try reflexivity. apply flagged_refl_list. Qed.

Lemma ticked_drafts w f :
  ticked w {| db := with_blog_posts f (db w); userStates := userStates w;
              trace := trace w |}.
Proof. unfold ticked. simpl. repeat split; try reflexivity. apply flagged_refl_list. Qed.

Lemma analyzeMessages_keeps R messages :
  (forall w tr, R w {| db := db w; userStates := userStates w; trace := tr |}) ->
  keeps R (analyzeMessages messages).
Proof. intros HR env w. rewrite analyzeMessages_world. apply HR. Qed.

Lemma process_batch_ticked userId settings batch :
  keeps ticked (process_batch userId settings batch).
Proof.
  unfold process_batch.
  apply keeps_bind; try typeclasses eauto;
    [apply analyzeMessages_keeps, ticked_trace|].
  intros analysis. destruct (negb (isInformational analysis)).
  { apply keeps_modify_db. intros w. unfold ticked. simpl.
    repeat split; try reflexivity. apply flagged_mark_processed. }
  apply keeps_bind; try typeclasses eauto; [now apply keeps_now|]. intros t1.
  apply keeps_bind; try typeclasses eauto; [now apply keeps_get_db|]. intros d1.
  apply keeps_bind; try typeclasses eauto; [now apply keeps_now|]. intros t2.
  destruct (varchar 500 _) as [stored|]; [|now apply keeps_throw].
  apply keeps_bind; try typeclasses eauto.
  { apply keeps_modify_db. intros w. unfold ticked. simpl.
    repeat split; try reflexivity. apply flagged_refl_list. }
  intros _. apply keeps_bind; try typeclasses eauto.
  { apply keeps_modify_db. intros w. unfold ticked. simpl.
    repeat split; try reflexivity. apply flagged_mark_processed. }
  intros _. destruct (auto_publish settings).
  - destruct (decide _); [now apply keeps_ret|].
    apply publishPost_keeps; try typeclasses eauto;
      [apply ticked_trace | apply ticked_drafts].
  - unfold sendMessage. apply keeps_call, ticked_trace.
Qed.

Lemma process_owner_ticked userId : keeps ticked (process_owner userId).
Proof.
  intros env w. rewrite process_owner_batch.
  destruct (batch_of _ _ _); [reflexivity | apply process_batch_ticked].
Qed.

Lemma processMessages_ticked : keeps ticked processMessages.
Proof.
  apply (keeps_try_catch ticked).
  - apply keeps_bind; try typeclasses eauto; [now apply keeps_ask|]. intros e.
    apply keeps_bind; try typeclasses eauto; [now apply keeps_get_db|].
    intros d. apply keeps_for_of; try typeclasses eauto.
    apply Forall_forall. intros userId _. apply process_owner_ticked.
  - intros _. apply keeps_emit, ticked_trace.
Qed.

(** X5: a batcher tick never throws, and all it does to the stored state
    is to flag queued rows as processed and to work on drafts: no queued
    row is deleted, altered otherwise or un-flagged, and users, settings,
    sources and pending inputs stay as they are. *)
Theorem X5_tick_only_flags_and_drafts env w :
  exists w', processMessages env w = Done tt w' /\ ticked w w'.
Proof.
  pose proof (processMessages_ticked env w) as Hk.
  unfold processMessages, try_catch in *.
  destruct ((ask ≫= fun e => get_db ≫= fun d => for_of (owners e d) process_owner) env w)
    as [[] w'|e w'];
    eexists; (split; [reflexivity | exact Hk]).
Qed.

Lemma batch_of_nil settings t rows :
  (forall m, m ∈ rows ->
             timestamp m < t - combine_threshold_minutes settings * 60 * 1000) ->
  batch_of settings t rows = [].
Proof.
  intros Hold. apply elem_of_nil_inv. intros m Hm.
  apply elem_of_batch_of in Hm as [Hin Hle]. specialize (Hold m Hin). lia.
Qed.

(** X6: rows older than the owner's window are left waiting.  When every
    unprocessed row of an owner is older than the cutoff (or there is
    none), the owner's turn in the tick does nothing at all: the classifier
    is not called and no row is flagged. *)
Theorem X6_stale_rows_wait userId env w :
  (forall m, m ∈ unprocessed_of_owner userId (db w) ->
             timestamp m < Date_now env (trace w)
                           - combine_threshold_minutes (settings_of userId (db w))
                             * 60 * 1000) ->
  process_owner userId env w = Done tt w.
Proof.
  intros Hold. rewrite process_owner_batch. now rewrite batch_of_nil.
Qed.

Lemma X6_stale_rows_wait_witness :
  process_owner 1 (Sample.env_at 1700000600000 Sample.informational)
    (Sample.world_of Sample.subscribed_db)
  = Done tt (Sample.world_of Sample.subscribed_db).
Proof.
  apply (X6_stale_rows_wait 1 (Sample.env_at 1700000600000 Sample.informational)
           (Sample.world_of Sample.subscribed_db)).
  intros m Hm.
  change (m ∈ [Sample.queued 1 1 10 1699999990000 "v2 is out"]) in Hm.
  apply list_elem_of_singleton in Hm. subst m. reflexivity.
Defined.

Lemma all_processed_mark ids rows :
  all_processed ids (update_where (fun m => pm_id m ∈ ids) (set_is_processed true) rows).
Proof.
  unfold all_processed, update_where. apply Forall_forall. intros r Hr Hid.
  apply list_elem_of_fmap in Hr as (r0 & -> & _).
  destruct (decide (pm_id r0 ∈ ids)); [reflexivity|]. contradiction.
Qed.

(** X7: a batch that the classifier finds not informational makes no
    draft: its rows are flagged as processed, the drafts stay as they are,
    no sink is called and no notification is sent. *)
Theorem X7_casual_batch_makes_no_draft env w userId settings batch analysis w1 :
  analyzeMessages batch env w = Done analysis w1 ->
  isInformational analysis = false ->
  exists w',
    process_batch userId settings batch env w = Done tt w'
    /\ blog_posts (db w') = blog_posts (db w)
    /\ blog_posts_id_seq (db w') = blog_posts_id_seq (db w)
    /\ all_processed (map pm_id batch) (pending_messages (db w'))
    /\ trace w' = trace w ++ [GenerateContent (prompt_of batch)].
Proof.
  intros Ha Hi.
  pose proof (analyzeMessages_world batch env w) as Hw. rewrite Ha in Hw. simpl in Hw.
  unfold process_batch. unfold mbind at 1, M_bind at 1. rewrite Ha, Hi. simpl.
  unfold modify_db. rewrite Hw. eexists. split; [reflexivity|]. simpl.
  repeat split. apply all_processed_mark.
Qed.

Lemma X7_casual_batch_makes_no_draft_witness :
  let env := Sample.env_at 1700000000000 More.casual in
  let w := Sample.world_of Sample.subscribed_db in
  let batch := [Sample.queued 1 1 10 1699999990000 "v2 is out"] in
  exists w',
    process_batch 1 (settings_of 1 (db w)) batch env w = Done tt w'
    /\ blog_posts (db w') = []
    /\ blog_posts_id_seq (db w') = 1
    /\ all_processed [1] (pending_messages (db w'))
    /\ trace w' = [GenerateContent (prompt_of batch)].
Proof.
  exact (X7_casual_batch_makes_no_draft (Sample.env_at 1700000000000 More.casual)
           (Sample.world_of Sample.subscribed_db) 1
           (settings_of 1 Sample.subscribed_db)
           [Sample.queued 1 1 10 1699999990000 "v2 is out"]
           {| shouldCombine := false; isInformational := false;
              suggestedTitle := EmptyString; combinedContent := EmptyString |}
           {| db := Sample.subscribed_db; userStates := ∅;
              trace := [GenerateContent
                          (prompt_of [Sample.queued 1 1 10 1699999990000 "v2 is out"])] |}
           eq_refl eq_refl).
Defined.

#[local] Instance same_queue_refl : Reflexive same_queue.
Proof. intros w. reflexivity. Qed.

#[local] Instance same_queue_trans : Transitive same_queue.
Proof. intros w1 w2 w3 H1 H2. unfold same_queue in *. congruence. Qed.







(** ** Publishing a draft of one's own *)

(** The drafts after [publishPost] on a draft of the caller: all drafts of
    that id are set published with the ids of this run, or set failed, or
    set published and then failed when the notification is refused. *)
Lemma publishPost_outcome env w postId userId post rest :
  filter (fun p => bp_id p = postId /\ bp_user_id p = userId) (blog_posts (db w))
  = post :: rest ->
  let publishing_first :=
    update_where (fun p => bp_id p = postId) (set_status publishing)
      (blog_posts (db w)) in
  let after := blog_posts (db (world (publishPost postId userId env w))) in
  (exists notion github t,
     after = update_where (fun p => bp_id p = postId)
               (set_published notion github t) publishing_first)
  \/ after = update_where (fun p => bp_id p = postId) (set_status failed)
               publishing_first
  \/ (exists notion github t,
        after = update_where (fun p => bp_id p = postId) (set_status failed)
                  (update_where (fun p => bp_id p = postId)
                     (set_published notion github t) publishing_first)).
Proof.
  intros Hsel.
  assert (Hid : bp_id post = postId).
  { assert (Hin : post ∈ filter (fun p => bp_id p = postId /\ bp_user_id p = userId)
                    (blog_posts (db w))) by (rewrite Hsel; left).
    apply list_elem_of_filter in Hin. tauto. }
  unfold publishPost, getUserSettings. run.
  rewrite (filter_update_where _ _ (set_status publishing)) by (intros; reflexivity).
  rewrite Hsel. simpl. rewrite decide_True by exact Hid. simpl.
  unfold publishToNotion, publishToGitHub. run.
  repeat (split_match; simpl); eauto 10.
Qed.

Lemma status_after_update postId (f : BlogPostRow -> BlogPostRow) (Q : Status -> Prop) l :
  (forall r, Q (status (f r))) ->
  Forall (fun p => bp_id p = postId -> Q (status p))
    (update_where (fun p => bp_id p = postId) f l).
Proof.
  intros Hf. unfold update_where. apply Forall_forall. intros p Hp Hid.
  apply list_elem_of_fmap in Hp as (r & -> & _).
  destruct (decide (bp_id r = postId)); [apply Hf | contradiction].
Qed.

(** X10: publishing a draft of one's own never leaves it in status
    publishing: whatever the sinks do, every draft of that id ends
    published or failed. *)
Theorem X10_own_draft_ends_published_or_failed env w postId userId post rest :
  filter (fun p => bp_id p = postId /\ bp_user_id p = userId) (blog_posts (db w))
  = post :: rest ->
  Forall (fun p => bp_id p = postId -> status p = published \/ status p = failed)
    (blog_posts (db (world (publishPost postId userId env w)))).
Proof.
  intros Hsel.
  destruct (publishPost_outcome env w postId userId post rest Hsel)
    as [(n & g & t & ->) | [-> | (n & g & t & ->)]];
    apply (status_after_update postId _ (fun s => s = published \/ s = failed));
    intros r; simpl; auto.
Qed.

Lemma X10_own_draft_ends_published_or_failed_witness :
  Forall (fun p => bp_id p = 1 -> status p = published \/ status p = failed)
    (blog_posts
       (db (world (publishPost 1 1 (More.offline 1700000000000 Sample.informational)
                     (Sample.world_of Sample.foreign_draft_db))))).
Proof.
  exact (X10_own_draft_ends_published_or_failed
           (More.offline 1700000000000 Sample.informational)
           (Sample.world_of Sample.foreign_draft_db) 1 1
           (Sample.draft 1 1 pending None None) [] eq_refl).
Defined.

(** X11: a partial success is not recorded.  When Notion accepts the post
    and GitHub then throws, the draft is set failed, the page that Notion
    has just created is recorded nowhere (the sink ids of all drafts stay as
    they were) and the owner is not notified. *)
Theorem X11_partial_success_is_not_recorded
    env w postId userId post rest databaseId repo owner repoName others page :
  filter (fun p => bp_id p = postId /\ bp_user_id p = userId) (blog_posts (db w))
  = post :: rest ->
  notion_database_id (settings_of userId (db w)) = Some databaseId ->
  JS.truthy databaseId = true ->
  github_repo (settings_of userId (db w)) = Some repo ->
  JS.truthy repo = true ->
  JS.split "/" repo = owner :: repoName :: others ->
  JS.truthy owner = true ->
  JS.truthy repoName = true ->
  let media := JS.nullish (bp_media_urls post) [] in
  let notion_call := NotionCreate databaseId (title post) (content post) media in
  notion_pages_create env (trace w) databaseId (title post) (content post) media
  = Some page ->
  octokit_createOrUpdateFileContents env (trace w ++ [notion_call]) owner repoName
    (title post) (content post) media = None ->
  exists w',
    publishPost postId userId env w = Done tt w'
    /\ map notion_page_id (blog_posts (db w')) = map notion_page_id (blog_posts (db w))
    /\ map github_commit_sha (blog_posts (db w'))
       = map github_commit_sha (blog_posts (db w))
    /\ Forall (fun p => bp_id p = postId -> status p = failed) (blog_posts (db w'))
    /\ trace w' = trace w ++ [notion_call;
                              GitHubCreate owner repoName (title post) (content post) media;
                              ConsoleError].
Proof.
  intros Hsel Hn Hnt Hg Hgt Hsplit Hot Hrt media notion_call Hpage Hthrow.
  assert (Hid : bp_id post = postId).
  { assert (Hin : post ∈ filter (fun p => bp_id p = postId /\ bp_user_id p = userId)
                    (blog_posts (db w))) by (rewrite Hsel; left).
    apply list_elem_of_filter in Hin. tauto. }
  unfold publishPost, getUserSettings. run.
  rewrite (filter_update_where _ _ (set_status publishing)) by (intros; reflexivity).
  rewrite Hsel. simpl. rewrite decide_True by exact Hid. simpl.
  unfold publishToNotion, publishToGitHub. run.
  change (settings_of userId (update_post_status publishing postId (db w)))
    with (settings_of userId (db w)).
  rewrite Hn, Hg. simpl. rewrite Hnt, Hgt. simpl. fold media. rewrite Hpage. simpl.
  rewrite Hsplit. simpl. rewrite Hot, Hrt. simpl. fold notion_call. rewrite Hthrow. simpl.
  eexists. split; [reflexivity|]. simpl.
  rewrite !map_update_where by reflexivity.
  repeat split.
  - apply (status_after_update postId _ (fun s => s = failed)). reflexivity.
  - now rewrite <- !app_assoc.
Qed.

Lemma X11_partial_success_is_not_recorded_witness :
  let env := More.offline 1700000000000 Sample.informational in
  let w := Sample.world_of Sample.foreign_draft_db in
  exists w',
    publishPost 1 1 env w = Done tt w'
    /\ map notion_page_id (blog_posts (db w')) = [None]
    /\ map github_commit_sha (blog_posts (db w')) = [None]
    /\ Forall (fun p => bp_id p = 1 -> status p = failed) (blog_posts (db w'))
    /\ trace w' = [NotionCreate "notion-db" "Release notes" "Version 2 is out." [];
                   GitHubCreate "ann" "blog" "Release notes" "Version 2 is out." [];
                   ConsoleError].
Proof.
  exact (X11_partial_success_is_not_recorded
           (More.offline 1700000000000 Sample.informational)
           (Sample.world_of Sample.foreign_draft_db) 1 1
           (Sample.draft 1 1 pending None None) [] "notion-db" "ann/blog" "ann" "blog" []
           "page-2" eq_refl eq_refl eq_refl eq_refl eq_refl eq_refl eq_refl eq_refl
           eq_refl eq_refl).
Defined.

(** X12: a publication whose sinks accept overwrites both sink ids with the
    result of this run, so the id of a sink that is no longer configured is
    erased.  With Notion not configured and GitHub accepting the post,
    every draft of that id ends with the commit of this run and with no
    Notion page, whatever page it recorded before; it ends published when
    Telegram delivers the notice to the owner, and failed, with the ids of
    this run all the same, when Telegram refuses it. *)
Theorem X12_unconfigured_sink_id_is_erased
    env w postId userId post rest repo owner repoName others sha :
  filter (fun p => bp_id p = postId /\ bp_user_id p = userId) (blog_posts (db w))
  = post :: rest ->
  JS.truthy_opt (notion_database_id (settings_of userId (db w))) = false ->
  github_repo (settings_of userId (db w)) = Some repo ->
  JS.truthy repo = true ->
  JS.split "/" repo = owner :: repoName :: others ->
  JS.truthy owner = true ->
  JS.truthy repoName = true ->
  let media := JS.nullish (bp_media_urls post) [] in
  octokit_createOrUpdateFileContents env (trace w) owner repoName
    (title post) (content post) media = Some sha ->
  let commit := GitHubCreate owner repoName (title post) (content post) media in
  let notice := Published (title post) false (JS.truthy (JS.nullish sha EmptyString)) in
  let delivered := telegram_sendMessage env (trace w ++ [commit]) userId notice in
  exists w',
    publishPost postId userId env w = Done tt w'
    /\ Forall (fun p => bp_id p = postId ->
                        notion_page_id p = None
                        /\ github_commit_sha p = Some (JS.nullish sha EmptyString)
                        /\ status p = match delivered with
                                      | Some _ => published
                                      | None => failed
                                      end)
         (blog_posts (db w'))
    /\ trace w' = trace w ++ [commit; SendMessage userId notice]
                  ++ match delivered with Some _ => [] | None => [ConsoleError] end.
Proof.
  intros Hsel Hn Hg Hgt Hsplit Hot Hrt media Hsha commit notice delivered.
  assert (Hid : bp_id post = postId).
  { assert (Hin : post ∈ filter (fun p => bp_id p = postId /\ bp_user_id p = userId)
                    (blog_posts (db w))) by (rewrite Hsel; left).
    apply list_elem_of_filter in Hin. tauto. }
  unfold publishPost, getUserSettings. run.
  rewrite (filter_update_where _ _ (set_status publishing)) by (intros; reflexivity).
  rewrite Hsel. simpl. rewrite decide_True by exact Hid. simpl.
  unfold publishToNotion, publishToGitHub. run.
  change (settings_of userId (update_post_status publishing postId (db w)))
    with (settings_of userId (db w)).
  rewrite Hn, Hg. simpl. rewrite Hgt. simpl.
  rewrite Hsplit. simpl. rewrite Hot, Hrt. simpl. fold media. rewrite Hsha. simpl.
  fold commit notice delivered.
  destruct delivered as [[]|]; simpl;
    (eexists; split; [reflexivity|]; simpl; split;
     [|now rewrite <- !app_assoc]);
    unfold update_where; apply Forall_forall; intros p Hp Hp_id.
  - apply list_elem_of_fmap in Hp as (r & -> & _).
    destruct (decide (bp_id r = postId)); [simpl; auto | contradiction].
  - apply list_elem_of_fmap in Hp as (r' & -> & Hr').
    apply list_elem_of_fmap in Hr' as (r & -> & _).
    destruct (decide (bp_id r = postId)) as [Hr|Hr]; simpl.
    + rewrite decide_True by exact Hr. simpl. auto.
    + now rewrite decide_False in Hp_id |- * by exact Hr.
Qed.

Lemma X12_unconfigured_sink_id_is_erased_witness :
  let w := Sample.world_of More.github_only_db in
  map notion_page_id (blog_posts (db w)) = [Some "page-1"]
  /\ (exists w',
        publishPost 1 1 (Sample.env_at 1700000000000 Sample.informational) w = Done tt w'
        /\ Forall (fun p => bp_id p = 1 ->
                            notion_page_id p = None
                            /\ github_commit_sha p = Some "sha-2"
                            /\ status p = published)
             (blog_posts (db w'))
        /\ trace w' =
           [GitHubCreate "ann" "blog" "Release notes" "Version 2 is out." [];
            SendMessage 1 (Published "Release notes" false true)])
  /\ (exists w',
        publishPost 1 1 (More.blocked 1700000000000 Sample.informational) w = Done tt w'
        /\ Forall (fun p => bp_id p = 1 ->
                            notion_page_id p = None
                            /\ github_commit_sha p = Some "sha-2"
                            /\ status p = failed)
             (blog_posts (db w'))
        /\ trace w' =
           [GitHubCreate "ann" "blog" "Release notes" "Version 2 is out." [];
            SendMessage 1 (Published "Release notes" false true); ConsoleError]).
Proof.
  split; [reflexivity|]. split.
  - exact (X12_unconfigured_sink_id_is_erased
             (Sample.env_at 1700000000000 Sample.informational)
             (Sample.world_of More.github_only_db) 1 1
             (Sample.draft 1 1 published (Some "page-1") None) [] "ann/blog" "ann" "blog" []
             (Some "sha-2") eq_refl eq_refl eq_refl eq_refl eq_refl eq_refl eq_refl eq_refl).
  - exact (X12_unconfigured_sink_id_is_erased
             (More.blocked 1700000000000 Sample.informational)
             (Sample.world_of More.github_only_db) 1 1
             (Sample.draft 1 1 published (Some "page-1") None) [] "ann/blog" "ann" "blog" []
             (Some "sha-2") eq_refl eq_refl eq_refl eq_refl eq_refl eq_refl eq_refl eq_refl).
Defined.

(** ** The repository name, from the settings dialogue to the commit *)

Lemma str_app a b : JS.str (a ++ b) = JS.str a +:+ JS.str b.
Proof. induction a as [|x a IH]; simpl; [reflexivity | now rewrite IH]. Qed.

Lemma str_chars s : JS.str (JS.chars s) = s.
Proof. apply string_of_list_ascii_of_string. Qed.

Lemma str_truthy l : l <> [] -> JS.truthy (JS.str l) = true.
Proof. destruct l; [contradiction | reflexivity]. Qed.

Lemma split_at_no_sep sep cur b :
  Forall (fun x => Ascii.eqb x sep = false) b ->
  JS.split_at sep cur b = [JS.str (rev cur ++ b)].
Proof.
  intros Hb. revert cur. induction Hb as [|x b Hx _ IH]; intros cur; simpl.
  - now rewrite app_nil_r.
  - rewrite Hx, IH. simpl. now rewrite <- app_assoc.
Qed.

Lemma split_at_first sep cur a b :
  Forall (fun x => Ascii.eqb x sep = false) a ->
  JS.split_at sep cur (a ++ sep :: b) = JS.str (rev cur ++ a) :: JS.split_at sep [] b.
Proof.
  intros Ha. revert cur. induction Ha as [|x a Hx _ IH]; intros cur; simpl.
  - rewrite Ascii.eqb_refl. now rewrite app_nil_r.
  - rewrite Hx, IH. simpl. now rewrite <- app_assoc.
Qed.

Lemma owner_slash_repo_shape seen l :
  JS.owner_slash_repo seen l = true ->
  exists a b,
    l = a ++ "/"%char :: b
    /\ Forall (fun x => Ascii.eqb x "/"%char = false) a
    /\ Forall (fun x => Ascii.eqb x "/"%char = false) b
    /\ b <> [] /\ (seen = false -> a <> []).
Proof.
  revert seen. induction l as [|x l IH]; intros seen H; simpl in H; [discriminate|].
  destruct (Ascii.eqb x "/"%char) eqn:Hx.
  - apply Ascii.eqb_eq in Hx. subst x.
    apply andb_prop in H as [H Hne]. apply andb_prop in H as [Hseen Hno].
    exists [], l. simpl. repeat split; auto.
    + apply Forall_forall. intros y Hy.
      destruct (Ascii.eqb y "/"%char) eqn:Hy'; [|reflexivity].
      apply Ascii.eqb_eq in Hy'. subst y.
      apply negb_true_iff in Hno. rewrite <- Hno. symmetry.
      apply existsb_exists. exists "/"%char. split; [now apply list_elem_of_In|].
      apply Ascii.eqb_refl.
    + destruct l; [discriminate | discriminate].
    + intros ->. discriminate.
  - destruct (IH true H) as (a & b & -> & Ha & Hb & Hne & _).
    exists (x :: a), b. repeat split; auto; discriminate.
Qed.

(** X13: a repository name that the settings dialogue accepts is one that
    publishing accepts.  A text that passes the owner/repo check of the
    text handler is its owner, a slash and its name, both not empty, and
    [publishToGitHub] on it does not throw the format error: it goes on to
    the commit with that owner and that name. *)
Theorem X13_accepted_repository_is_publishable repo :
  JS.test_owner_repo repo = true ->
  exists owner repoName,
    repo = owner +:+ "/" +:+ repoName
    /\ JS.truthy owner = true /\ JS.truthy repoName = true
    /\ forall ttl cnt media env w,
         trace (world (publishToGitHub repo ttl cnt media env w))
         = trace w ++ [GitHubCreate owner repoName ttl cnt media].
Proof.
  intros H. unfold JS.test_owner_repo in H.
  destruct (owner_slash_repo_shape false (JS.chars repo) H)
    as (a & b & Hl & Ha & Hb & Hbne & Hane).
  specialize (Hane eq_refl).
  exists (JS.str a), (JS.str b).
  assert (Hsplit : JS.split "/" repo = [JS.str a; JS.str b]).
  { unfold JS.split. rewrite Hl, split_at_first by assumption.
    now rewrite split_at_no_sep by assumption. }
  repeat split.
  - rewrite <- (str_chars repo), Hl, str_app. reflexivity.
  - now apply str_truthy.
  - now apply str_truthy.
  - intros ttl cnt media env w. unfold publishToGitHub. rewrite Hsplit. simpl.
    rewrite !str_truthy by assumption. simpl. run.
    destruct (octokit_createOrUpdateFileContents env (trace w) _ _ _ _ _); reflexivity.
Qed.

Lemma X13_accepted_repository_is_publishable_witness :
  exists owner repoName,
    "ann/blog" = owner +:+ "/" +:+ repoName
    /\ JS.truthy owner = true /\ JS.truthy repoName = true
    /\ forall ttl cnt media env w,
         trace (world (publishToGitHub "ann/blog" ttl cnt media env w))
         = trace w ++ [GitHubCreate owner repoName ttl cnt media].
Proof. exact (X13_accepted_repository_is_publishable "ann/blog" eq_refl). Defined.

(** ** Whose drafts a handler can touch *)

Lemma for_of_emit {A} (g : A -> Event) (l : list A) env w :
  for_of l (fun x => emit (g x)) env w
  = Done tt {| db := db w; userStates := userStates w; trace := trace w ++ map g l |}.
Proof.
  revert w. induction l as [|x l IH]; intros w; simpl.
  - run. rewrite app_nil_r. now destruct w.
  - run. rewrite IH. simpl. now rewrite <- app_assoc.
Qed.

Lemma filter_delete_where {A} (P Q : A -> Prop) `{forall x, Decision (P x)}
    `{forall x, Decision (Q x)} (l : list A) :
  (forall r, Q r -> ~ P r) -> filter Q (delete_where P l) = filter Q l.
Proof.
  intros HQ. unfold delete_where. induction l as [|r l IH]; [reflexivity|].
  rewrite !filter_cons. destruct (decide (~ P r)) as [Hn|Hn].
  - rewrite filter_cons. destruct (decide (Q r)); now rewrite IH.
  - destruct (decide (Q r)) as [Hq|Hq]; [|exact IH].
    exfalso. apply Hn. now apply HQ.
Qed.

Lemma filter_update_where_others {A} (P Q : A -> Prop) `{forall x, Decision (P x)}
    `{forall x, Decision (Q x)} (f : A -> A) (l : list A) :
  (forall r, Q r -> ~ P r) -> (forall r, P r -> ~ Q (f r)) ->
  filter Q (update_where P f l) = filter Q l.
Proof.
  intros HQ Hf. induction l as [|r l IH]; [reflexivity|]. simpl.
  rewrite !filter_cons. destruct (decide (P r)) as [Hp|Hp].
  - rewrite decide_False by now apply Hf.
    rewrite decide_False by (intros Hq; now apply (HQ r Hq)). exact IH.
  - destruct (decide (Q r)); now rewrite IH.
Qed.

(** X14.  Of all the handlers only [publish_] can touch the draft of
    somebody else: after any other action of user [u] the drafts of the
    other users are what they were. *)
Theorem X14_only_publish_reaches_foreign_drafts a ctx u env w :
  from ctx = Some u ->
  (forall capture, a <> Publish capture) ->
  foreign_drafts (uid u) (db (world (handle a ctx env w)))
  = foreign_drafts (uid u) (db w).
Proof.
  intros Hu Hnot. unfold foreign_drafts.
  destruct a; simpl;
    try (unfold on_start, hears_status, hears_settings, action_toggle_auto_publish,
      action_set_combine_time, action_set_notion_db, action_set_github_repo, action_ask,
      hears_subscribe, hears_list_sources, hears_manage_users,
      command_authorize, command_revoke, command_set_authorized, command_unsubscribe,
      on_forward_origin, action_back_to_main, action_edit, isAuthorized, from_id,
      upsertUser, getUserSettings;
      rewrite ?Hu; run; repeat (split_match; simpl); reflexivity).
  - unfold hears_pending_posts, isAuthorized, from_id. rewrite Hu.
    unfold mbind, M_bind, mret, M_ret, get_db. simpl.
    destruct (authorized (uid u) (db w)); simpl; [|reflexivity].
    destruct (take 10 _) as [|p l] eqn:E; [reflexivity|].
    now rewrite for_of_emit.
  - unfold on_text.
    destruct (bool_decide _).
    + f_equal.
      destruct (handleIncomingMessage_ingested (fun _ => True) ctx message env w)
        as [(_ & _ & _ & Hposts & _) _]; [tauto|exact Hposts].
    + unfold from_id. rewrite Hu. run.
      destruct (userStates w !! uid u) as [state|]; [|reflexivity].
      destruct state; simpl; repeat (split_match; simpl); try reflexivity.
      apply filter_update_where_others; simpl; tauto.
  - now destruct (Hnot capture).
  - unfold action_reject, from_id. rewrite Hu.
    destruct (negb _); run; [reflexivity|].
    apply filter_delete_where; simpl; tauto.
Qed.

Lemma X14_only_publish_reaches_foreign_drafts_witness :
  foreign_drafts 2
    (db (world (handle (Reject "1") (Sample.private_ctx 2)
                  (Sample.env_at 1700000000000 Sample.chatty)
                  (Sample.world_of Sample.foreign_draft_db))))
  = foreign_drafts 2 Sample.foreign_draft_db.
Proof.
  apply (X14_only_publish_reaches_foreign_drafts (Reject "1") (Sample.private_ctx 2)
           (Sample.person 2)); [reflexivity|discriminate].
Defined.

(** ** Who passes [isAuthorized] *)

Lemma filter_update_where_same {A} (P : A -> Prop) `{forall x, Decision (P x)}
    (f : A -> A) (l : list A) :
  (forall r, P r -> P (f r)) ->
  filter P (update_where P f l) = map f (filter P l).
Proof.
  intros Hf. induction l as [|r l IH]; [reflexivity|]. simpl.
  rewrite !filter_cons. destruct (decide (P r)) as [Hp|Hp].
  - rewrite decide_True by now apply Hf. simpl. now rewrite IH.
  - rewrite decide_False by assumption. exact IH.
Qed.

Lemma registered_filter userId d :
  registered userId d <-> filter (fun r => u_user_id r = userId) (users d) <> [].
Proof.
  unfold registered. rewrite Exists_exists. split.
  - intros (r & Hin & Hr) E.
    assert (Hr' : r ∈ filter (fun r => u_user_id r = userId) (users d))
      by (apply list_elem_of_filter; split; assumption).
    rewrite E in Hr'. now apply not_elem_of_nil in Hr'.
  - intros Hne. destruct (filter _ (users d)) as [|r l] eqn:E; [congruence|].
    assert (Hr : r ∈ filter (fun r => u_user_id r = userId) (users d))
      by (rewrite E; left).
    apply list_elem_of_filter in Hr as [Hr Hin]. exists r. split; assumption.
Qed.

Lemma command_set_authorized_flag flag only_owner usage done txt ctx u env w :
  from ctx = Some u ->
  uid u = OWNER_USER_ID env ->
  JS.isInteger (second_word_number txt) = true ->
  forall x,
    authorized x
      (db (world (command_set_authorized flag only_owner usage done txt ctx env w)))
    = if decide (x = JS.int_value (second_word_number txt))
      then flag && bool_decide (registered x (db w))
      else authorized x (db w).
Proof.
  intros Hu Ho Hint x. unfold command_set_authorized. rewrite Hu. run.
  rewrite bool_decide_false by (intros Hne; apply Hne; now rewrite Ho).
  rewrite Hint. simpl. unfold authorized. simpl.
  destruct (decide (x = _)) as [->|Hx].
  - rewrite filter_update_where_same by (intros r Hr; exact Hr).
    destruct (decide (registered (JS.int_value (second_word_number txt)) (db w)))
      as [Hreg|Hreg].
    + rewrite bool_decide_true by assumption. rewrite andb_true_r.
      apply registered_filter in Hreg.
      destruct (filter _ (users (db w))); [congruence|reflexivity].
    + rewrite bool_decide_false by assumption. rewrite andb_false_r.
      destruct (filter _ (users (db w))) eqn:E; [reflexivity|].
      exfalso. apply Hreg, registered_filter. now rewrite E.
  - rewrite filter_update_where_others; [reflexivity| |]; simpl; congruence.
Qed.

Lemma on_start_db ctx u env w :
  from ctx = Some u ->
  exists t t',
    db (world (on_start ctx env w))
    = insert_user_settings (uid u) t'
        (insert_user (uid u) (username u)
           (bool_decide (uid u = OWNER_USER_ID env)) t (db w)).
Proof.
  intros Hu. unfold on_start, upsertUser, isAuthorized, from_id. rewrite Hu. run.
  eexists _, _. split_match; reflexivity.
Qed.

Lemma registered_insert_user userId name flag t d :
  registered userId (insert_user userId name flag t d).
Proof.
  unfold registered, insert_user. simpl.
  destruct (decide (Exists _ (users d))) as [Hex|Hex]; [exact Hex|].
  apply Exists_app. right. now constructor.
Qed.

Lemma authorized_registered userId d :
  authorized userId d = true -> registered userId d.
Proof.
  unfold authorized. intros H. apply registered_filter.
  destruct (filter _ (users d)); [discriminate|congruence].
Qed.

(** X15.  /authorize and /revoke, issued by the configured owner with a
    whole number, write the flag of that user and of nobody else; for a user
    who never pressed /start there is no row to write, and the user stays
    unauthorized. *)
Theorem X15_owner_writes_the_flag_of_one_registered_user
    flag only_owner usage done txt ctx u env w :
  from ctx = Some u ->
  uid u = OWNER_USER_ID env ->
  JS.isInteger (second_word_number txt) = true ->
  forall x,
    authorized x
      (db (world (command_set_authorized flag only_owner usage done txt ctx env w)))
    = if decide (x = JS.int_value (second_word_number txt))
      then flag && bool_decide (registered x (db w))
      else authorized x (db w).
Proof. apply command_set_authorized_flag. Qed.

Lemma X15_owner_writes_the_flag_of_one_registered_user_witness :
  authorized 2
    (db (world (command_revoke "/revoke 2" (Sample.private_ctx 1)
                  (Sample.env_at 1700000000000 Sample.chatty)
                  (Sample.world_of Sample.foreign_draft_db))))
  = if decide (2 = JS.int_value (second_word_number "/revoke 2"))
    then false && bool_decide (registered 2 Sample.foreign_draft_db)
    else authorized 2 Sample.foreign_draft_db.
Proof.
  exact (X15_owner_writes_the_flag_of_one_registered_user false OnlyOwnerRevoke
           UsageRevoke UserRevoked "/revoke 2" (Sample.private_ctx 1) (Sample.person 1)
           (Sample.env_at 1700000000000 Sample.chatty)
           (Sample.world_of Sample.foreign_draft_db) eq_refl eq_refl eq_refl 2).
Defined.

(** X16.  A user who pressed /start and whom the owner then authorizes
    passes [isAuthorized]. *)
Theorem X16_start_then_authorize txt ctx u owner_ctx o env w :
  from ctx = Some u ->
  from owner_ctx = Some o ->
  uid o = OWNER_USER_ID env ->
  JS.isInteger (second_word_number txt) = true ->
  JS.int_value (second_word_number txt) = uid u ->
  authorized (uid u)
    (db (world (handle (Authorize txt) owner_ctx env
                  (world (handle Start ctx env w))))) = true.
Proof.
  intros Hu Ho Howner Hint Hn. simpl. unfold command_authorize.
  rewrite (command_set_authorized_flag _ _ _ _ _ _ o) by assumption.
  rewrite decide_True by now rewrite Hn.
  destruct (on_start_db ctx u env w Hu) as (t & t' & ->).
  apply bool_decide_eq_true. apply registered_insert_user.
Qed.

Lemma X16_start_then_authorize_witness :
  authorized 5
    (db (world (handle (Authorize "/authorize 5") (Sample.private_ctx 1)
                  (Sample.env_at 1700000000000 Sample.chatty)
                  (world (handle Start (Sample.private_ctx 5)
                            (Sample.env_at 1700000000000 Sample.chatty)
                            (Sample.world_of Sample.subscribed_db)))))) = true.
Proof.
  exact (X16_start_then_authorize "/authorize 5" (Sample.private_ctx 5) (Sample.person 5)
           (Sample.private_ctx 1) (Sample.person 1)
           (Sample.env_at 1700000000000 Sample.chatty)
           (Sample.world_of Sample.subscribed_db) eq_refl eq_refl eq_refl eq_refl eq_refl).
Defined.

(** X17.  In the other order the authorization is lost: /authorize of a
    user without a row is confirmed by the bot and writes nothing, and the
    /start that follows registers the user as unauthorized. *)
Theorem X17_authorize_before_start_is_lost txt ctx u owner_ctx o env w :
  from ctx = Some u ->
  from owner_ctx = Some o ->
  uid o = OWNER_USER_ID env ->
  JS.isInteger (second_word_number txt) = true ->
  JS.int_value (second_word_number txt) = uid u ->
  uid u <> OWNER_USER_ID env ->
  ~ registered (uid u) (db w) ->
  let w1 := world (handle (Authorize txt) owner_ctx env w) in
  trace w1 = trace w ++ [Reply (UserAuthorized (uid u))]
  /\ db w1 = db w
  /\ authorized (uid u) (db (world (handle Start ctx env w1))) = false.
Proof.
  intros Hu Ho Howner Hint Hn Hne Hreg w1.
  assert (Hw1 : w1 = answered w (Reply (UserAuthorized (uid u)))).
  { unfold w1. simpl. unfold command_authorize, command_set_authorized. rewrite Ho. run.
    rewrite bool_decide_false by (intros H; apply H; now rewrite Howner).
    rewrite Hint, Hn. simpl. unfold answered. f_equal.
    destruct (db w) as [us ss ms pm bp s1 s2 s3]. unfold with_users. simpl. f_equal.
    apply update_where_id. apply Forall_forall. intros r Hr Hid.
    apply Hreg. apply Exists_exists. exists r. split; assumption. }
  split; [now rewrite Hw1|]. split; [now rewrite Hw1|].
  change (handle Start ctx env w1) with (on_start ctx env w1).
  destruct (on_start_db ctx u env w1 Hu) as (t & t' & ->).
  rewrite Hw1. simpl.
  change (authorized (uid u) (insert_user (uid u) (username u)
            (bool_decide (uid u = OWNER_USER_ID env)) t (db w)) = false).
  rewrite authorized_insert_user.
  - now rewrite bool_decide_false by assumption.
  - destruct (authorized (uid u) (db w)) eqn:E; [|reflexivity].
    exfalso. now apply Hreg, authorized_registered.
Qed.

Lemma X17_authorize_before_start_is_lost_witness :
  let env := Sample.env_at 1700000000000 Sample.chatty in
  let w := Sample.world_of Sample.subscribed_db in
  let w1 := world (handle (Authorize "/authorize 5") (Sample.private_ctx 1) env w) in
  trace w1 = trace w ++ [Reply (UserAuthorized 5)]
  /\ db w1 = db w
  /\ authorized 5 (db (world (handle Start (Sample.private_ctx 5) env w1))) = false.
Proof.
  apply (X17_authorize_before_start_is_lost "/authorize 5" (Sample.private_ctx 5)
           (Sample.person 5) (Sample.private_ctx 1) (Sample.person 1)
           (Sample.env_at 1700000000000 Sample.chatty)
           (Sample.world_of Sample.subscribed_db));
    try reflexivity; [discriminate|].
  unfold registered. simpl. rewrite Exists_cons, Exists_nil. simpl. intros [H|[]].
  discriminate.
Defined.

(** ** Subscriptions *)

Lemma elem_of_update_where {A} (P : A -> Prop) `{forall x, Decision (P x)}
    (f : A -> A) (l : list A) x :
  x ∈ update_where P f l ->
  exists r, r ∈ l /\ (P r /\ x = f r \/ ~ P r /\ x = r).
Proof.
  unfold update_where. intros Hx. apply list_elem_of_fmap in Hx as (r & -> & Hr).
  exists r. split; [exact Hr|]. destruct (decide (P r)); [left|right]; now split.
Qed.

(** X18.  After /unsubscribe of a source of one's own, no later message is
    queued for that source. *)
Theorem X18_unsubscribed_source_receives_nothing
    txt ctx u env w ctx' message env' :
  from ctx = Some u ->
  authorized (uid u) (db w) = true ->
  JS.isInteger (second_word_number txt) = true ->
  (forall ms, ms ∈ monitored_sources (db w) ->
              ms_id ms = JS.int_value (second_word_number txt) ->
              ms_user_id ms = uid u) ->
  let w1 := world (handle (Unsubscribe txt) ctx env w) in
  exists added,
    pending_messages (db (world (handleIncomingMessage ctx' message env' w1)))
    = pending_messages (db w1) ++ added
    /\ Forall (fun r => source_id r <> JS.int_value (second_word_number txt)) added.
Proof.
  intros Hu Hauth Hint Hown w1.
  destruct (handleIncomingMessage_ingested
              (fun sid => sid <> JS.int_value (second_word_number txt))
              ctx' message env' w1) as [(_ & _ & _ & _ & _ & _ & _ & added & Hadd & Hall) _].
  - intros ms c Hms Hactive _ _ Hid.
    unfold w1 in Hms. simpl in Hms.
    unfold command_unsubscribe, isAuthorized, from_id in Hms. rewrite Hu in Hms.
    revert Hms. run. rewrite Hauth, Hint. simpl. intros Hms.
    apply elem_of_update_where in Hms as (r & Hr & [[_ ->]|[Hn ->]]).
    + discriminate.
    + apply Hn. split; [exact Hid|]. now apply Hown.
  - exists added. split; [exact Hadd|].
    eapply Forall_impl; [exact Hall|]. now intros r [_ Hr].
Qed.

Lemma X18_unsubscribed_source_receives_nothing_witness :
  let env := Sample.env_at 1700000000000 Sample.chatty in
  let w1 := world (handle (Unsubscribe "/unsubscribe 1") (Sample.private_ctx 1) env
                     (Sample.world_of Sample.subscribed_db)) in
  exists added,
    pending_messages
      (db (world (handleIncomingMessage More.channel_ctx
                    (More.channel_post 11 (Some "v3 is out")) env w1)))
    = pending_messages (db w1) ++ added
    /\ Forall (fun r => source_id r <> JS.int_value (second_word_number "/unsubscribe 1"))
         added.
Proof.
  apply (X18_unsubscribed_source_receives_nothing "/unsubscribe 1" (Sample.private_ctx 1)
           (Sample.person 1)); try reflexivity.
  intros ms Hms _. simpl in Hms. apply list_elem_of_singleton in Hms. now subst ms.
Defined.

(** X19.  A forwarded channel message of an authorized user always adds a
    source: the conflict clause cannot fire for a source without a topic, so
    no earlier row is reactivated and forwarding twice subscribes twice. *)
Theorem X19_forward_always_adds_a_source ctx u c env w :
  from ctx = Some u ->
  authorized (uid u) (db w) = true ->
  exists row,
    monitored_sources (db (world (handle (Forward (Some (OriginChannel c))) ctx env w)))
    = monitored_sources (db w) ++ [row]
    /\ ms_id row = monitored_sources_id_seq (db w)
    /\ ms_user_id row = uid u
    /\ chat_id row = c_id c
    /\ topic_id row = None
    /\ is_active row = true.
Proof.
  intros Hu Hauth. simpl. unfold on_forward_origin, isAuthorized, from_id.
  rewrite Hu. run. rewrite Hauth. simpl.
  rewrite decide_False.
  - eexists. split; [reflexivity|]. simpl. repeat split.
  - intros Hex. apply Exists_exists in Hex as (r & _ & _ & _ & Hnone & _).
    now apply Hnone.
Qed.

Lemma X19_forward_always_adds_a_source_witness :
  exists row,
    monitored_sources
      (db (world (handle (Forward (Some (OriginChannel More.news))) (Sample.private_ctx 1)
                    (Sample.env_at 1700000000000 Sample.chatty)
                    (Sample.world_of Sample.subscribed_db))))
    = monitored_sources (db (Sample.world_of Sample.subscribed_db)) ++ [row]
    /\ ms_id row = monitored_sources_id_seq (db (Sample.world_of Sample.subscribed_db))
    /\ ms_user_id row = 1
    /\ chat_id row = -100
    /\ topic_id row = None
    /\ is_active row = true.
Proof.
  exact (X19_forward_always_adds_a_source (Sample.private_ctx 1) (Sample.person 1)
           More.news (Sample.env_at 1700000000000 Sample.chatty)
           (Sample.world_of Sample.subscribed_db) eq_refl eq_refl).
Defined.

(** ** Settings *)

Lemma toggle_db ctx u env w :
  from ctx = Some u ->
  authorized (uid u) (db w) = true ->
  exists t,
    db (world (action_toggle_auto_publish ctx env w))
    = with_user_settings
        (update_where (fun r => user_id (settings r) = uid u)
           (fun r => {| settings := set_auto_publish (negb (auto_publish (settings r)))
                                      (settings r);
                        updated_at := t |})) (db w).
Proof.
  intros Hu Hauth. unfold action_toggle_auto_publish, isAuthorized, from_id, getUserSettings.
  rewrite Hu. run. rewrite Hauth. simpl. eexists. reflexivity.
Qed.

(** X20.  Toggling auto-publish twice gives back the settings of every
    user; only the time of the update differs. *)
Theorem X20_toggle_twice_restores_the_settings ctx u env env' w :
  from ctx = Some u ->
  authorized (uid u) (db w) = true ->
  map settings
    (user_settings
       (db (world (handle ToggleAutoPublish ctx env'
                     (world (handle ToggleAutoPublish ctx env w))))))
  = map settings (user_settings (db w)).
Proof.
  intros Hu Hauth. simpl.
  destruct (toggle_db ctx u env w Hu Hauth) as (t & E1).
  assert (Hauth' : authorized (uid u) (db (world (action_toggle_auto_publish ctx env w)))
                   = true) by now rewrite E1.
  destruct (toggle_db ctx u env' _ Hu Hauth') as (t' & ->). rewrite E1. simpl.
  unfold update_where. rewrite !map_map.
  rewrite <- (map_id (user_settings (db w))) at 2. rewrite map_map.
  apply map_ext. intros [s ts]. simpl.
  destruct (decide (user_id s = uid u)) as [Hs|Hs]; simpl.
  - rewrite decide_True by assumption. simpl. rewrite negb_involutive. now destruct s.
  - now rewrite decide_False by assumption.
Qed.

Lemma X20_toggle_twice_restores_the_settings_witness :
  let env := Sample.env_at 1700000000000 Sample.chatty in
  map settings
    (user_settings
       (db (world (handle ToggleAutoPublish (Sample.private_ctx 1) env
                     (world (handle ToggleAutoPublish (Sample.private_ctx 1) env
                               (Sample.world_of Sample.subscribed_db)))))))
  = map settings (user_settings (db (Sample.world_of Sample.subscribed_db))).
Proof.
  exact (X20_toggle_twice_restores_the_settings (Sample.private_ctx 1) (Sample.person 1)
           _ _ (Sample.world_of Sample.subscribed_db) eq_refl eq_refl).
Defined.

(** X21.  The row that /start inserts holds the defaults that
    [getUserSettings] assumes for a user without a row: registering changes
    the effective settings of nobody. *)
Theorem X21_registering_keeps_the_effective_settings ctx u env w :
  from ctx = Some u ->
  forall x, settings_of x (db (world (handle Start ctx env w))) = settings_of x (db w).
Proof.
  intros Hu x. simpl. destruct (on_start_db ctx u env w Hu) as (t & t' & ->).
  unfold settings_of, insert_user_settings, insert_user. simpl.
  destruct (decide (Exists _ (user_settings (db w)))) as [Hex|Hex]; [reflexivity|].
  rewrite filter_app, filter_cons, filter_nil. simpl.
  destruct (decide (uid u = x)) as [<-|Hx].
  - assert (Hnil : filter (fun r => user_id (settings r) = uid u) (user_settings (db w))
                   = []).
    { apply elem_of_nil_inv. intros r Hr. apply list_elem_of_filter in Hr as [Hr Hin].
      apply Hex, Exists_exists. eauto. }
    now rewrite Hnil.
  - now rewrite app_nil_r.
Qed.

Lemma X21_registering_keeps_the_effective_settings_witness :
  settings_of 5
    (db (world (handle Start (Sample.private_ctx 5)
                  (Sample.env_at 1700000000000 Sample.chatty)
                  (Sample.world_of Sample.subscribed_db))))
  = settings_of 5 (db (Sample.world_of Sample.subscribed_db)).
Proof.
  exact (X21_registering_keeps_the_effective_settings (Sample.private_ctx 5)
           (Sample.person 5) _ _ eq_refl 5).
Defined.

(** ** The list of pending posts *)

#[local] Instance newest_first_total {A} (key : A -> Z) : Total (newest_first key).
Proof. intros a b. unfold newest_first. lia. Qed.

#[local] Instance newest_first_trans {A} (key : A -> Z) : Transitive (newest_first key).
Proof. intros a b c. unfold newest_first. lia. Qed.

(** X22.  Pending Posts changes nothing and shows the caller's own pending
    drafts, at most ten of them and the newest ones: a pending draft of the
    caller that is not shown is not newer than any that is. *)
Theorem X22_pending_list_shows_the_newest_own_drafts ctx u env w :
  from ctx = Some u ->
  authorized (uid u) (db w) = true ->
  let w' := world (handle HearsPendingPosts ctx env w) in
  let own_pending p := p ∈ blog_posts (db w) /\ bp_user_id p = uid u /\ status p = pending in
  db w' = db w
  /\ exists posts,
       trace w' = trace w ++
         match posts with
         | [] => [Reply NoPendingPosts]
         | _ :: _ => map (fun p => Reply (PendingPost p)) posts
         end
       /\ (List.length posts <= 10)%nat
       /\ Forall own_pending posts
       /\ forall p q, p ∈ posts -> own_pending q -> q ∉ posts ->
                      bp_created_at q <= bp_created_at p.
Proof.
  intros Hu Hauth w' own_pending. unfold w'. simpl.
  unfold hears_pending_posts, isAuthorized, from_id. rewrite Hu.
  unfold mbind, M_bind, mret, M_ret, get_db. simpl. rewrite Hauth. simpl.
  set (own := filter (fun p => bp_user_id p = uid u /\ status p = pending)
                (blog_posts (db w))).
  set (sorted := merge_sort (newest_first bp_created_at) own).
  assert (Hown : forall p, p ∈ sorted <-> own_pending p).
  { intros p. unfold sorted. rewrite merge_sort_Permutation. unfold own, own_pending.
    rewrite list_elem_of_filter. tauto. }
  assert (Hshown :
    db (world (match take 10 sorted with
               | [] => emit (Reply NoPendingPosts)
               | _ :: _ => for_of (take 10 sorted)
                             (fun post => emit (Reply (PendingPost post)))
               end env w)) = db w
    /\ trace (world (match take 10 sorted with
               | [] => emit (Reply NoPendingPosts)
               | _ :: _ => for_of (take 10 sorted)
                             (fun post => emit (Reply (PendingPost post)))
               end env w))
       = trace w ++ match take 10 sorted with
                    | [] => [Reply NoPendingPosts]
                    | _ :: _ => map (fun p => Reply (PendingPost p)) (take 10 sorted)
                    end).
  { destruct (take 10 sorted) as [|p l]; [now split|]. now rewrite for_of_emit. }
  destruct Hshown as [Hdb Htr]. split; [exact Hdb|].
  exists (take 10 sorted). split; [exact Htr|]. split; [|split].
  - rewrite length_take. lia.
  - apply Forall_forall. intros p Hp. apply Hown. now apply (subseteq_take 10).
  - intros p q Hp Hq Hnot. apply Hown in Hq.
    rewrite <- (take_drop 10 sorted) in Hq. apply elem_of_app in Hq as [Hq|Hq];
      [contradiction|].
    assert (Hs : StronglySorted (newest_first bp_created_at)
                   (take 10 sorted ++ drop 10 sorted)).
    { rewrite take_drop. apply StronglySorted_merge_sort; typeclasses eauto. }
    exact (StronglySorted_app_1_elem_of _ _ _ _ _ Hs Hp Hq).
Qed.

Lemma X22_pending_list_shows_the_newest_own_drafts_witness :
  let env := Sample.env_at 1700000000000 Sample.chatty in
  let w := Sample.world_of Sample.foreign_draft_db in
  let w' := world (handle HearsPendingPosts (Sample.private_ctx 1) env w) in
  let own_pending p := p ∈ blog_posts (db w) /\ bp_user_id p = 1 /\ status p = pending in
  db w' = db w
  /\ exists posts,
       trace w' = trace w ++
         match posts with
         | [] => [Reply NoPendingPosts]
         | _ :: _ => map (fun p => Reply (PendingPost p)) posts
         end
       /\ (List.length posts <= 10)%nat
       /\ Forall own_pending posts
       /\ forall p q, p ∈ posts -> own_pending q -> q ∉ posts ->
                      bp_created_at q <= bp_created_at p.
Proof.
  exact (X22_pending_list_shows_the_newest_own_drafts (Sample.private_ctx 1)
           (Sample.person 1) (Sample.env_at 1700000000000 Sample.chatty)
           (Sample.world_of Sample.foreign_draft_db) eq_refl eq_refl).
Defined.

(** ** The file a post is committed to *)

Lemma capital_lowered a :
  (65 <=? JS.code a) && (JS.code a <=? 90) = true ->
  kept_alnum (Some (JS.chr (JS.code a + 32))).
Proof.
  destruct a as [[] [] [] [] [] [] [] []]; vm_compute; intros H;
    first [discriminate H | split; [reflexivity|discriminate]].
Qed.

Lemma small_or_digit_kept a :
  ((97 <=? JS.code a) && (JS.code a <=? 122)) || ((48 <=? JS.code a) && (JS.code a <=? 57))
  = true ->
  kept_alnum (Some a).
Proof.
  destruct a as [[] [] [] [] [] [] [] []]; vm_compute; intros H;
    first [discriminate H | split; [reflexivity|discriminate]].
Qed.

Lemma lower_alnum_kept l : Forall kept_alnum (lower_alnum l).
Proof.
  remember (List.length l) as n eqn:Hn.
  assert (Hle : (List.length l <= n)%nat) by lia. clear Hn.
  revert l Hle. induction n as [|n IH]; intros l Hle.
  { destruct l; [constructor|simpl in Hle; lia]. }
  destruct l as [|a l1]; [constructor|]. simpl in Hle.
  assert (H1 : Forall kept_alnum (lower_alnum l1)) by (apply IH; lia).
  cbn [lower_alnum].
  destruct ((65 <=? JS.code a) && (JS.code a <=? 90)) eqn:Ecap.
  { constructor; [now apply capital_lowered|exact H1]. }
  destruct (((97 <=? JS.code a) && (JS.code a <=? 122))
            || ((48 <=? JS.code a) && (JS.code a <=? 57))) eqn:Esmall.
  { constructor; [now apply small_or_digit_kept|exact H1]. }
  set (r1 := lower_alnum l1) in *. clearbody r1.
  destruct l1 as [|b l2]; [now constructor|]. simpl in Hle.
  assert (H2 : Forall kept_alnum (lower_alnum l2)) by (apply IH; lia).
  destruct ((JS.code a =? 196) && (JS.code b =? 176)).
  { constructor; [split; [reflexivity|discriminate]|]. now constructor. }
  destruct l2 as [|c l3]; [now constructor|]. simpl in Hle.
  assert (H3 : Forall kept_alnum (lower_alnum l3)) by (apply IH; lia).
  destruct ((JS.code a =? 226) && (JS.code b =? 132) && (JS.code c =? 170)).
  - constructor; [split; [reflexivity|discriminate]|exact H3].
  - now constructor.
Qed.

Lemma dash_runs_chars in_run l :
  Forall kept_alnum l -> Forall (fun c => slug_char c = true) (dash_runs in_run l).
Proof.
  intros Hl. revert in_run. induction Hl as [|o l Ho _ IH]; intros in_run; [constructor|].
  destruct o as [c|]; simpl.
  - constructor; [apply Ho|apply IH].
  - destruct in_run; [apply IH|]. constructor; [reflexivity|apply IH].
Qed.

Lemma single_dashes_cons a b r :
  single_dashes (a :: b :: r)
  = negb ((JS.code a =? 45) && (JS.code b =? 45)) && single_dashes (b :: r).
Proof. reflexivity. Qed.

Lemma dash_runs_single l :
  Forall kept_alnum l ->
  forall in_run,
    single_dashes (dash_runs in_run l) = true
    /\ (in_run = true ->
        match dash_runs in_run l with c :: _ => JS.code c <> 45 | [] => True end).
Proof.
  induction 1 as [|o l Ho _ IH]; intros in_run; [now split|].
  destruct o as [c|]; cbn [dash_runs].
  - destruct (IH false) as [Hs _]. destruct Ho as [_ Hc]. split; [|intros _; exact Hc].
    destruct (dash_runs false l) as [|b r]; [reflexivity|].
    rewrite single_dashes_cons, Hs.
    replace (JS.code c =? 45) with false by (symmetry; now apply Z.eqb_neq).
    reflexivity.
  - destruct in_run.
    + apply IH.
    + destruct (IH true) as [Hs Hhead]. split; [|discriminate].
      destruct (dash_runs true l) as [|b r]; [reflexivity|].
      rewrite single_dashes_cons, Hs.
      replace (JS.code b =? 45) with false
        by (symmetry; apply Z.eqb_neq; now apply Hhead).
      now rewrite andb_false_r.
Qed.

(** X23.  Whatever the title, the slug in the name of the committed file
    consists of small letters, digits and single dashes: a title cannot put
    a slash, a dot or a blank into the path. *)
Theorem X23_slug_is_lower_alnum_and_single_dashes title :
  Forall (fun c => slug_char c = true) (JS.chars (slug title))
  /\ single_dashes (JS.chars (slug title)) = true.
Proof.
  unfold slug, JS.chars, JS.str. rewrite list_ascii_of_string_of_list_ascii. split.
  - apply dash_runs_chars, lower_alnum_kept.
  - apply dash_runs_single, lower_alnum_kept.
Qed.

(** ** Numbers read from a text *)

Lemma round_half_even_nonneg p q : 0 <= p -> 0 < q -> 0 <= JS.round_half_even p q.
Proof.
  intros Hp Hq. unfold JS.round_half_even.
  assert (0 <= p / q) by (apply Z.div_pos; lia).
  repeat match goal with |- context [if ?b then _ else _] => destruct b end; lia.
Qed.

Lemma to_double_nonneg neg p q :
  0 <= p -> 0 < q -> mantissa_nonneg (JS.to_double neg p q).
Proof.
  intros Hp Hq. unfold JS.to_double. destruct (p =? 0); [simpl; lia|]. cbv zeta.
  match goal with |- context [Z.max ?a ?b] => generalize (Z.max a b) end. intros e.
  destruct (_ <=? _ * _); [exact I|]. simpl.
  destruct (0 <=? e) eqn:E.
  - apply round_half_even_nonneg; [lia|]. apply Z.mul_pos_pos; [lia|].
    apply Z.pow_pos_nonneg; lia.
  - apply round_half_even_nonneg; [|lia]. apply Z.mul_nonneg_nonneg; [lia|].
    apply Z.pow_nonneg. lia.
Qed.

Lemma digit_of_nonneg base c v : JS.digit_of base c = Some v -> 0 <= v.
Proof.
  unfold JS.digit_of. cbv zeta.
  destruct ((48 <=? JS.code c) && (JS.code c <=? 57)) eqn:E1;
    [|destruct ((97 <=? JS.code c) && (JS.code c <=? 102)) eqn:E2;
      [|destruct ((65 <=? JS.code c) && (JS.code c <=? 70)) eqn:E3]];
    destruct (_ <? _); try discriminate; intros [= <-];
    repeat match goal with
           | H : _ && _ = true |- _ => apply andb_true_iff in H as [?%Z.leb_le ?%Z.leb_le]
           end; lia.
Qed.

Lemma digits_nonneg base l : forall acc n,
  0 <= base -> 0 <= acc -> 0 <= fst (fst (JS.digits base acc n l)).
Proof.
  induction l as [|c l IH]; intros acc n Hb Ha; simpl; [exact Ha|].
  destruct (JS.digit_of base c) as [v|] eqn:E; [|exact Ha].
  apply IH; [exact Hb|]. apply digit_of_nonneg in E. nia.
Qed.

Lemma of_decimal_nonneg neg mant exp10 :
  0 <= mant -> mantissa_nonneg (JS.of_decimal neg mant exp10).
Proof.
  intros Hm. unfold JS.of_decimal. destruct (0 <=? exp10) eqn:E.
  - apply to_double_nonneg; [|lia]. apply Z.mul_nonneg_nonneg; [lia|].
    apply Z.pow_nonneg. lia.
  - apply to_double_nonneg; [lia|]. apply Z.pow_pos_nonneg; lia.
Qed.

Lemma unsigned_decimal_nonneg neg l : mantissa_nonneg (JS.unsigned_decimal neg l).
Proof.
  unfold JS.unsigned_decimal.
  pose proof (digits_nonneg 10 l 0 0 ltac:(lia) ltac:(lia)) as Hip.
  destruct (JS.digits 10 0 0 l) as [[ip ni] l1]. simpl in Hip.
  assert (Hfp : forall fp nf l2,
    match l1 with
    | c :: l1' => if JS.code c =? 46 then
                    let '(v, n, r) := JS.digits 10 ip 0 l1' in (v, Some n, r)
                  else (ip, None, l1)
    | [] => (ip, None, l1)
    end = (fp, nf, l2) -> 0 <= fp).
  { intros fp nf l2. destruct l1 as [|c l1']; [now intros [= <- _ _]|].
    destruct (JS.code c =? 46); [|now intros [= <- _ _]].
    pose proof (digits_nonneg 10 l1' ip 0 ltac:(lia) Hip) as H.
    destruct (JS.digits 10 ip 0 l1') as [[v n] r]. simpl in H. now intros [= <- _ _]. }
  destruct (match l1 with [] => _ | _ => _ end) as [[fp nf] l2].
  specialize (Hfp fp nf l2 eq_refl).
  destruct (negb _); [exact I|].
  destruct l2 as [|x l2]; [now apply of_decimal_nonneg|].
  destruct (JS.exponent_part _) as [[ex [|y r]]|]; try exact I.
  now apply of_decimal_nonneg.
Qed.

Lemma radix_literal_nonneg base l : 0 <= base -> mantissa_nonneg (JS.radix_literal base l).
Proof.
  intros Hb. unfold JS.radix_literal.
  pose proof (digits_nonneg base l 0 0 Hb ltac:(lia)) as H.
  destruct (JS.digits base 0 0 l) as [[v n] [|x r]]; [|exact I]. simpl in H.
  destruct (n =? 0); [exact I|]. apply to_double_nonneg; lia.
Qed.

Lemma Number_nonneg s : mantissa_nonneg (JS.Number s).
Proof.
  unfold JS.Number. destruct (JS.chars (JS.trim s)) as [|c l]; [simpl; lia|]. cbv zeta.
  assert (Hd : mantissa_nonneg
    (if JS.code c =? 45 then
       if String.eqb (JS.str l) "Infinity" then JS.Infinity true
       else JS.unsigned_decimal true l
     else if JS.code c =? 43 then
       if String.eqb (JS.str l) "Infinity" then JS.Infinity false
       else JS.unsigned_decimal false l
     else if String.eqb (JS.str (c :: l)) "Infinity" then JS.Infinity false
     else JS.unsigned_decimal false (c :: l))).
  { repeat match goal with |- context [if ?b then _ else _] => destruct b end;
      first [exact I | apply unsigned_decimal_nonneg]. }
  destruct (JS.code c =? 48); [|exact Hd].
  destruct l as [|x l']; [exact Hd|].
  repeat match goal with
         | |- mantissa_nonneg (if ?b then _ else _) => destruct b
         end; first [apply radix_literal_nonneg; lia | exact Hd].
Qed.

(** A whole number above zero is at least one. *)
Lemma Number_positive s :
  JS.isInteger (JS.Number s) = true ->
  JS.le_zero (JS.Number s) = false ->
  1 <= JS.int_value (JS.Number s).
Proof.
  pose proof (Number_nonneg s) as Hm.
  destruct (JS.Number s) as [|neg|neg m e]; simpl; try discriminate.
  intros Hint Hpos. simpl in Hm.
  apply orb_false_iff in Hpos as [-> Hm0]. apply Z.eqb_neq in Hm0.
  destruct (0 <=? e) eqn:E.
  - assert (0 < 2 ^ e) by (apply Z.pow_pos_nonneg; lia). nia.
  - simpl in Hint. apply Z.eqb_eq in Hint.
    assert (Hp : 0 < 2 ^ (- e)) by (apply Z.pow_pos_nonneg; lia).
    pose proof (Z.div_mod m (2 ^ (- e)) ltac:(lia)) as Hdm. rewrite Hint in Hdm.
    assert (0 <= m / 2 ^ (- e)) by (apply Z.div_pos; lia). nia.
Qed.

(** ** What the actions do to the accounts *)

#[local] Instance same_accounts_refl : Reflexive same_accounts.
Proof. intros w. now split. Qed.

#[local] Instance same_accounts_trans : Transitive same_accounts.
Proof. intros w1 w2 w3 [H1 H2] [H3 H4]. split; congruence. Qed.

Lemma handle_accounts a ctx env w :
  accounts_step (db w) (db (world (handle a ctx env w))).
Proof.
  destruct (from ctx) as [u|] eqn:Hu.
  2: { destruct a; simpl;
       try (unfold on_start, hears_status, hears_settings, action_toggle_auto_publish,
              action_set_combine_time, action_set_notion_db, action_set_github_repo,
              action_ask, hears_subscribe, hears_list_sources, hears_pending_posts,
              hears_manage_users, command_authorize, command_revoke,
              command_set_authorized, command_unsubscribe, on_forward_origin,
              action_back_to_main, action_edit, action_publish, action_reject,
              isAuthorized, from_id;
            rewrite ?Hu; run; repeat (split_match; simpl);
            now apply accounts_same).
       unfold on_text. destruct (bool_decide _).
       - destruct (handleIncomingMessage_ingested (fun _ => True) ctx message env w)
           as [(H1 & H2 & _) _]; [tauto|]. now apply accounts_same.
       - rewrite Hu. run. now apply accounts_same. }
  destruct a; simpl;
    try (unfold hears_status, hears_settings,
           action_set_combine_time, action_set_notion_db, action_set_github_repo,
           action_ask, hears_subscribe, hears_list_sources,
           hears_manage_users, command_unsubscribe, on_forward_origin,
           action_back_to_main, action_edit, action_reject,
           isAuthorized, from_id, getUserSettings;
         rewrite ?Hu; run; repeat (split_match; simpl);
         now apply accounts_same).
  - (* /start *)
    destruct (on_start_db ctx u env w Hu) as (t & t' & ->).
    now eapply accounts_registered.
  - (* toggle_auto_publish *)
    unfold action_toggle_auto_publish, isAuthorized, from_id, getUserSettings.
    rewrite Hu. run. destruct (authorized (uid u) (db w)); simpl;
      [|now apply accounts_same].
    eapply (accounts_setting _ _ (fun r => user_id (settings r) = uid u)
              (fun s => set_auto_publish (negb (auto_publish s)) s));
      [reflexivity|reflexivity|reflexivity|now intros s].
  - (* Pending Posts *)
    unfold hears_pending_posts, isAuthorized, from_id. rewrite Hu.
    unfold mbind, M_bind, mret, M_ret, get_db. simpl.
    destruct (authorized (uid u) (db w)); simpl; [|now apply accounts_same].
    destruct (take 10 _) as [|p l] eqn:E; [now apply accounts_same|].
    rewrite for_of_emit. now apply accounts_same.
  - (* /authorize *)
    unfold command_authorize, command_set_authorized. rewrite Hu. run.
    repeat (split_match; simpl); try now apply accounts_same.
    now eapply accounts_flag.
  - (* /revoke *)
    unfold command_revoke, command_set_authorized. rewrite Hu. run.
    repeat (split_match; simpl); try now apply accounts_same.
    now eapply accounts_flag.
  - (* text *)
    unfold on_text. destruct (bool_decide _).
    { destruct (handleIncomingMessage_ingested (fun _ => True) ctx message env w)
        as [(H1 & H2 & _) _]; [tauto|]. now apply accounts_same. }
    unfold from_id. rewrite Hu. run.
    destruct (userStates w !! uid u) as [state|]; [|now apply accounts_same].
    destruct state; simpl.
    + destruct (varchar 255 _); simpl; [|now apply accounts_same].
      eapply (accounts_setting _ _ _ (set_notion_database_id _));
        [reflexivity|reflexivity|reflexivity|now intros ?].
    + destruct (JS.test_owner_repo _); simpl; [|now apply accounts_same].
      destruct (varchar 255 _); simpl; [|now apply accounts_same].
      eapply (accounts_setting _ _ _ (set_github_repo_column _));
        [reflexivity|reflexivity|reflexivity|now intros ?].
    + destruct (JS.isInteger _) eqn:Hint; simpl; [|now apply accounts_same].
      destruct (JS.le_zero _) eqn:Hpos; simpl; [now apply accounts_same|].
      destruct (int4 _); simpl; [|now apply accounts_same].
      eapply (accounts_setting _ _ _ (set_combine_threshold_minutes _));
        [reflexivity|reflexivity|reflexivity|].
      intros ? _. simpl. now apply Number_positive.
    + destruct (int4 _); simpl; now apply accounts_same.
  - (* publish_ *)
    unfold action_publish, from_id. rewrite Hu.
    destruct (negb _); [run; now apply accounts_same|].
    assert (Hk : keeps same_accounts
                   (mret (uid u) ≫= fun userId =>
                      publishPost (JS.int_value (JS.Number capture)) userId ;;
                      emit (AnswerCbQuery CbPublishing) ;; emit DeleteMessage)).
    { apply keeps_bind; try typeclasses eauto; [now apply keeps_ret|].
      intros userId. apply keeps_bind; try typeclasses eauto.
      { apply publishPost_keeps; try typeclasses eauto; intros; now split. }
      intros _. apply keeps_bind; try typeclasses eauto;
        [apply keeps_emit | intros _; apply keeps_emit]; intros; now split. }
    destruct (Hk env w) as [H1 H2]. now apply accounts_same.
Qed.
Lemma accounts_step_positive d d' :
  accounts_step d d' -> positive_thresholds d -> positive_thresholds d'.
Proof.
  unfold positive_thresholds.
  intros [Hu Hs|userId name flag t t' Hu Hs|P dec flag Hu Hs|P dec f t Hu Hs Hid Hthr] Hpos;
    rewrite Hs; try exact Hpos.
  - simpl. destruct (decide (Exists _ (user_settings d))); [exact Hpos|].
    apply Forall_app. split; [exact Hpos|]. constructor; [simpl; lia|constructor].
  - unfold update_where. apply Forall_fmap. eapply Forall_impl; [exact Hpos|].
    intros r Hr. simpl. destruct (decide (P r)); [now apply Hthr|exact Hr].
Qed.

Lemma accounts_step_settled d d' :
  accounts_step d d' -> settled d -> settled d'.
Proof.
  unfold settled.
  intros [Hu Hs|userId name flag t t' Hu Hs|P dec flag Hu Hs|P dec f t Hu Hs Hid Hthr] Hset;
    rewrite Hu, Hs; try exact Hset.
  - assert (Hold : Forall (fun r => Exists (fun s => user_id (settings s) = u_user_id r)
                                      (user_settings (insert_user_settings userId t' d)))
                     (users d)).
    { eapply Forall_impl; [exact Hset|]. intros r Hr. simpl.
      destruct (decide (Exists _ (user_settings d))); [exact Hr|].
      apply Exists_app. now left. }
    simpl. destruct (decide (Exists _ (users d))); [exact Hold|].
    apply Forall_app. split; [exact Hold|]. constructor; [|constructor]. simpl.
    destruct (decide (Exists _ (user_settings d))) as [Hex|Hex]; [exact Hex|].
    apply Exists_app. right. now constructor.
  - unfold update_where. apply Forall_fmap. eapply Forall_impl; [exact Hset|].
    intros r Hr. simpl. now destruct (decide (P r)).
  - eapply Forall_impl; [exact Hset|]. intros r Hr.
    unfold update_where. apply Exists_fmap. eapply Exists_impl; [exact Hr|].
    intros s Hsr. simpl. destruct (decide (P s)); [simpl; now rewrite Hid|exact Hsr].
Qed.

(** X24.  No action and no tick brings a combine time below one minute:
    the text handler stores only what [Number] reads as a whole number above
    zero, a registration stores the default, and nothing else writes the
    column. *)
Theorem X24_combine_times_stay_positive a ctx env w :
  positive_thresholds (db w) ->
  positive_thresholds (db (world (handle a ctx env w)))
  /\ positive_thresholds (db (world (processMessages env w))).
Proof.
  intros Hpos. split.
  - exact (accounts_step_positive _ _ (handle_accounts a ctx env w) Hpos).
  - destruct (processMessages_ticked env w) as (_ & Hs & _).
    unfold positive_thresholds. now rewrite Hs.
Qed.

Lemma X24_combine_times_stay_positive_witness :
  positive_thresholds
    (db (world (handle (PrivateText (Sample.text_message 40 "7")) (Sample.private_ctx 1)
                  (Sample.env_at 1700000000000 Sample.chatty)
                  Sample.asked_combine_time)))
  /\ positive_thresholds
       (db (world (processMessages (Sample.env_at 1700000000000 Sample.chatty)
                     Sample.asked_combine_time))).
Proof.
  apply (X24_combine_times_stay_positive (PrivateText (Sample.text_message 40 "7"))).
  unfold positive_thresholds. simpl. constructor; [simpl; lia|constructor].
Defined.

(** X25.  Every registered user has a row of settings, and no action and
    no tick changes that: /start inserts both rows, and no row of settings
    is ever deleted or handed to another user. *)
Theorem X25_registered_users_keep_their_settings a ctx env w :
  settled (db w) ->
  settled (db (world (handle a ctx env w)))
  /\ settled (db (world (processMessages env w))).
Proof.
  intros Hset. split.
  - exact (accounts_step_settled _ _ (handle_accounts a ctx env w) Hset).
  - destruct (processMessages_ticked env w) as (Hu & Hs & _).
    unfold settled. now rewrite Hu, Hs.
Qed.

Lemma X25_registered_users_keep_their_settings_witness :
  settled
    (db (world (handle Start (Sample.private_ctx 5)
                  (Sample.env_at 1700000000000 Sample.chatty)
                  (Sample.world_of Sample.subscribed_db))))
  /\ settled
       (db (world (processMessages (Sample.env_at 1700000000000 Sample.chatty)
                     (Sample.world_of Sample.subscribed_db)))).
Proof.
  apply (X25_registered_users_keep_their_settings Start).
  unfold settled. simpl. constructor; [|constructor]. now constructor.
Defined.

(** ** The buttons under a draft *)

(** X26.  The buttons under a draft never look at the table of users:
    with any other table, and so for a user who was never authorized or
    whose authorization is revoked, publish_, reject_ and edit_ do the same
    and leave that table alone. *)
Theorem X26_draft_buttons_ignore_authorization capture ctx env w f :
  handle (Publish capture) ctx env (with_users_in f w)
  = in_world (with_users_in f) (handle (Publish capture) ctx env w)
  /\ handle (Reject capture) ctx env (with_users_in f w)
     = in_world (with_users_in f) (handle (Reject capture) ctx env w)
  /\ handle (Edit capture) ctx env (with_users_in f w)
     = in_world (with_users_in f) (handle (Edit capture) ctx env w).
Proof.
  simpl. unfold action_publish, action_reject, action_edit, from_id.
  destruct (negb _); [run; now repeat split|].
  destruct (from ctx) as [u|]; [|run; now repeat split].
  split; [|run; now split].
  unfold publishPost, publishToNotion, publishToGitHub, getUserSettings, settings_of. run.
  repeat (split_match; simpl); reflexivity.
Qed.

(** ** What belongs to the other users *)

Lemma filter_insert_settings userId t d :
  foreign_settings userId (insert_user_settings userId t d) = foreign_settings userId d.
Proof.
  unfold foreign_settings, insert_user_settings. simpl.
  destruct (decide (Exists _ (user_settings d))); [reflexivity|].
  rewrite filter_app, filter_cons, filter_nil. simpl.
  rewrite decide_False by (intros H; now apply H). apply app_nil_r.
Qed.

(** X27.  No action of a user changes a source or a row of settings of
    another user. *)
Theorem X27_actions_leave_foreign_sources_and_settings a ctx u env w :
  from ctx = Some u ->
  foreign_sources (uid u) (db (world (handle a ctx env w)))
  = foreign_sources (uid u) (db w)
  /\ foreign_settings (uid u) (db (world (handle a ctx env w)))
     = foreign_settings (uid u) (db w).
Proof.
  intros Hu.
  destruct a; simpl;
    try (unfold hears_status, hears_settings,
           action_set_combine_time, action_set_notion_db, action_set_github_repo,
           action_ask, hears_subscribe, hears_list_sources, hears_manage_users,
           command_authorize, command_revoke, command_set_authorized,
           action_back_to_main, action_edit, action_reject,
           isAuthorized, from_id, getUserSettings;
         rewrite ?Hu; run; repeat (split_match; simpl); now split).
  - (* /start *)
    destruct (on_start_db ctx u env w Hu) as (t & t' & ->).
    split; [reflexivity|]. rewrite filter_insert_settings. reflexivity.
  - (* toggle_auto_publish *)
    unfold action_toggle_auto_publish, isAuthorized, from_id, getUserSettings.
    rewrite Hu. run. destruct (authorized (uid u) (db w)); simpl; [|now split].
    split; [reflexivity|]. unfold foreign_settings. simpl.
    apply filter_update_where_others; simpl; tauto.
  - (* Pending Posts *)
    unfold hears_pending_posts, isAuthorized, from_id. rewrite Hu.
    unfold mbind, M_bind, mret, M_ret, get_db. simpl.
    destruct (authorized (uid u) (db w)); simpl; [|now split].
    destruct (take 10 _) as [|p l] eqn:E; [now split|].
    rewrite for_of_emit. now split.
  - (* /unsubscribe *)
    unfold command_unsubscribe, isAuthorized, from_id. rewrite Hu. run.
    repeat (split_match; simpl); try now split.
    split; [|reflexivity]. unfold foreign_sources. simpl.
    apply filter_update_where_others; simpl; tauto.
  - (* a forwarded message *)
    unfold on_forward_origin, isAuthorized, from_id. rewrite Hu. run.
    repeat (split_match; simpl); try now split.
    all: split; [|reflexivity]; unfold foreign_sources; simpl.
    all: destruct (decide (Exists _ (monitored_sources (db w))));
      [apply filter_update_where_others; simpl; tauto|].
    all: rewrite filter_app, filter_cons, filter_nil; simpl.
    all: rewrite decide_False by (intros H; now apply H); apply app_nil_r.
  - (* text *)
    unfold on_text. destruct (bool_decide _).
    { destruct (handleIncomingMessage_ingested (fun _ => True) ctx message env w)
        as [(_ & H2 & H3 & _) _]; [tauto|].
      unfold foreign_sources, foreign_settings. now rewrite H2, H3. }
    unfold from_id. rewrite Hu. run.
    destruct (userStates w !! uid u) as [state|]; [|now split].
    destruct state; simpl; repeat (split_match; simpl); try now split.
    all: split; [reflexivity|]; unfold foreign_settings; simpl;
      apply filter_update_where_others; simpl; tauto.
  - (* publish_ *)
    unfold action_publish, from_id. rewrite Hu.
    destruct (negb _); [run; now split|].
    assert (Hk : keeps (fun w w' => monitored_sources (db w') = monitored_sources (db w)
                                    /\ user_settings (db w') = user_settings (db w))
                   (mret (uid u) ≫= fun userId =>
                      publishPost (JS.int_value (JS.Number capture)) userId ;;
                      emit (AnswerCbQuery CbPublishing) ;; emit DeleteMessage)).
    { assert (Hr : Reflexive (fun w w' : World =>
                      monitored_sources (db w') = monitored_sources (db w)
                      /\ user_settings (db w') = user_settings (db w)))
        by (intros x; now split).
      assert (Ht : Transitive (fun w w' : World =>
                      monitored_sources (db w') = monitored_sources (db w)
                      /\ user_settings (db w') = user_settings (db w)))
        by (intros x y z [H1 H2] [H3 H4]; split; congruence).
      apply keeps_bind; try assumption; [now apply keeps_ret|].
      intros userId. apply keeps_bind; try assumption.
      { apply publishPost_keeps; try assumption; intros; now split. }
      intros _. apply keeps_bind; try assumption;
        [apply keeps_emit | intros _; apply keeps_emit]; intros; now split. }
    destruct (Hk env w) as [H1 H2].
    unfold foreign_sources, foreign_settings. now rewrite H1, H2.
Qed.

Lemma X27_actions_leave_foreign_sources_and_settings_witness :
  let w := Sample.world_of Sample.two_owners_db in
  let w' := world (handle ToggleAutoPublish (Sample.private_ctx 1)
                     (Sample.env_at 1700000000000 Sample.chatty) w) in
  foreign_sources 1 (db w') = foreign_sources 1 (db w)
  /\ foreign_settings 1 (db w') = foreign_settings 1 (db w).
Proof.
  exact (X27_actions_leave_foreign_sources_and_settings ToggleAutoPublish
           (Sample.private_ctx 1) (Sample.person 1)
           (Sample.env_at 1700000000000 Sample.chatty)
           (Sample.world_of Sample.two_owners_db) eq_refl).
Defined.

(** ** Auto-publish *)



